(** * A multi-agent paper reviewer

    Shallow embedding of the message envelopes ([mcp_server/base_server.py]),
    the four stage adapters ([agents/*_agent.py]) and the review workflow
    ([agents/orchestrator.py]), followed by the properties of the coordination
    contract: envelope pass-through, per-stage failure policy, counters,
    the error list, checkpoints and the bounds of the extraction stage. *)

From Stdlib Require Import ZArith QArith_base.
From stdpp Require Import gmap strings list pretty.

Local Close Scope Q_scope.
Local Open Scope string_scope.
Set Warnings "-register-all".

(** ** Python values

    Messages, payloads and results are plain Python objects built from
    [None], booleans, integers, floats, strings, lists and dicts with
    string keys.  A dict keeps its insertion order, so it is an association
    list; every dict literal of the sources has distinct keys. *)

Inductive value : Type :=
| VNone
| VBool (b : bool)
| VInt (z : Z)
| VFloat (q : Q)
| VStr (s : string)
| VList (l : list value)
| VDict (d : list (string * value)).

Definition type_name (v : value) : string :=
  match v with
  | VNone => "NoneType"
  | VBool _ => "bool"
  | VInt _ => "int"
  | VFloat _ => "float"
  | VStr _ => "str"
  | VList _ => "list"
  | VDict _ => "dict"
  end.

(** ** Exceptions

    Only subclasses of [Exception] are modelled: they are what
    [except Exception] catches.  [OtherError] stands for whatever an
    external library raises. *)

Inductive exn : Type :=
| AttributeError (msg : string)
| KeyError (key : string)
| TypeError (msg : string)
| ValueError (msg : string)
| GraphRecursionError (msg : string)
| OtherError (cls msg : string).

(** [str(e)]; a [KeyError] prints the repr of the missing key. *)
Definition str_exn (e : exn) : string :=
  match e with
  | AttributeError m | TypeError m | ValueError m
  | GraphRecursionError m | OtherError _ m => m
  | KeyError k => "'" +:+ k +:+ "'"
  end.

Inductive outcome (A : Type) : Type :=
| Ret (a : A)
| Raise (e : exn).
Arguments Ret {A} a.
Arguments Raise {A} e.

(** ** State and exception monad

    A computation reads and updates a store [S] and either returns or
    raises; the store as it was when the exception left is kept, as Python
    keeps the heap. *)

Definition ST (S A : Type) : Type := S -> outcome A * S.

Definition ret {S A} (a : A) : ST S A := fun s => (Ret a, s).

Definition raise {S A} (e : exn) : ST S A := fun s => (Raise e, s).

Definition bind {S A B} (m : ST S A) (k : A -> ST S B) : ST S B :=
  fun s =>
    match m s with
    | (Ret a, s') => k a s'
    | (Raise e, s') => (Raise e, s')
    end.

(** [try: body  except Exception as e: handler e] *)
Definition try_except {S A} (body : ST S A) (handler : exn -> ST S A) : ST S A :=
  fun s =>
    match body s with
    | (Ret a, s') => (Ret a, s')
    | (Raise e, s') => handler e s'
    end.

Definition pure_op {S A} (o : outcome A) : ST S A := fun s => (o, s).

Definition gets {S A} (f : S -> A) : ST S A := fun s => (Ret (f s), s).

Definition modify {S} (f : S -> S) : ST S unit := fun s => (Ret tt, f s).

Declare Scope py_scope.
Delimit Scope py_scope with py.
Notation "'let!' x ':=' m 'in' k" := (bind m (fun x => k))
  (at level 10, x pattern, m at level 100, k at level 200) : py_scope.
Notation "m ';;;' k" := (bind m (fun _ => k))
  (at level 100, k at level 200, right associativity) : py_scope.
Local Open Scope py_scope.

(** ** Builtins *)

(** The entry of a key in an association list (the first one). *)
Fixpoint find_key {A} (k : string) (l : list (string * A)) : option A :=
  match l with
  | [] => None
  | (k', a) :: l' => if String.eqb k k' then Some a else find_key k l'
  end.

Definition no_attribute (v : value) (attr : string) : exn :=
  AttributeError ("'" +:+ type_name v +:+ "' object has no attribute '" +:+ attr +:+ "'").

(** [v.get(k, dflt)]: only a dict has the method. *)
Definition dict_get (v : value) (k : string) (dflt : value) : outcome value :=
  match v with
  | VDict d => Ret (default dflt (find_key k d))
  | _ => Raise (no_attribute v "get")
  end.

(** [v[k]] for a string key [k]. *)
Definition subscript (v : value) (k : string) : outcome value :=
  match v with
  | VDict d =>
      match find_key k d with
      | Some x => Ret x
      | None => Raise (KeyError k)
      end
  | VStr _ => Raise (TypeError "string indices must be integers, not 'str'")
  | VList _ => Raise (TypeError "list indices must be integers or slices, not str")
  | _ => Raise (TypeError ("'" +:+ type_name v +:+ "' object is not subscriptable"))
  end.

(** [len(v)] *)
Definition py_len (v : value) : outcome nat :=
  match v with
  | VStr s => Ret (String.length s)
  | VList l => Ret (length l)
  | VDict d => Ret (length d)
  | _ => Raise (TypeError ("object of type '" +:+ type_name v +:+ "' has no len()"))
  end.

(** Whether [format(v, ".1f")] is accepted: numbers (and booleans, which are
    integers) are, everything else raises. *)
Definition format_fixed (v : value) : outcome unit :=
  match v with
  | VBool _ | VInt _ | VFloat _ => Ret tt
  | VStr _ => Raise (ValueError "Unknown format code 'f' for object of type 'str'")
  | _ => Raise (TypeError ("unsupported format string passed to "
                           +:+ type_name v +:+ ".__format__"))
  end.

(** [v == s] for a string literal [s]. *)
Definition eq_str (v : value) (s : string) : bool :=
  match v with
  | VStr s' => String.eqb s' s
  | _ => false
  end.

(** The Python runtime's [repr] of floats and containers, used when such a
    value is interpolated in an f-string. *)
Class Python := { repr : value -> string }.

(** [str(v)], the text an f-string interpolates. *)
Definition py_str `{Python} (v : value) : string :=
  match v with
  | VNone => "None"
  | VBool true => "True"
  | VBool false => "False"
  | VInt z => pretty z
  | VStr s => s
  | _ => repr v
  end.

(** Truth value of an object, as [or] and [if] test it. *)
Definition truthy (v : value) : bool :=
  match v with
  | VNone => false
  | VBool b => b
  | VInt z => negb (Z.eqb z 0)
  | VFloat q => negb (Z.eqb (Qnum q) 0)
  | VStr s => negb (String.eqb s "")
  | VList l => match l with [] => false | _ => true end
  | VDict d => match d with [] => false | _ => true end
  end.

(** ** String methods

    A text is a sequence of one-byte characters; character classes are
    those of the ASCII range. *)
Module PyStr.

Definition nl : string := String (Ascii.ascii_of_nat 10) EmptyString.

Definition is_space (c : Ascii.ascii) : bool :=
  let n := Ascii.nat_of_ascii c in
  (Nat.leb 9 n && Nat.leb n 13) || (Nat.leb 28 n && Nat.leb n 32).

Definition is_upper (c : Ascii.ascii) : bool :=
  let n := Ascii.nat_of_ascii c in Nat.leb 65 n && Nat.leb n 90.

Definition is_lower (c : Ascii.ascii) : bool :=
  let n := Ascii.nat_of_ascii c in Nat.leb 97 n && Nat.leb n 122.

Fixpoint lstrip (s : string) : string :=
  match s with
  | String c s' => if is_space c then lstrip s' else s
  | EmptyString => EmptyString
  end.

Fixpoint rev_onto (s acc : string) : string :=
  match s with
  | String c s' => rev_onto s' (String c acc)
  | EmptyString => acc
  end.

Definition rev (s : string) : string := rev_onto s EmptyString.

(** [s.strip()] *)
Definition strip (s : string) : string := rev (lstrip (rev (lstrip s))).

(** [s.lower()] *)
Fixpoint lower (s : string) : string :=
  match s with
  | String c s' =>
      String (if is_upper c then Ascii.ascii_of_nat (Ascii.nat_of_ascii c + 32) else c)
             (lower s')
  | EmptyString => EmptyString
  end.

Fixpoint any_char (p : Ascii.ascii -> bool) (s : string) : bool :=
  match s with
  | String c s' => p c || any_char p s'
  | EmptyString => false
  end.

(** [s.isupper()]: some cased character, and none of them lowercase. *)
Definition isupper (s : string) : bool :=
  any_char is_upper s && negb (any_char is_lower s).

(** [s.split(sep)] for a non-empty separator: left to right, without
    overlaps; [skip] counts the characters of a separator still to drop and
    [cur] holds the current piece backwards. *)
Fixpoint split_go (sep s : string) (skip : nat) (cur : string) : list string :=
  match s with
  | EmptyString => [rev cur]
  | String c s' =>
      match skip with
      | S k => split_go sep s' k cur
      | O =>
          if String.prefix sep s
          then rev cur :: split_go sep s' (String.length sep - 1) EmptyString
          else split_go sep s' 0 (String c cur)
      end
  end.

Definition split (sep s : string) : list string := split_go sep s 0 EmptyString.

(** [s.split()]: the maximal runs of characters that are not whitespace. *)
Fixpoint words_go (s cur : string) : list string :=
  match s with
  | EmptyString => match cur with EmptyString => [] | _ => [rev cur] end
  | String c s' =>
      if is_space c
      then match cur with
           | EmptyString => words_go s' EmptyString
           | _ => rev cur :: words_go s' EmptyString
           end
      else words_go s' (String c cur)
  end.

Definition words (s : string) : list string := words_go s EmptyString.

(** [s[:n]] and [s[i:j]] *)
Definition prefix_slice (n : nat) (s : string) : string := String.substring 0 n s.

Definition slice (i j : nat) (s : string) : string := String.substring i (j - i) s.

(** [s[i:]] *)
Definition suffix_slice (i : nat) (s : string) : string :=
  String.substring i (String.length s - i) s.

End PyStr.

(** ** Pipeline state ([ReviewState]) *)

Record ReviewState : Type := {
  paper_source : string;
  source_type : string;
  session_id : string;
  paper_content : value;
  critic_analysis : value;
  citation_data : value;
  final_review : value;
  errors : list string;
  stage : string;
  start_time : string;
  tool_calls : Z
}.

Definition set_paper_content (v : value) (st : ReviewState) : ReviewState :=
  {| paper_source := paper_source st; source_type := source_type st;
     session_id := session_id st; paper_content := v;
     critic_analysis := critic_analysis st; citation_data := citation_data st;
     final_review := final_review st; errors := errors st; stage := stage st;
     start_time := start_time st; tool_calls := tool_calls st |}.

Definition set_critic_analysis (v : value) (st : ReviewState) : ReviewState :=
  {| paper_source := paper_source st; source_type := source_type st;
     session_id := session_id st; paper_content := paper_content st;
     critic_analysis := v; citation_data := citation_data st;
     final_review := final_review st; errors := errors st; stage := stage st;
     start_time := start_time st; tool_calls := tool_calls st |}.

Definition set_citation_data (v : value) (st : ReviewState) : ReviewState :=
  {| paper_source := paper_source st; source_type := source_type st;
     session_id := session_id st; paper_content := paper_content st;
     critic_analysis := critic_analysis st; citation_data := v;
     final_review := final_review st; errors := errors st; stage := stage st;
     start_time := start_time st; tool_calls := tool_calls st |}.

Definition set_final_review (v : value) (st : ReviewState) : ReviewState :=
  {| paper_source := paper_source st; source_type := source_type st;
     session_id := session_id st; paper_content := paper_content st;
     critic_analysis := critic_analysis st; citation_data := citation_data st;
     final_review := v; errors := errors st; stage := stage st;
     start_time := start_time st; tool_calls := tool_calls st |}.

Definition set_errors (l : list string) (st : ReviewState) : ReviewState :=
  {| paper_source := paper_source st; source_type := source_type st;
     session_id := session_id st; paper_content := paper_content st;
     critic_analysis := critic_analysis st; citation_data := citation_data st;
     final_review := final_review st; errors := l; stage := stage st;
     start_time := start_time st; tool_calls := tool_calls st |}.

Definition set_stage (s : string) (st : ReviewState) : ReviewState :=
  {| paper_source := paper_source st; source_type := source_type st;
     session_id := session_id st; paper_content := paper_content st;
     critic_analysis := critic_analysis st; citation_data := citation_data st;
     final_review := final_review st; errors := errors st; stage := s;
     start_time := start_time st; tool_calls := tool_calls st |}.

Definition set_tool_calls (n : Z) (st : ReviewState) : ReviewState :=
  {| paper_source := paper_source st; source_type := source_type st;
     session_id := session_id st; paper_content := paper_content st;
     critic_analysis := critic_analysis st; citation_data := citation_data st;
     final_review := final_review st; errors := errors st; stage := stage st;
     start_time := start_time st; tool_calls := n |}.

(** ** Checkpoint store *)
Module MemorySaver.

(** Modelled from the spec: the checkpoint store is the graph library's
    [MemorySaver], of which the sources only hold the construction
    ([self.memory = MemorySaver()]).  The spec gives its contract:
    [save(run_id, state)] overwrites any prior snapshot for that id and
    [load(run_id)] yields the state or not-found.  A finite map from run
    identifiers to snapshots. *)
Definition store : Type := gmap string ReviewState.

(** Modelled from the spec: the store a fresh [MemorySaver()] holds. *)
Definition empty : store := ∅.

(** Modelled from the spec: [save(run_id, state)], which overwrites any
    prior snapshot for that id. *)
Definition save (run_id : string) (state : ReviewState) (m : store) : store :=
  <[run_id := state]> m.

(** Modelled from the spec: [load(run_id)], the state or not-found. *)
Definition load (run_id : string) (m : store) : option ReviewState :=
  m !! run_id.

End MemorySaver.

(** ** The world outside the program

    [uuid.uuid4()] and [datetime.now()] read the outside: the world holds
    the identifiers and the clock readings still to come, how many were
    consumed, and the contents of the orchestrator's checkpoint store. *)

Record datetime : Type := { isoformat : string; timestamp_us : Z }.

Record World : Type := {
  entropy : nat -> string;
  drawn : nat;
  wall_clock : nat -> datetime;
  readings : nat;
  memory : gmap string ReviewState
}.

(** [uuid.uuid4()], as its 32 hexadecimal digits ([.hex]). *)
Definition uuid4 : ST World string :=
  fun w => (Ret (entropy w (drawn w)),
            {| entropy := entropy w; drawn := S (drawn w);
               wall_clock := wall_clock w; readings := readings w;
               memory := memory w |}).

(** [str(u)]: the digits in groups of 8-4-4-4-12. *)
Definition uuid_str (hex : string) : string :=
  String.substring 0 8 hex +:+ "-" +:+ String.substring 8 4 hex +:+ "-"
  +:+ String.substring 12 4 hex +:+ "-" +:+ String.substring 16 4 hex +:+ "-"
  +:+ String.substring 20 12 hex.

(** [datetime.now()] *)
Definition now : ST World datetime :=
  fun w => (Ret (wall_clock w (readings w)),
            {| entropy := entropy w; drawn := drawn w;
               wall_clock := wall_clock w; readings := S (readings w);
               memory := memory w |}).

(** [(b - a).total_seconds()] *)
Definition total_seconds (a b : datetime) : Q :=
  Qmake (timestamp_us b - timestamp_us a) 1000000.

Definition checkpoint (run_id : string) (state : ReviewState) : ST World unit :=
  modify (fun w =>
            {| entropy := entropy w; drawn := drawn w;
               wall_clock := wall_clock w; readings := readings w;
               memory := MemorySaver.save run_id state (memory w) |}).

(** ** External libraries

    The regular-expression engine ([re]), with patterns as the raw strings
    of the sources; a match gives its first group and its span. *)

Inductive re_flag : Type := IGNORECASE | DOTALL.

Record Match : Type := { group1 : string; m_start : nat; m_end : nat }.

Class Re := {
  re_match : string -> string -> bool;
  re_search : string -> string -> list re_flag -> option Match;
  re_finditer : string -> string -> list Match;
  re_split : string -> string -> list string;
  re_sub : string -> string -> string -> string
}.

(** What the stages do behind their adapters: reading the pages of a PDF
    ([fitz]), fetching a paper from arXiv to a file, and the scoring,
    citation search and review writing of the three other agents
    ([CriticAgent.analyze_paper], [CiteAgent.analyze_citations],
    [MetaReviewerAgent.generate_review]).  Each returns or raises. *)
Class Services := {
  fitz_open : value -> ST World (list string);
  arxiv_fetch : value -> string -> ST World unit;
  critic_analyze : value -> value -> ST World value;
  cite_analyze : value -> value -> ST World value;
  meta_generate : value -> value -> value -> ST World value
}.

(** ** Message envelopes ([MCPMessage]) *)
Module MCPMessage.

Definition create_request (sender receiver action data context : value)
  : ST World value :=
  let! u := uuid4 in
  let! t := now in
  ret (VDict [("message_id", VStr (uuid_str u));
              ("sender", sender);
              ("receiver", receiver);
              ("timestamp", VStr (isoformat t));
              ("message_type", VStr "request");
              ("payload", VDict [("action", action); ("data", data)]);
              ("context", if truthy context then context else VDict [])]).

Definition create_response (original_message sender data : value)
  : ST World value :=
  let! u := uuid4 in
  let! receiver := pure_op (dict_get original_message "sender" VNone) in
  let! t := now in
  let! payload := pure_op (dict_get original_message "payload" (VDict [])) in
  let! action := pure_op (dict_get payload "action" VNone) in
  let! context := pure_op (dict_get original_message "context" (VDict [])) in
  ret (VDict [("message_id", VStr (uuid_str u));
              ("sender", sender);
              ("receiver", receiver);
              ("timestamp", VStr (isoformat t));
              ("message_type", VStr "response");
              ("payload", VDict [("action", action); ("data", data)]);
              ("context", context)]).

Definition create_error (original_message sender error : value)
  : ST World value :=
  let! u := uuid4 in
  let! receiver := pure_op (dict_get original_message "sender" VNone) in
  let! t := now in
  let! payload := pure_op (dict_get original_message "payload" (VDict [])) in
  let! action := pure_op (dict_get payload "action" VNone) in
  let! context := pure_op (dict_get original_message "context" (VDict [])) in
  ret (VDict [("message_id", VStr (uuid_str u));
              ("sender", sender);
              ("receiver", receiver);
              ("timestamp", VStr (isoformat t));
              ("message_type", VStr "error");
              ("payload", VDict [("error", error); ("action", action)]);
              ("context", context)]).

End MCPMessage.

(** ** Stage adapters

    An agent object holds its identifier and its name. *)

Record agent_self : Type := { agent_id : value; name : string }.

(** [agent_id or f"<prefix>-{uuid.uuid4().hex[:8]}"] *)
Definition fresh_agent_id (prefix : string) (agent_id : value) : ST World value :=
  if truthy agent_id then ret agent_id
  else let! u := uuid4 in
       ret (VStr (prefix +:+ "-" +:+ PyStr.prefix_slice 8 u)).

(** The envelope every adapter returns for an action it does not know. *)
Definition unknown_action `{Python} (action : value) : value :=
  VDict [("message_type", VStr "error");
         ("payload", VDict [("error", VStr ("Unknown action: " +:+ py_str action))])].

(** *** ReaderAgent *)
Module ReaderAgent.
Section WithLibraries.
Context `{Python} `{Re} `{Services}.

Definition __init__ (agent_id : value) : ST World agent_self :=
  let! i := fresh_agent_id "reader" agent_id in
  ret {| agent_id := i; name := "ReaderAgent" |}.

Fixpoint title_scan (lines : list string) (i : nat) (front : list string)
  : option string :=
  match front with
  | [] => None
  | line :: rest =>
      let line := PyStr.strip line in
      if Nat.ltb 20 (String.length line) && Nat.ltb (String.length line) 200
         && match lines !! (i + 1)%nat with
            | Some next => Nat.ltb (String.length (PyStr.strip next)) 10
            | None => false
            end
      then Some line
      else title_scan lines (S i) rest
  end.

Definition _extract_title (text : string) : string :=
  let lines := PyStr.split PyStr.nl text in
  match title_scan lines 0 (take 10 lines) with
  | Some line => line
  | None =>
      match lines with
      | l0 :: _ => PyStr.strip l0
      | [] => "Unknown Title"
      end
  end.

Definition _extract_abstract (text : string) : string :=
  let abstract_pattern :=
    "Abstract\s*[:\-]?\s*(.*?)(?=\n\n|\nIntroduction|\n1\.|\nKeywords)" in
  match re_search abstract_pattern text [IGNORECASE; DOTALL] with
  | Some m => PyStr.strip (group1 m)
  | None =>
      let paragraphs := PyStr.split (PyStr.nl +:+ PyStr.nl) text in
      match List.find (fun para => Nat.ltb 100 (String.length para)) paragraphs with
      | Some para => PyStr.strip para
      | None => "Abstract not found"
      end
  end.

Definition nonempty (s : string) : bool := negb (String.eqb s "").

Definition _extract_authors (text : string) : list string :=
  let lines := PyStr.split PyStr.nl text in
  let authors :=
    concat
      (map (fun line =>
              let line := PyStr.strip line in
              if re_match "^[A-Z][a-z]+\s+[A-Z][a-z]+" line
              then
                let author_list := re_split ",|\sand\s" line in
                map PyStr.strip
                    (List.filter (fun a => nonempty (PyStr.strip a)) author_list)
              else [])
           (take 20 lines)) in
  take 10 authors.

Definition _determine_section_level (heading : string) : Z :=
  if re_match "^\d+\s" heading then 1%Z
  else if re_match "^\d+\.\d+\s" heading then 2%Z
  else if PyStr.isupper heading then 1%Z
  else 2%Z.

Definition section_patterns : list string :=
  [ "\n(\d+\.?\s+[A-Z][a-zA-Z\s]+)\n";
    "\n([A-Z][A-Z\s]+)\n";
    "\n([A-Z][a-zA-Z\s]+)\n(?=[A-Z])" ].

(** The body of the inner loop of [_extract_sections]: the section that one
    match of [pattern] opens. *)
Definition section_at (pattern text : string) (m : Match) : value :=
  let heading := PyStr.strip (group1 m) in
  let start_pos := m_end m in
  let end_pos :=
    match re_search pattern (PyStr.suffix_slice start_pos text) [] with
    | Some next_match => (start_pos + m_start next_match)%nat
    | None => String.length text
    end in
  let content := PyStr.strip (PyStr.slice start_pos end_pos text) in
  VDict [("heading", VStr heading);
         ("level", VInt (_determine_section_level heading));
         ("content", VStr (PyStr.prefix_slice 1000 content))].

Definition _extract_sections (text : string) : list value :=
  let sections :=
    concat
      (map (fun pattern => map (section_at pattern text) (re_finditer pattern text))
           section_patterns) in
  take 15 sections.

Definition _extract_references (text : string) : list string :=
  let ref_pattern := "References\s*\n(.*?)(?=\n\n[A-Z]|$)" in
  let references :=
    match re_search ref_pattern text [IGNORECASE; DOTALL] with
    | Some m =>
        let ref_text := group1 m in
        let ref_lines := re_split "\n\[\d+\]|\n\d+\." ref_text in
        map PyStr.strip
            (List.filter (fun ref => Nat.ltb 20 (String.length (PyStr.strip ref)))
                         ref_lines)
    | None => []
    end in
  take 50 references.

Definition _generate_paper_id (title : string) : ST World string :=
  let clean_title := re_sub "[^a-zA-Z0-9]" "" (PyStr.lower title) in
  let! u := uuid4 in
  ret ("paper-" +:+ PyStr.prefix_slice 20 clean_title +:+ "-"
       +:+ PyStr.prefix_slice 8 u).

Definition _extract_from_pdf (pdf_path : value) : ST World value :=
  let! doc := fitz_open pdf_path in
  let page_count := length doc in
  let full_text := fold_left String.append doc "" in
  let title := _extract_title full_text in
  let abstract := _extract_abstract full_text in
  let authors := _extract_authors full_text in
  let sections := _extract_sections full_text in
  let references := _extract_references full_text in
  let! paper_id := _generate_paper_id title in
  let! t := now in
  ret (VDict [("paper_id", VStr paper_id);
              ("title", VStr title);
              ("authors", VList (map VStr authors));
              ("abstract", VStr abstract);
              ("sections", VList sections);
              ("references", VList (map VStr references));
              ("metadata",
               VDict [("source", pdf_path);
                      ("page_count", VInt (Z.of_nat page_count));
                      ("word_count", VInt (Z.of_nat (length (PyStr.words full_text))));
                      ("extracted_at", VStr (isoformat t))])]).

Definition _download_arxiv_paper (arxiv_id : value) : ST World value :=
  let pdf_path := "data/sample_papers/" +:+ py_str arxiv_id +:+ ".pdf" in
  arxiv_fetch arxiv_id pdf_path ;;;
  ret (VStr pdf_path).

Definition extract_paper (source source_type : value) : ST World value :=
  if eq_str source_type "pdf" then _extract_from_pdf source
  else if eq_str source_type "arxiv_id" then
    let! pdf_path := _download_arxiv_paper source in
    _extract_from_pdf pdf_path
  else raise (ValueError ("Unsupported source type: " +:+ py_str source_type)).

Definition process_message (self : agent_self) (message : value) : ST World value :=
  let! payload := pure_op (dict_get message "payload" (VDict [])) in
  let! action := pure_op (dict_get payload "action" VNone) in
  let! payload := pure_op (dict_get message "payload" (VDict [])) in
  let! data := pure_op (dict_get payload "data" (VDict [])) in
  if eq_str action "extract_paper" then
    let! source := pure_op (dict_get data "source" VNone) in
    let! source_type := pure_op (dict_get data "source_type" (VStr "pdf")) in
    try_except
      (let! paper_content := extract_paper source source_type in
       let! u := uuid4 in
       let! receiver := pure_op (dict_get message "sender" VNone) in
       let! t := now in
       let! context := pure_op (dict_get message "context" (VDict [])) in
       ret (VDict [("message_id", VStr (uuid_str u));
                   ("sender", VStr (name self));
                   ("receiver", receiver);
                   ("timestamp", VStr (isoformat t));
                   ("message_type", VStr "response");
                   ("payload", VDict [("action", VStr "extract_paper");
                                      ("data", paper_content)]);
                   ("context", context)]))
      (fun e =>
         let! u := uuid4 in
         let! receiver := pure_op (dict_get message "sender" VNone) in
         let! t := now in
         let! context := pure_op (dict_get message "context" (VDict [])) in
         ret (VDict [("message_id", VStr (uuid_str u));
                     ("sender", VStr (name self));
                     ("receiver", receiver);
                     ("timestamp", VStr (isoformat t));
                     ("message_type", VStr "error");
                     ("payload", VDict [("error", VStr (str_exn e));
                                        ("action", action)]);
                     ("context", context)]))
  else ret (unknown_action action).

End WithLibraries.
End ReaderAgent.

(** *** CriticAgent *)
Module CriticAgent.
Section WithLibraries.
Context `{Python} `{Services}.

Definition __init__ (agent_id : value) : ST World agent_self :=
  let! i := fresh_agent_id "critic" agent_id in
  ret {| agent_id := i; name := "CriticAgent" |}.

Definition analyze_paper (paper_content focus_areas : value) : ST World value :=
  critic_analyze paper_content focus_areas.

Definition process_message (self : agent_self) (message : value) : ST World value :=
  let! payload := pure_op (dict_get message "payload" (VDict [])) in
  let! action := pure_op (dict_get payload "action" VNone) in
  let! payload := pure_op (dict_get message "payload" (VDict [])) in
  let! data := pure_op (dict_get payload "data" (VDict [])) in
  if eq_str action "analyze_paper" then
    let! paper_content := pure_op (dict_get data "paper_content" (VDict [])) in
    let! focus_areas := pure_op (dict_get data "focus_areas" VNone) in
    try_except
      (let! analysis := analyze_paper paper_content focus_areas in
       let! u := uuid4 in
       let! receiver := pure_op (dict_get message "sender" VNone) in
       let! t := now in
       let! context := pure_op (dict_get message "context" (VDict [])) in
       ret (VDict [("message_id", VStr (uuid_str u));
                   ("sender", VStr (name self));
                   ("receiver", receiver);
                   ("timestamp", VStr (isoformat t));
                   ("message_type", VStr "response");
                   ("payload", VDict [("action", VStr "analyze_paper");
                                      ("data", analysis)]);
                   ("context", context)]))
      (fun e =>
         let! u := uuid4 in
         let! receiver := pure_op (dict_get message "sender" VNone) in
         let! t := now in
         let! context := pure_op (dict_get message "context" (VDict [])) in
         ret (VDict [("message_id", VStr (uuid_str u));
                     ("sender", VStr (name self));
                     ("receiver", receiver);
                     ("timestamp", VStr (isoformat t));
                     ("message_type", VStr "error");
                     ("payload", VDict [("error", VStr (str_exn e));
                                        ("action", action)]);
                     ("context", context)]))
  else ret (unknown_action action).

End WithLibraries.
End CriticAgent.

(** *** CiteAgent *)
Module CiteAgent.
Section WithLibraries.
Context `{Python} `{Services}.

Definition __init__ (agent_id : value) : ST World agent_self :=
  let! i := fresh_agent_id "cite" agent_id in
  ret {| agent_id := i; name := "CiteAgent" |}.

Definition analyze_citations (paper_content max_related : value) : ST World value :=
  cite_analyze paper_content max_related.

Definition process_message (self : agent_self) (message : value) : ST World value :=
  let! payload := pure_op (dict_get message "payload" (VDict [])) in
  let! action := pure_op (dict_get payload "action" VNone) in
  let! payload := pure_op (dict_get message "payload" (VDict [])) in
  let! data := pure_op (dict_get payload "data" (VDict [])) in
  if eq_str action "analyze_citations" then
    let! paper_content := pure_op (dict_get data "paper_content" (VDict [])) in
    let! max_related := pure_op (dict_get data "max_related" (VInt 10)) in
    try_except
      (let! analysis := analyze_citations paper_content max_related in
       let! u := uuid4 in
       let! receiver := pure_op (dict_get message "sender" VNone) in
       let! t := now in
       let! context := pure_op (dict_get message "context" (VDict [])) in
       ret (VDict [("message_id", VStr (uuid_str u));
                   ("sender", VStr (name self));
                   ("receiver", receiver);
                   ("timestamp", VStr (isoformat t));
                   ("message_type", VStr "response");
                   ("payload", VDict [("action", VStr "analyze_citations");
                                      ("data", analysis)]);
                   ("context", context)]))
      (fun e =>
         let! u := uuid4 in
         let! receiver := pure_op (dict_get message "sender" VNone) in
         let! t := now in
         let! context := pure_op (dict_get message "context" (VDict [])) in
         ret (VDict [("message_id", VStr (uuid_str u));
                     ("sender", VStr (name self));
                     ("receiver", receiver);
                     ("timestamp", VStr (isoformat t));
                     ("message_type", VStr "error");
                     ("payload", VDict [("error", VStr (str_exn e));
                                        ("action", action)]);
                     ("context", context)]))
  else ret (unknown_action action).

End WithLibraries.
End CiteAgent.

(** *** MetaReviewerAgent *)
Module MetaReviewerAgent.
Section WithLibraries.
Context `{Python} `{Services}.

Definition __init__ (agent_id : value) : ST World agent_self :=
  let! i := fresh_agent_id "meta" agent_id in
  ret {| agent_id := i; name := "MetaReviewerAgent" |}.

Definition generate_review (paper_content critic_analysis citation_data : value)
  : ST World value :=
  meta_generate paper_content critic_analysis citation_data.

Definition process_message (self : agent_self) (message : value) : ST World value :=
  let! payload := pure_op (dict_get message "payload" (VDict [])) in
  let! action := pure_op (dict_get payload "action" VNone) in
  let! payload := pure_op (dict_get message "payload" (VDict [])) in
  let! data := pure_op (dict_get payload "data" (VDict [])) in
  if eq_str action "generate_review" then
    let! paper_content := pure_op (dict_get data "paper_content" (VDict [])) in
    let! critic_analysis := pure_op (dict_get data "critic_analysis" (VDict [])) in
    let! citation_data := pure_op (dict_get data "citation_data" VNone) in
    try_except
      (let! review := generate_review paper_content critic_analysis citation_data in
       let! u := uuid4 in
       let! receiver := pure_op (dict_get message "sender" VNone) in
       let! t := now in
       let! context := pure_op (dict_get message "context" (VDict [])) in
       ret (VDict [("message_id", VStr (uuid_str u));
                   ("sender", VStr (name self));
                   ("receiver", receiver);
                   ("timestamp", VStr (isoformat t));
                   ("message_type", VStr "response");
                   ("payload", VDict [("action", VStr "generate_review");
                                      ("data", review)]);
                   ("context", context)]))
      (fun e =>
         let! u := uuid4 in
         let! receiver := pure_op (dict_get message "sender" VNone) in
         let! t := now in
         let! context := pure_op (dict_get message "context" (VDict [])) in
         ret (VDict [("message_id", VStr (uuid_str u));
                     ("sender", VStr (name self));
                     ("receiver", receiver);
                     ("timestamp", VStr (isoformat t));
                     ("message_type", VStr "error");
                     ("payload", VDict [("error", VStr (str_exn e));
                                        ("action", action)]);
                     ("context", context)]))
  else ret (unknown_action action).

End WithLibraries.
End MetaReviewerAgent.

(** The coordinator only uses one capability of an agent: processing a
    message. *)
Record Agent : Type := { process_message : value -> ST World value }.

(** ** The graph library

    [StateGraph] and its compiled form come from the graph library.  A graph
    holds named nodes, an entry point and edges.  Invoking the compiled graph
    writes the input into the channels of the state, then runs the node the
    entry point names and follows the edges until [END]; the value a node
    returns is written back channel by channel, a checkpoint is taken after
    each node, and a run longer than the recursion limit raises.  A channel
    keeps the last value written, except one declared with a reducer: the
    state class declares [errors: Annotated[list, operator.add]], so a write
    to [errors] is added to the list the channel holds. *)
Module StateGraphLib.

Definition node_fn : Type := ReviewState -> ST World ReviewState.

Record StateGraph : Type := {
  nodes : list (string * node_fn);
  entry_point : option string;
  edges : list (string * string)
}.

Definition END : string := "__end__".

Definition new : StateGraph :=
  {| nodes := []; entry_point := None; edges := [] |}.

Definition add_node (name : string) (fn : node_fn) (g : StateGraph) : StateGraph :=
  {| nodes := nodes g ++ [(name, fn)]; entry_point := entry_point g; edges := edges g |}.

Definition set_entry_point (name : string) (g : StateGraph) : StateGraph :=
  {| nodes := nodes g; entry_point := Some name; edges := edges g |}.

Definition add_edge (src dst : string) (g : StateGraph) : StateGraph :=
  {| nodes := nodes g; entry_point := entry_point g; edges := edges g ++ [(src, dst)] |}.

Record CompiledGraph : Type := { graph : StateGraph; recursion_limit : nat }.

Definition compile (g : StateGraph) : CompiledGraph :=
  {| graph := g; recursion_limit := 25 |}.

(** Writing a node's return value [update] into the channels. *)
Definition apply_writes (channels update : ReviewState) : ReviewState :=
  set_errors (errors channels ++ errors update) update.

(** One node, its writes, the checkpoint, and the node the edge leads to. *)
Definition step (g : StateGraph) (thread_id node : string) (channels : ReviewState)
  : ST World (string * ReviewState) :=
  match find_key node (nodes g) with
  | None => raise (ValueError ("Unknown node: " +:+ node))
  | Some fn =>
      let! update := fn channels in
      let channels' := apply_writes channels update in
      checkpoint thread_id channels' ;;;
      ret (default END (find_key node (edges g)), channels')
  end.

Fixpoint run (g : StateGraph) (thread_id : string) (fuel : nat) (node : string)
    (channels : ReviewState) : ST World ReviewState :=
  if String.eqb node END then ret channels
  else
    match fuel with
    | O => raise (GraphRecursionError "Recursion limit reached without hitting a stop condition")
    | S fuel' =>
        let! next := step g thread_id node channels in
        run g thread_id fuel' (fst next) (snd next)
    end.

Definition invoke (app : CompiledGraph) (input : ReviewState) (thread_id : string)
  : ST World ReviewState :=
  match entry_point (graph app) with
  | None => raise (ValueError "Graph must have an entrypoint")
  | Some entry =>
      let channels := apply_writes (set_errors [] input) input in
      checkpoint thread_id channels ;;;
      run (graph app) thread_id (recursion_limit app) entry channels
  end.

End StateGraphLib.

(** ** The coordinator ([ResearchReviewOrchestrator]) *)
Module ResearchReviewOrchestrator.
Import StateGraphLib.

(** A node works on its own copy of the state, a dict it updates in place:
    the body of a node runs over the pair of that state and the world, so
    that an update made before an exception is still there in the handler. *)
Definition NodeM (A : Type) : Type := ST (ReviewState * World) A.

Definition on_world {A} (m : ST World A) : NodeM A :=
  fun s =>
    match m (snd s) with
    | (o, w') => (o, (fst s, w'))
    end.

Definition read {A} (field : ReviewState -> A) : NodeM A :=
  gets (fun s => field (fst s)).

Definition assign (update : ReviewState -> ReviewState) : NodeM unit :=
  modify (fun s => (update (fst s), snd s)).

(** [def node(self, state): body; return state] *)
Definition returning_state (body : NodeM unit) (state : ReviewState)
  : ST World ReviewState :=
  fun w =>
    match body (state, w) with
    | (Ret _, (state', w')) => (Ret state', w')
    | (Raise e, (_, w')) => (Raise e, w')
    end.

Section WithLibraries.
Context `{Python}.

(** The request envelope each node writes out, with its own receiver,
    action and data. *)
Definition request (u : string) (receiver : string) (t : datetime)
    (action : string) (data : list (string * value)) (session : string) : value :=
  VDict [("message_id", VStr (uuid_str u));
         ("sender", VStr "orchestrator");
         ("receiver", VStr receiver);
         ("timestamp", VStr (isoformat t));
         ("message_type", VStr "request");
         ("payload", VDict [("action", VStr action); ("data", VDict data)]);
         ("context", VDict [("session_id", VStr session)])].

(** [state["errors"] = state.get("errors", []) + [error_msg]] *)
Definition append_error (error_msg : string) : NodeM unit :=
  let! errs := read errors in
  assign (set_errors (errs ++ [error_msg])).

Definition extract_paper (reader_agent : Agent) (state : ReviewState)
  : ST World ReviewState :=
  returning_state
    (on_world now ;;;
     assign (set_stage "extraction") ;;;
     let! n := read tool_calls in
     assign (set_tool_calls (n + 1)) ;;;
     try_except
       (let! u := on_world uuid4 in
        let! t := on_world now in
        let! source := read paper_source in
        let! kind := read source_type in
        let! session := read session_id in
        let message :=
          request u "ReaderAgent" t "extract_paper"
                  [("source", VStr source); ("source_type", VStr kind)] session in
        let! response := on_world (process_message reader_agent message) in
        let! message_type := pure_op (subscript response "message_type") in
        if eq_str message_type "response" then
          let! payload := pure_op (subscript response "payload") in
          let! data := pure_op (subscript payload "data") in
          assign (set_paper_content data) ;;;
          let! content := read paper_content in
          pure_op (dict_get content "title" (VStr "Unknown")) ;;;
          ret tt
        else
          let! payload := pure_op (subscript response "payload") in
          let! err := pure_op (dict_get payload "error" VNone) in
          append_error ("Reader Agent error: " +:+ py_str err))
       (fun e => append_error ("Extraction failed: " +:+ str_exn e)))
    state.

Definition analyze_paper (critic_agent : Agent) (state : ReviewState)
  : ST World ReviewState :=
  returning_state
    (on_world now ;;;
     assign (set_stage "analysis") ;;;
     let! n := read tool_calls in
     assign (set_tool_calls (n + 1)) ;;;
     try_except
       (let! u := on_world uuid4 in
        let! t := on_world now in
        let! content := read paper_content in
        let! session := read session_id in
        let message :=
          request u "CriticAgent" t "analyze_paper"
                  [("paper_content", content)] session in
        let! response := on_world (process_message critic_agent message) in
        let! message_type := pure_op (subscript response "message_type") in
        if eq_str message_type "response" then
          let! payload := pure_op (subscript response "payload") in
          let! data := pure_op (subscript payload "data") in
          assign (set_critic_analysis data) ;;;
          let! analysis := read critic_analysis in
          let! overall := pure_op (dict_get analysis "overall_score" (VInt 0)) in
          pure_op (format_fixed overall)
        else
          let! payload := pure_op (subscript response "payload") in
          let! err := pure_op (dict_get payload "error" VNone) in
          append_error ("Critic Agent error: " +:+ py_str err))
       (fun e => append_error ("Analysis failed: " +:+ str_exn e)))
    state.

Definition find_citations (cite_agent : Agent) (state : ReviewState)
  : ST World ReviewState :=
  returning_state
    (on_world now ;;;
     assign (set_stage "citation_analysis") ;;;
     let! n := read tool_calls in
     assign (set_tool_calls (n + 1)) ;;;
     try_except
       (let! u := on_world uuid4 in
        let! t := on_world now in
        let! content := read paper_content in
        let! session := read session_id in
        let message :=
          request u "CiteAgent" t "analyze_citations"
                  [("paper_content", content); ("max_related", VInt 10)] session in
        let! response := on_world (process_message cite_agent message) in
        let! message_type := pure_op (subscript response "message_type") in
        if eq_str message_type "response" then
          let! payload := pure_op (subscript response "payload") in
          let! data := pure_op (subscript payload "data") in
          assign (set_citation_data data) ;;;
          let! citations := read citation_data in
          let! related := pure_op (dict_get citations "related_papers" (VList [])) in
          pure_op (py_len related) ;;;
          ret tt
        else
          let! payload := pure_op (subscript response "payload") in
          let! err := pure_op (dict_get payload "error" VNone) in
          append_error ("CiteAgent error: " +:+ py_str err) ;;;
          assign (set_citation_data (VDict [])))
       (fun e =>
          append_error ("Citation analysis failed: " +:+ str_exn e) ;;;
          assign (set_citation_data (VDict []))))
    state.

Definition generate_review (meta_reviewer_agent : Agent) (state : ReviewState)
  : ST World ReviewState :=
  returning_state
    (on_world now ;;;
     assign (set_stage "review_generation") ;;;
     let! n := read tool_calls in
     assign (set_tool_calls (n + 1)) ;;;
     try_except
       (let! u := on_world uuid4 in
        let! t := on_world now in
        let! content := read paper_content in
        let! analysis := read critic_analysis in
        let! citations := read citation_data in
        let! session := read session_id in
        let message :=
          request u "MetaReviewerAgent" t "generate_review"
                  [("paper_content", content); ("critic_analysis", analysis);
                   ("citation_data", citations)] session in
        let! response := on_world (process_message meta_reviewer_agent message) in
        let! message_type := pure_op (subscript response "message_type") in
        if eq_str message_type "response" then
          let! payload := pure_op (subscript response "payload") in
          let! data := pure_op (subscript payload "data") in
          assign (set_final_review data)
        else
          let! payload := pure_op (subscript response "payload") in
          let! err := pure_op (dict_get payload "error" VNone) in
          append_error ("MetaReviewer error: " +:+ py_str err))
       (fun e => append_error ("Review generation failed: " +:+ str_exn e)))
    state.

Record orchestrator : Type := {
  reader_agent : Agent;
  critic_agent : Agent;
  meta_reviewer_agent : Agent;
  cite_agent : Agent;
  app : CompiledGraph
}.

Definition _build_workflow (reader critic meta cite : Agent) : StateGraph :=
  let workflow := new in
  let workflow := add_node "extract" (extract_paper reader) workflow in
  let workflow := add_node "analyze" (analyze_paper critic) workflow in
  let workflow := add_node "find_citations" (find_citations cite) workflow in
  let workflow := add_node "generate_review" (generate_review meta) workflow in
  let workflow := set_entry_point "extract" workflow in
  let workflow := add_edge "extract" "analyze" workflow in
  let workflow := add_edge "analyze" "find_citations" workflow in
  let workflow := add_edge "find_citations" "generate_review" workflow in
  let workflow := add_edge "generate_review" END workflow in
  workflow.

(** The object [__init__] builds, for given agents. *)
Definition assemble (reader critic meta cite : Agent) : orchestrator :=
  {| reader_agent := reader; critic_agent := critic;
     meta_reviewer_agent := meta; cite_agent := cite;
     app := compile (_build_workflow reader critic meta cite) |}.

Definition as_agent (pm : agent_self -> value -> ST World value) (a : agent_self)
  : Agent :=
  {| process_message := pm a |}.

(** [__init__]: the four agents, the workflow and an empty checkpoint store. *)
Definition __init__ `{Re} `{Services} : ST World orchestrator :=
  let! reader := ReaderAgent.__init__ VNone in
  let! critic := CriticAgent.__init__ VNone in
  let! meta := MetaReviewerAgent.__init__ VNone in
  let! cite := CiteAgent.__init__ VNone in
  modify (fun w =>
            {| entropy := entropy w; drawn := drawn w;
               wall_clock := wall_clock w; readings := readings w;
               memory := MemorySaver.empty |}) ;;;
  ret (assemble (as_agent ReaderAgent.process_message reader)
                (as_agent CriticAgent.process_message critic)
                (as_agent MetaReviewerAgent.process_message meta)
                (as_agent CiteAgent.process_message cite)).

Definition review_paper (self : orchestrator) (paper_source source_type : string)
  : ST World value :=
  let! u := uuid4 in
  let session_id := uuid_str u in
  let! start_time := now in
  let initial_state :=
    {| paper_source := paper_source; source_type := source_type;
       session_id := session_id; paper_content := VDict [];
       critic_analysis := VDict []; citation_data := VDict [];
       final_review := VDict []; errors := []; stage := "initialized";
       start_time := isoformat start_time; tool_calls := 0 |} in
  try_except
    (let! final_state := invoke (app self) initial_state session_id in
     let! end_time := now in
     let processing_time := total_seconds start_time end_time in
     let result :=
       VDict [("session_id", VStr session_id);
              ("paper_content", paper_content final_state);
              ("critic_analysis", critic_analysis final_state);
              ("citation_data", citation_data final_state);
              ("final_review", final_review final_state);
              ("metadata",
               VDict [("processing_time_seconds", VFloat processing_time);
                      ("tool_calls", VInt (tool_calls final_state));
                      ("errors", VList (map VStr (errors final_state)));
                      ("start_time", VStr (isoformat start_time));
                      ("end_time", VStr (isoformat end_time))])] in
     let! metadata := pure_op (subscript result "metadata") in
     pure_op (subscript metadata "tool_calls") ;;;
     let! errs := pure_op (subscript metadata "errors") in
     pure_op (py_len errs) ;;;
     ret result)
    (fun e =>
       let! t := now in
       ret (VDict [("session_id", VStr session_id);
                   ("error", VStr (str_exn e));
                   ("metadata",
                    VDict [("processing_time_seconds",
                            VFloat (total_seconds start_time t));
                           ("failed", VBool true)])])).

End WithLibraries.
End ResearchReviewOrchestrator.

(** * Specification vocabulary *)

(** Reading an envelope or a result: a key of a dict, the kind, a key of the
    payload, the error description, a key of the metadata block. *)
Definition field (k : string) (v : value) : option value :=
  match v with
  | VDict d => find_key k d
  | _ => None
  end.

Definition env_kind (env : value) : option value := field "message_type" env.

Definition env_payload (k : string) (env : value) : option value :=
  match field "payload" env with
  | Some p => field k p
  | None => None
  end.

Definition env_error (env : value) : option value :=
  match field "payload" env with
  | Some (VDict p) => Some (default VNone (find_key "error" p))
  | _ => None
  end.

Definition metadata (k : string) (result : value) : option value :=
  match field "metadata" result with
  | Some m => field k m
  | None => None
  end.

(** A response envelope carrying [data]; an error envelope carrying the
    description [err]. *)
Definition response_with (env data : value) : Prop :=
  env_kind env = Some (VStr "response") /\ env_payload "data" env = Some data.

Definition error_with (env err : value) : Prop :=
  env_kind env = Some (VStr "error") /\ env_error env = Some err.

(** A computation that returns, with a result and a final store that
    satisfy [Q]. *)
Definition returns {S A} (m : ST S A) (s : S) (Q : A -> S -> Prop) : Prop :=
  exists a s', m s = (Ret a, s') /\ Q a s'.

(** The four stages, their adapters and the action each one declares. *)
Inductive stage_id : Type := Extraction | Critique | Citation | Synthesis.

Definition declared_action (s : stage_id) : string :=
  match s with
  | Extraction => "extract_paper"
  | Critique => "analyze_paper"
  | Citation => "analyze_citations"
  | Synthesis => "generate_review"
  end.

Definition adapter `{Python} `{Re} `{Services} (s : stage_id) (self : agent_self)
  : value -> ST World value :=
  match s with
  | Extraction => ReaderAgent.process_message self
  | Critique => CriticAgent.process_message self
  | Citation => CiteAgent.process_message self
  | Synthesis => MetaReviewerAgent.process_message self
  end.

(** The call an adapter makes into its stage for the [data] of a request. *)
Definition stage_logic `{Python} `{Re} `{Services} (s : stage_id) (data : value)
  : ST World value :=
  match s with
  | Extraction =>
      ReaderAgent.extract_paper (default VNone (field "source" data))
                                (default (VStr "pdf") (field "source_type" data))
  | Critique =>
      CriticAgent.analyze_paper (default (VDict []) (field "paper_content" data))
                                (default VNone (field "focus_areas" data))
  | Citation =>
      CiteAgent.analyze_citations (default (VDict []) (field "paper_content" data))
                                  (default (VInt 10) (field "max_related" data))
  | Synthesis =>
      MetaReviewerAgent.generate_review
        (default (VDict []) (field "paper_content" data))
        (default (VDict []) (field "critic_analysis" data))
        (default VNone (field "citation_data" data))
  end.

(** [message.get("payload", {}).get("action")] *)
Definition message_action (message : value) : outcome value :=
  match dict_get message "payload" (VDict []) with
  | Ret payload => dict_get payload "action" VNone
  | Raise e => Raise e
  end.

(** [message.get("payload", {}).get("data", {})], for a message whose
    payload is a mapping. *)
Definition message_data (message : value) : value :=
  default (VDict []) (env_payload "data" message).

Definition is_dict (v : value) : bool :=
  match v with
  | VDict _ => true
  | _ => false
  end.

(** A message as the adapters' signature has it: a mapping whose payload
    (when given) is a mapping, with data (when given) a mapping. *)
Definition well_formed (message : value) : bool :=
  is_dict message
  && is_dict (default (VDict []) (field "payload" message))
  && is_dict (message_data message).

(** How an agent answers the coordinator, as a function of the data of the
    request: with the data of a response, or with an error description. *)
Inductive reply : Type :=
| Response (data : value)
| Failure (err : value).

Definition behaves (a : Agent) (b : value -> reply) : Prop :=
  forall msg w, exists env w',
    process_message a msg w = (Ret env, w') /\
    match b (message_data msg) with
    | Response d => response_with env d
    | Failure e => error_with env e
    end.

Definition answers (a : Agent) (f : value -> value) : Prop :=
  behaves a (fun data => Response (f data)).



(** ** The stages as the coordinator runs them *)

Import StateGraphLib ResearchReviewOrchestrator.

Definition node `{Python} (s : stage_id) : Agent -> ReviewState -> ST World ReviewState :=
  match s with
  | Extraction => extract_paper
  | Critique => analyze_paper
  | Citation => find_citations
  | Synthesis => generate_review
  end.

Definition output_of (s : stage_id) (st : ReviewState) : value :=
  match s with
  | Extraction => paper_content st
  | Critique => critic_analysis st
  | Citation => citation_data st
  | Synthesis => final_review st
  end.

(** The world in which a node calls its agent (the node has read the clock
    twice and drawn one identifier), and the request it sends. *)
Definition call_world (w : World) : World :=
  {| entropy := entropy w; drawn := S (drawn w); wall_clock := wall_clock w;
     readings := S (S (readings w)); memory := memory w |}.

Definition request_data (s : stage_id) (st : ReviewState) : list (string * value) :=
  match s with
  | Extraction =>
      [("source", VStr (paper_source st)); ("source_type", VStr (source_type st))]
  | Critique => [("paper_content", paper_content st)]
  | Citation => [("paper_content", paper_content st); ("max_related", VInt 10)]
  | Synthesis =>
      [("paper_content", paper_content st);
       ("critic_analysis", critic_analysis st);
       ("citation_data", citation_data st)]
  end.

Definition receiver_of (s : stage_id) : string :=
  match s with
  | Extraction => "ReaderAgent"
  | Critique => "CriticAgent"
  | Citation => "CiteAgent"
  | Synthesis => "MetaReviewerAgent"
  end.

Definition request_of (s : stage_id) (st : ReviewState) (w : World) : value :=
  request (entropy w (drawn w)) (receiver_of s) (wall_clock w (S (readings w)))
          (declared_action s) (request_data s st) (session_id st).

Definition error_label (s : stage_id) : string :=
  match s with
  | Extraction => "Reader Agent error: "
  | Critique => "Critic Agent error: "
  | Citation => "CiteAgent error: "
  | Synthesis => "MetaReviewer error: "
  end.

Definition crash_label (s : stage_id) : string :=
  match s with
  | Extraction => "Extraction failed: "
  | Critique => "Analysis failed: "
  | Citation => "Citation analysis failed: "
  | Synthesis => "Review generation failed: "
  end.

(** The output a stage leaves when it fails: the citation stage puts the
    empty result, the others leave the state as it was. *)
Definition failed_output (s : stage_id) (st : ReviewState) : value :=
  match s with
  | Citation => VDict []
  | _ => output_of s st
  end.

(** A stage was entered: the counter went up by one, the error list was
    extended, and nothing but the stage's own output was written. *)
Definition entered (s : stage_id) (st st' : ReviewState) : Prop :=
  paper_source st' = paper_source st /\
  source_type st' = source_type st /\
  session_id st' = session_id st /\
  start_time st' = start_time st /\
  tool_calls st' = (tool_calls st + 1)%Z /\
  (exists extra, errors st' = (errors st ++ extra)%list) /\
  (forall s', s' <> s -> output_of s' st' = output_of s' st).

(** What a node returns, by what its agent did with the request. *)
Definition node_post `{Python} (s : stage_id) (a : Agent) (st : ReviewState)
    (w : World) (st' : ReviewState) : Prop :=
  entered s st st' /\
  match process_message a (request_of s st w) (call_world w) with
  | (Ret env, _) =>
      (forall d, response_with env d ->
         output_of s st' = d \/ (s = Citation /\ output_of s st' = VDict [])) /\
      (forall e, error_with env e ->
         output_of s st' = failed_output s st /\
         errors st' = (errors st ++ [error_label s +:+ py_str e])%list)
  | (Raise e, _) =>
      output_of s st' = failed_output s st /\
      errors st' = (errors st ++ [crash_label s +:+ str_exn e])%list
  end.

(** A run of the workflow: the four nodes in order, each on the channels
    the writes of the one before left. *)
Definition pipeline `{Python} (reader critic meta cite : Agent)
    (input final : ReviewState) : Prop :=
  exists w1 w2 w3 w4 u1 u2 u3 u4,
    let ch0 := apply_writes (set_errors [] input) input in
    let ch1 := apply_writes ch0 u1 in
    let ch2 := apply_writes ch1 u2 in
    let ch3 := apply_writes ch2 u3 in
    node_post Extraction reader ch0 w1 u1 /\
    node_post Critique critic ch1 w2 u2 /\
    node_post Citation cite ch2 w3 u3 /\
    node_post Synthesis meta ch3 w4 u4 /\
    final = apply_writes ch3 u4.

(** The state [review_paper] starts from, for the identifier [u] and the
    clock reading [t]. *)
Definition initial_state (paper_source source_type u : string) (t : datetime)
  : ReviewState :=
  {| paper_source := paper_source; source_type := source_type;
     session_id := uuid_str u; paper_content := VDict [];
     critic_analysis := VDict []; citation_data := VDict [];
     final_review := VDict []; errors := []; stage := "initialized";
     start_time := isoformat t; tool_calls := 0 |}.

(** The agent that serves each stage. *)
Definition agent_of (reader critic meta cite : Agent) (s : stage_id) : Agent :=
  match s with
  | Extraction => reader
  | Critique => critic
  | Citation => cite
  | Synthesis => meta
  end.

(** The result [review_paper] composes from the final state of the
    workflow. *)
Definition reports (result : value) (final : ReviewState) : Prop :=
  field "session_id" result = Some (VStr (session_id final)) /\
  field "paper_content" result = Some (paper_content final) /\
  field "critic_analysis" result = Some (critic_analysis final) /\
  field "citation_data" result = Some (citation_data final) /\
  field "final_review" result = Some (final_review final) /\
  metadata "tool_calls" result = Some (VInt (tool_calls final)) /\
  metadata "errors" result = Some (VList (map VStr (errors final))).

Definition node_name (s : stage_id) : string :=
  match s with
  | Extraction => "extract"
  | Critique => "analyze"
  | Citation => "find_citations"
  | Synthesis => "generate_review"
  end.

(** The world in which [review_paper] invokes the workflow: one identifier
    drawn for the session, the clock read once. *)
Definition started (w : World) : World :=
  {| entropy := entropy w; drawn := S (drawn w); wall_clock := wall_clock w;
     readings := S (readings w); memory := memory w |}.

(** ** The claims as the specification words them, where the code differs *)


(** No adapter lets an exception through, whatever the message. *)
Definition never_raises `{Python} `{Re} `{Services} : Prop :=
  forall s self msg w, exists env w', adapter s self msg w = (Ret env, w').

(** Every result of [review_paper] has an error list in its metadata. *)
Definition always_lists_errors : Prop :=
  forall self src ty w,
    returns (review_paper self src ty) w
            (fun result _ => exists l, metadata "errors" result = Some (VList l)).

(** ** Sample runtime, services, messages and agents *)
Module Sample.

Definition python : Python := {| repr := fun v => "<" +:+ type_name v +:+ ">" |}.

(** An engine whose patterns match nothing. *)
Definition regex : Re :=
  {| re_match := fun _ _ => false;
     re_search := fun _ _ _ => None;
     re_finditer := fun _ _ => [];
     re_split := fun _ s => [s];
     re_sub := fun _ _ s => s |}.

(** A one-page paper, a critic that scores it, a citation search that is
    out of reach and a reviewer that writes a summary. *)
Definition services : Services :=
  {| fitz_open := fun _ => ret ["Coordinating review agents over shared state"];
     arxiv_fetch := fun _ _ => ret tt;
     critic_analyze := fun _ _ => ret (VDict [("overall_score", VFloat (Qmake 7 1))]);
     cite_analyze := fun _ _ => raise (OtherError "HTTPError" "arxiv unreachable");
     meta_generate :=
       fun _ _ _ => ret (VDict [("executive_summary", VStr "A sound contribution.")]) |}.

Definition world : World :=
  {| entropy := fun n => "00000000000000000000000000000" +:+ pretty n;
     drawn := 0;
     wall_clock :=
       fun n => {| isoformat := "2025-01-01T00:00:" +:+ pretty n;
                   timestamp_us := Z.of_nat n * 1000000 |};
     readings := 0;
     memory := MemorySaver.empty |}.

Definition self : agent_self := {| agent_id := VStr "agent-1"; name := "Agent" |}.

Definition envelope (kind action : string) : value :=
  VDict [("message_id", VStr "m-1");
         ("sender", VStr "client");
         ("receiver", VStr "Agent");
         ("timestamp", VStr "2025-01-01T00:00:00");
         ("message_type", VStr kind);
         ("payload", VDict [("action", VStr action); ("data", VDict [])]);
         ("context", VDict [("session_id", VStr "run-1")])].

(** A request for an action no adapter declares. *)
Definition stray_request : value := envelope "request" "summarize".


(** A request whose payload is a string. *)
Definition malformed_request : value :=
  VDict [("message_type", VStr "request"); ("payload", VStr "extract_paper")].

(** An agent that answers by a table: a response or an error envelope. *)
Definition scripted (b : value -> reply) : Agent :=
  {| process_message :=
       fun msg =>
         ret (match b (message_data msg) with
              | Response d =>
                  VDict [("message_type", VStr "response");
                         ("payload", VDict [("data", d)])]
              | Failure e =>
                  VDict [("message_type", VStr "error");
                         ("payload", VDict [("error", e)])]
              end) |}.

(** An agent whose call raises. *)
Definition crashing : Agent :=
  {| process_message := fun _ => raise (OtherError "ConnectionError" "agent down") |}.

(** The answers of three agents that succeed, and a reader that fails. *)
Definition extraction (_ : value) : value :=
  VDict [("title", VStr "X"); ("abstract", VStr "..."); ("references", VList [])].

Definition critique (_ : value) : value :=
  VDict [("overall_score", VFloat (Qmake 7 1))].

Definition synthesis (data : value) : value :=
  VDict [("executive_summary", VStr "A sound contribution."); ("written_from", data)].


Definition citations (_ : value) : value :=
  VDict [("citation_count", VInt 0); ("related_papers", VList [])].

(** The result of a run on ["paperA"], with three scripted agents and the
    given citation agent. *)
Definition run_with (cite : Agent) : outcome value :=
  fst (review_paper
         (@assemble python
            (scripted (fun d => Response (extraction d)))
            (scripted (fun d => Response (critique d)))
            (scripted (fun d => Response (synthesis d)))
            cite)
         "paperA" "pdf" world).

(** An orchestrator whose workflow raises in its first node. *)
Definition broken : orchestrator :=
  {| reader_agent := crashing; critic_agent := crashing;
     meta_reviewer_agent := crashing; cite_agent := crashing;
     app := compile
              (set_entry_point "extract"
                 (add_node "extract"
                    (fun _ => raise (OtherError "RuntimeError" "state corrupted"))
                    new)) |}.

End Sample.

(** ** The HTTP endpoint of an agent server ([BaseMCPServer]) *)
Module BaseMCPServer.

Record server : Type := { agent : Agent; agent_name : string; port : Z }.

(** [@app.post("/process")]: the agent's answer, or an error message when
    the agent raises. *)
Definition process (self : server) (message : value) : ST World value :=
  try_except
    (process_message (agent self) message)
    (fun e =>
       let! t := now in
       ret (VDict [("message_type", VStr "error");
                   ("payload", VDict [("error", VStr (str_exn e))]);
                   ("timestamp", VStr (isoformat t))])).

(** The servers the four [*_server.py] scripts start. *)
Definition serving `{Python} `{Re} `{Services} (s : stage_id) (self : agent_self)
  : server :=
  {| agent := as_agent (adapter s) self;
     agent_name := receiver_of s;
     port := match s with
             | Extraction => 5001
             | Critique => 5002
             | Synthesis => 5003
             | Citation => 5004
             end |}.

End BaseMCPServer.

(** ** More sample messages *)
Module Cases.

Definition request_with (action : string) (data : list (string * value)) : value :=
  VDict [("message_id", VStr "m-2");
         ("sender", VStr "client");
         ("receiver", VStr "Agent");
         ("timestamp", VStr "2025-01-01T00:00:00");
         ("message_type", VStr "request");
         ("payload", VDict [("action", VStr action); ("data", VDict data)]);
         ("context", VDict [("session_id", VStr "run-2")])].

(** A request to extract from a web address. *)
Definition web_request : value :=
  request_with "extract_paper"
               [("source", VStr "https://example.org/paper");
                ("source_type", VStr "url")].

(** A request to extract from a file. *)
Definition file_request : value :=
  request_with "extract_paper"
               [("source", VStr "paper.pdf"); ("source_type", VStr "pdf")].

End Cases.

(** ** The shape of an extracted paper *)

Definition list_field (k : string) (bound : nat) (d : value) : Prop :=
  exists l, field k d = Some (VList l) /\ length l <= bound.

(** A dict with an identifier that starts with [paper-], a title and an
    abstract that are strings, and lists of at most 10 authors, 15 sections
    and 50 references. *)
Definition paper_shape (d : value) : Prop :=
  (exists id, field "paper_id" d = Some (VStr id) /\
              String.prefix "paper-" id = true) /\
  (exists title, field "title" d = Some (VStr title)) /\
  (exists abstract, field "abstract" d = Some (VStr abstract)) /\
  list_field "authors" 10 d /\
  list_field "sections" 15 d /\
  list_field "references" 50 d.

(** ** Runs of the workflow, stage by stage *)
Module Run.

Definition numeric (v : value) : bool :=
  match v with
  | VBool _ | VInt _ | VFloat _ => true
  | _ => false
  end.

Definition sized (v : value) : bool :=
  match v with
  | VStr _ | VList _ | VDict _ => true
  | _ => false
  end.

(** The data of a response that a node can also report on its console: a
    dict for the title lookup, a number for the score it formats, a sized
    object for the related papers it counts. *)
Definition presentable (s : stage_id) (d : value) : bool :=
  match s with
  | Extraction => is_dict d
  | Critique => is_dict d && numeric (default (VInt 0) (field "overall_score" d))
  | Citation => is_dict d && sized (default (VList []) (field "related_papers" d))
  | Synthesis => true
  end.

(** What a node adds to the error list: nothing or one message; and what it
    does with a presentable response: it stores the data and records
    nothing. *)
Definition node_record `{Python} (s : stage_id) (a : Agent) (st : ReviewState)
    (w : World) (st' : ReviewState) : Prop :=
  (exists e, errors st' = (errors st ++ e)%list /\ length e <= 1) /\
  match process_message a (request_of s st w) (call_world w) with
  | (Ret env, _) =>
      forall d, response_with env d -> presentable s d = true ->
                output_of s st' = d /\ errors st' = errors st
  | (Raise _, _) => True
  end.

(** The four nodes in order, each satisfying [P] on the channels the writes
    of the one before left. *)
Definition chain
    (P : stage_id -> Agent -> ReviewState -> World -> ReviewState -> Prop)
    (reader critic meta cite : Agent) (input final : ReviewState) : Prop :=
  exists w1 w2 w3 w4 u1 u2 u3 u4,
    let ch0 := apply_writes (set_errors [] input) input in
    let ch1 := apply_writes ch0 u1 in
    let ch2 := apply_writes ch1 u2 in
    let ch3 := apply_writes ch2 u3 in
    P Extraction reader ch0 w1 u1 /\
    P Critique critic ch1 w2 u2 /\
    P Citation cite ch2 w3 u3 /\
    P Synthesis meta ch3 w4 u4 /\
    final = apply_writes ch3 u4.


(** The error list of a run in which the four stages recorded [e1] to [e4]:
    each write adds the list a node returns to the list the channel holds. *)
Definition accumulated (e1 e2 e3 e4 : list string) : list string :=
  let c2 := (e1 ++ (e1 ++ e2))%list in
  let c3 := (c2 ++ (c2 ++ e3))%list in
  (c3 ++ (c3 ++ e4))%list.

End Run.

(** ** More of the Python runtime: iteration, string methods, floats *)

From Stdlib Require Import Floats.
Set Warnings "-inexact-float".

(** Computations that return or raise without touching the world. *)
Definition obind {A B} (o : outcome A) (k : A -> outcome B) : outcome B :=
  match o with
  | Ret a => k a
  | Raise e => Raise e
  end.

Notation "'let?' x ':=' m 'in' k" := (obind m (fun x => k))
  (at level 10, x pattern, m at level 100, k at level 200) : py_scope.

Module PyMore.

(** [sub in s] *)
Fixpoint contains (sub s : string) : bool :=
  String.prefix sub s
  || match s with
     | String _ s' => contains sub s'
     | EmptyString => false
     end.

Fixpoint chars (s : string) : list value :=
  match s with
  | String c s' => VStr (String c EmptyString) :: chars s'
  | EmptyString => []
  end.

(** [for x in v]: the items of a list, the characters of a string, the keys
    of a dict. *)
Definition py_iter (v : value) : outcome (list value) :=
  match v with
  | VList l => Ret l
  | VStr s => Ret (chars s)
  | VDict d => Ret (map (fun kv => VStr (fst kv)) d)
  | _ => Raise (TypeError ("'" +:+ type_name v +:+ "' object is not iterable"))
  end.

(** [v.lower()] and [v.split()]: methods of strings only. *)
Definition str_lower (v : value) : outcome string :=
  match v with
  | VStr s => Ret (PyStr.lower s)
  | _ => Raise (no_attribute v "lower")
  end.

Definition str_split (v : value) : outcome (list string) :=
  match v with
  | VStr s => Ret (PyStr.words s)
  | _ => Raise (no_attribute v "split")
  end.

(** [sep.join(items)]: every item has to be a string. *)
Fixpoint join_from (sep : string) (i : nat) (items : list value) : outcome string :=
  match items with
  | [] => Ret ""
  | VStr s :: rest =>
      match rest with
      | [] => Ret s
      | _ => let? tail := join_from sep (S i) rest in Ret (s +:+ sep +:+ tail)
      end
  | v :: _ =>
      Raise (TypeError ("sequence item " +:+ pretty i +:+ ": expected str instance, "
                        +:+ type_name v +:+ " found"))
  end.

Definition join (sep : string) (items : list value) : outcome string :=
  join_from sep 0 items.

(** A comprehension [[f x for x in l]], and [any(f x for x in l)], which
    stops at the first item that holds. *)
Fixpoint map_m {A B} (f : A -> outcome B) (l : list A) : outcome (list B) :=
  match l with
  | [] => Ret []
  | x :: rest =>
      let? y := f x in
      let? ys := map_m f rest in
      Ret (y :: ys)
  end.

Fixpoint any_m {A} (f : A -> outcome bool) (l : list A) : outcome bool :=
  match l with
  | [] => Ret false
  | x :: rest =>
      let? b := f x in
      if b then Ret true else any_m f rest
  end.

(** [[x for x in l if f x]] *)
Fixpoint filter_m {A} (f : A -> outcome bool) (l : list A) : outcome (list A) :=
  match l with
  | [] => Ret []
  | x :: rest =>
      let? b := f x in
      let? xs := filter_m f rest in
      Ret (if b then x :: xs else xs)
  end.

(** [sum(1 for kw in keywords if kw in text)] *)
Definition count_in (keywords : list string) (text : string) : nat :=
  length (List.filter (fun kw => contains kw text) keywords).

(** Floats are IEEE binary64 numbers.  [min(a, b)] keeps [a] unless [b] is
    smaller; [float(n)] of a count; the rational a finite float stands
    for. *)
Definition fmin (a b : float) : float := if PrimFloat.ltb b a then b else a.

Definition of_count (n : nat) : float :=
  PrimFloat.of_uint63 (Uint63.of_Z (Z.of_nat n)).

(** [sum(xs)] of floats, from the integer 0.  Interpreters before 3.12 add
    from the left, rounding each addition; from 3.12 on they also collect
    the rounding error of each addition after the first, and add the total
    to the sum at the end when it is finite and not zero. *)
Class Summation := { compensated : bool }.

Definition collect (acc : float * float) (x : float) : float * float :=
  let '(f_result, c) := acc in
  let t := (f_result + x)%float in
  if PrimFloat.leb (PrimFloat.abs x) (PrimFloat.abs f_result)
  then (t, (c + ((f_result - t) + x))%float)
  else (t, (c + ((x - t) + f_result))%float).

Definition py_sum `{Summation} (xs : list float) : float :=
  match xs with
  | [] => of_count 0
  | x :: rest =>
      let start := (of_count 0 + x)%float in
      if compensated then
        let '(f_result, c) := fold_left collect rest (start, 0%float) in
        if negb (PrimFloat.is_zero c) && negb (PrimFloat.is_nan c)
           && negb (PrimFloat.is_infinity c)
        then (f_result + c)%float
        else f_result
      else fold_left PrimFloat.add rest start
  end.

Definition Q_of_float (f : float) : Q :=
  match Prim2SF f with
  | S754_finite s m e =>
      let num := if s then Zneg m else Zpos m in
      match e with
      | Z0 => Qmake num 1
      | Zpos p => Qmake (num * Z.pow_pos 2 p) 1
      | Zneg p => Qmake num (Pos.pow 2 p)
      end
  | _ => Qmake 0 1
  end.

Definition VFloat_of (f : float) : value := VFloat (Q_of_float f).

End PyMore.

(** ** The critic's scoring ([CriticAgent.analyze_paper] and its helpers)

    The scoring reads the paper with [dict.get], string methods and [len],
    counts keywords, and adds float bonuses to a base score. *)
Module CriticScoring.
Import PyMore.
Local Open Scope float_scope.

Definition novelty_keywords : list string :=
  ["novel"; "new"; "first"; "innovative"; "breakthrough";
   "unprecedented"; "unique"; "original"]%string.

Definition methodology_indicators : list string :=
  ["baseline"; "benchmark"; "evaluation"; "metrics";
   "dataset"; "validation"; "cross-validation"]%string.

Definition standard_sections : list string :=
  ["introduction"; "method"; "result"; "conclusion"; "discussion"]%string.

Definition reproducibility_keywords : list string :=
  ["code"; "github"; "implementation"; "hyperparameter";
   "dataset"; "open source"; "available"; "repository"]%string.

Definition detail_keywords : list string :=
  ["architecture"; "configuration"; "parameter"; "setting"]%string.

(** [s.get("heading", "").lower()] *)
Definition heading_lower (s : value) : outcome string :=
  let? h := dict_get s "heading" (VStr "") in
  str_lower h.

(** [[s.get("heading", "").lower() for s in sections]] *)
Definition section_headings (sections : value) : outcome (list string) :=
  let? items := py_iter sections in
  map_m heading_lower items.

(** [" ".join([s.get("content", "") for s in sections]).lower()] *)
Definition all_text (sections : value) : outcome string :=
  let? items := py_iter sections in
  let? contents := map_m (fun s => dict_get s "content" (VStr "")) items in
  let? joined := join " " contents in
  Ret (PyStr.lower joined).

(** [len(abstract.split())] *)
Definition word_count (abstract : value) : outcome nat :=
  let? ws := str_split abstract in
  Ret (length ws).

Section WithPython.
Context `{Python}.

Definition _assess_novelty (paper_content : value) : outcome float :=
  let score := 5.0 in
  let? abstract := dict_get paper_content "abstract" (VStr "") in
  let? title := dict_get paper_content "title" (VStr "") in
  let text := PyStr.lower (py_str title +:+ " " +:+ py_str abstract) in
  let novelty_count := count_in novelty_keywords text in
  let score := score + fmin (of_count novelty_count * 0.5) 3.0 in
  Ret (fmin score 10.0).

End WithPython.

(** In the generator given to [any], the heading is read again for each of
    the three words; it is the same each time, so it is read once here. *)
Definition _assess_methodology (paper_content : value) : outcome float :=
  let score := 5.0 in
  let? sections := dict_get paper_content "sections" (VList []) in
  let? items := py_iter sections in
  let? has_methodology :=
    any_m (fun s =>
             let? h := heading_lower s in
             Ret (contains "method" h || contains "approach" h
                  || contains "experiment" h)) items in
  let score := if has_methodology then score + 2.0 else score in
  let? text := all_text sections in
  let indicator_count := count_in methodology_indicators text in
  let score := score + fmin (of_count indicator_count * 0.3) 2.0 in
  Ret (fmin score 10.0).

Definition _assess_clarity (paper_content : value) : outcome float :=
  let score := 5.0 in
  let? abstract := dict_get paper_content "abstract" (VStr "") in
  let? sections := dict_get paper_content "sections" (VList []) in
  let? abstract_words := word_count abstract in
  let score :=
    if Nat.leb 100 abstract_words && Nat.leb abstract_words 300
    then score + 1.5 else score in
  let? n := py_len sections in
  let score := if Nat.leb 4 n then score + 1.5 else score in
  let? headings := section_headings sections in
  let standard_count :=
    length (List.filter (fun std => existsb (contains std) headings)
                        standard_sections) in
  let score := score + fmin (of_count standard_count * 0.4) 2.0 in
  Ret (fmin score 10.0).

Definition _assess_reproducibility (paper_content : value) : outcome float :=
  let score := 4.0 in
  let? sections := dict_get paper_content "sections" (VList []) in
  let? text := all_text sections in
  let repro_count := count_in reproducibility_keywords text in
  let score := score + fmin (of_count repro_count * 0.5) 4.0 in
  let detail_count := count_in detail_keywords text in
  let score := score + fmin (of_count detail_count * 0.3) 2.0 in
  Ret (fmin score 10.0).

(** [len(paper_content.get(k, []))] *)
Definition count_of (paper_content : value) (k : string) : outcome nat :=
  let? v := dict_get paper_content k (VList []) in
  py_len v.

Definition _identify_strengths (paper_content : value)
    (scores : list (string * float)) : outcome (list string) :=
  let strengths :=
    map (fun cs => "Strong " +:+ fst cs +:+ ": well-executed and clearly presented")%string
        (List.filter (fun cs => PrimFloat.leb 7.5 (snd cs)) scores) in
  let? refs := count_of paper_content "references" in
  let strengths :=
    if Nat.ltb 30 refs
    then (strengths ++ ["Comprehensive literature review with extensive citations"%string])%list
    else strengths in
  let? secs := count_of paper_content "sections" in
  let strengths :=
    if Nat.ltb 6 secs
    then (strengths ++ ["Well-structured paper with detailed sections"%string])%list
    else strengths in
  let? abstract := dict_get paper_content "abstract" (VStr "") in
  let? abstract_words := word_count abstract in
  let strengths :=
    if Nat.ltb 150 abstract_words
    then (strengths ++ ["Detailed abstract providing good overview"%string])%list
    else strengths in
  Ret (match strengths with
       | [] => ["Clear research question"%string]
       | _ => strengths
       end).

Definition _identify_weaknesses (paper_content : value)
    (scores : list (string * float)) : outcome (list string) :=
  let weaknesses :=
    map (fun cs => "Weak " +:+ fst cs +:+ ": needs improvement")%string
        (List.filter (fun cs => PrimFloat.ltb (snd cs) 5.0) scores) in
  let? refs := count_of paper_content "references" in
  let weaknesses :=
    if Nat.ltb refs 10
    then (weaknesses ++ ["Limited references - needs more literature review"%string])%list
    else weaknesses in
  let? sections := dict_get paper_content "sections" (VList []) in
  let? secs := py_len sections in
  let weaknesses :=
    if Nat.ltb secs 4
    then (weaknesses ++ ["Limited section structure - could be more detailed"%string])%list
    else weaknesses in
  let? headings := section_headings sections in
  let weaknesses :=
    if negb (existsb (contains "result") headings)
    then (weaknesses ++ ["No clear results section identified"%string])%list
    else weaknesses in
  Ret (match weaknesses with
       | [] => ["Minor presentation improvements needed"%string]
       | _ => weaknesses
       end).

Section WithPython.
Context `{Python}.

Definition _generate_recommendations (paper_content : value)
    (weaknesses : list string) : list string :=
  let shown := PyStr.lower (py_str (VList (map VStr weaknesses))) in
  let recommendations := [] in
  let recommendations :=
    if contains "literature review" shown
    then (recommendations ++ ["Expand literature review to include more recent work"%string])%list
    else recommendations in
  let recommendations :=
    if contains "result" shown
    then (recommendations ++ ["Add dedicated results section with clear presentation"%string])%list
    else recommendations in
  let recommendations :=
    if contains "reproducibility" shown
    then (recommendations ++ ["Include implementation details and code availability"%string])%list
    else recommendations in
  match recommendations with
  | [] => ["Consider adding more ablation studies"%string;
           "Expand discussion of limitations"%string]
  | _ => recommendations
  end.

End WithPython.

Definition _analyze_methodology_details (paper_content : value) : outcome value :=
  let? sections := dict_get paper_content "sections" (VList []) in
  let? items := py_iter sections in
  let? method_sections :=
    filter_m (fun s => let? h := heading_lower s in Ret (contains "method" h)) items in
  let? lengths :=
    map_m (fun s => let? c := dict_get s "content" (VStr "") in py_len c)
          method_sections in
  Ret (VDict [("has_methodology_section"%string,
               VBool (Nat.ltb 0 (length method_sections)));
              ("methodology_length"%string,
               VInt (Z.of_nat (fold_left Nat.add lengths 0%nat)));
              ("experimental_design"%string,
               VStr (match method_sections with
                     | [] => "unclear"
                     | _ => "present"
                     end))]).

Definition _compute_clarity_metrics (paper_content : value) : outcome value :=
  let? abstract := dict_get paper_content "abstract" (VStr "") in
  let? abstract_length := word_count abstract in
  let? section_count := count_of paper_content "sections" in
  let? reference_count := count_of paper_content "references" in
  let? sections := count_of paper_content "sections" in
  Ret (VDict [("abstract_length"%string, VInt (Z.of_nat abstract_length));
              ("section_count"%string, VInt (Z.of_nat section_count));
              ("reference_count"%string, VInt (Z.of_nat reference_count));
              ("has_clear_structure"%string, VBool (Nat.leb 4 sections))]).

(** [sum(scores) / len(scores) if scores else 0.0] *)
Definition mean `{Summation} (scores : list float) : float :=
  match scores with
  | [] => 0.0
  | _ => py_sum scores / of_count (length scores)
  end.

Section WithPython.
Context `{Python} `{Summation}.

Definition analyze_paper (paper_content focus_areas : value) : outcome value :=
  let? novelty := _assess_novelty paper_content in
  let? methodology := _assess_methodology paper_content in
  let? clarity := _assess_clarity paper_content in
  let? reproducibility := _assess_reproducibility paper_content in
  let detailed_scores :=
    [("novelty"%string, novelty); ("methodology"%string, methodology);
     ("clarity"%string, clarity); ("reproducibility"%string, reproducibility)] in
  let overall_score := mean (map snd detailed_scores) in
  let? strengths := _identify_strengths paper_content detailed_scores in
  let? weaknesses := _identify_weaknesses paper_content detailed_scores in
  let recommendations := _generate_recommendations paper_content weaknesses in
  let? methodology_analysis := _analyze_methodology_details paper_content in
  let? clarity_metrics := _compute_clarity_metrics paper_content in
  Ret (VDict [("overall_score"%string, VFloat_of overall_score);
              ("strengths"%string, VList (map VStr strengths));
              ("weaknesses"%string, VList (map VStr weaknesses));
              ("detailed_scores"%string,
               VDict (map (fun cs => (fst cs, VFloat_of (snd cs))) detailed_scores));
              ("recommendations"%string, VList (map VStr recommendations));
              ("methodology_analysis"%string, methodology_analysis);
              ("clarity_metrics"%string, clarity_metrics)]).

End WithPython.

End CriticScoring.

(** ** What the critic accepts, and the scores it can give *)
Module Paper.

Definition is_text (v : value) : bool :=
  match v with
  | VStr _ => true
  | _ => false
  end.

(** A section the critic can read: a dict whose heading and content, where
    given, are strings. *)
Definition section_ok (s : value) : bool :=
  match s with
  | VDict d =>
      is_text (default (VStr "") (find_key "heading" d))
      && is_text (default (VStr "") (find_key "content" d))
  | _ => false
  end.

(** Sections the critic can read: a list of such dicts (or an empty string
    or dict, which have no item). *)
Definition sections_ok (v : value) : bool :=
  match v with
  | VList l => forallb section_ok l
  | VStr s => String.eqb s ""
  | VDict d => match d with [] => true | _ => false end
  | _ => false
  end.

(** A paper the critic can read: a dict whose abstract, where given, is a
    string, with readable sections and references that have a length. *)
Definition accepted (paper : value) : bool :=
  match paper with
  | VDict d =>
      is_text (default (VStr "") (find_key "abstract" d))
      && sections_ok (default (VList []) (find_key "sections" d))
      && Run.sized (default (VList []) (find_key "references" d))
  | _ => false
  end.

(** A score between two bounds. *)
Definition in_range (lo hi : Q) (v : value) : bool :=
  match v with
  | VFloat q => Qle_bool lo q && Qle_bool q hi
  | _ => false
  end.

(** A non-empty list of strings. *)
Definition some_texts (v : value) : bool :=
  match v with
  | VList (x :: l) => forallb is_text (x :: l)
  | _ => false
  end.

(** The weaknesses that are ever reported. *)
Definition weakness_messages : list string :=
  ["Weak reproducibility: needs improvement";
   "Limited references - needs more literature review";
   "Limited section structure - could be more detailed";
   "No clear results section identified";
   "Minor presentation improvements needed"].

(** A strength and the weakness that would contradict it. *)
Definition opposites : list (string * string) :=
  [("Comprehensive literature review with extensive citations",
    "Limited references - needs more literature review");
   ("Well-structured paper with detailed sections",
    "Limited section structure - could be more detailed");
   ("Strong reproducibility: well-executed and clearly presented",
    "Weak reproducibility: needs improvement")].

End Paper.

(** The score of each category as a function of what the assessment counts:
    keywords found, and the conditions that earn a bonus. *)
Module Scores.
Import PyMore.
Local Open Scope float_scope.

Definition novelty (count : nat) : float :=
  fmin (5.0 + fmin (of_count count * 0.5) 3.0) 10.0.

Definition methodology (has_methodology : bool) (count : nat) : float :=
  fmin ((if has_methodology then 5.0 + 2.0 else 5.0)
        + fmin (of_count count * 0.3) 2.0) 10.0.

Definition clarity (abstract_fits structured : bool) (count : nat) : float :=
  let score := 5.0 in
  let score := if abstract_fits then score + 1.5 else score in
  let score := if structured then score + 1.5 else score in
  fmin (score + fmin (of_count count * 0.4) 2.0) 10.0.

Definition reproducibility (repro detail : nat) : float :=
  fmin (4.0 + fmin (of_count repro * 0.5) 4.0 + fmin (of_count detail * 0.3) 2.0) 10.0.

(** Whether [P] holds of every score of one category. *)
Definition each_novelty (P : float -> bool) : bool :=
  forallb (fun n => P (novelty n)) (seq 0 9).

Definition each_methodology (P : float -> bool) : bool :=
  forallb (fun b => forallb (fun n => P (methodology b n)) (seq 0 8)) [false; true].

Definition each_clarity (P : float -> bool) : bool :=
  forallb (fun b1 =>
  forallb (fun b2 =>
  forallb (fun n => P (clarity b1 b2 n)) (seq 0 6)) [false; true]) [false; true].

Definition each_reproducibility (P : float -> bool) : bool :=
  forallb (fun n => forallb (fun m => P (reproducibility n m)) (seq 0 5)) (seq 0 9).

(** Whether [P] holds of the scores for every combination of counts and
    conditions. *)
Definition every (P : float -> float -> float -> float -> bool) : bool :=
  forallb (fun n1 =>
  forallb (fun b =>
  forallb (fun n2 =>
  forallb (fun b1 =>
  forallb (fun b2 =>
  forallb (fun n3 =>
  forallb (fun n4 =>
  forallb (fun n5 =>
    P (novelty n1) (methodology b n2) (clarity b1 b2 n3) (reproducibility n4 n5))
  (seq 0 5)) (seq 0 9)) (seq 0 6)) [false; true]) [false; true]) (seq 0 8))
  [false; true]) (seq 0 9).

End Scores.

(** ** The reader and the critic as deployed

    The services with the critic's scoring in place of an arbitrary one, and
    the two agents that run on them. *)
Module Deployed.

Definition services `{Python} `{PyMore.Summation} (sv : Services) : Services :=
  {| fitz_open := @fitz_open sv;
     arxiv_fetch := @arxiv_fetch sv;
     critic_analyze :=
       fun paper_content focus_areas =>
         pure_op (CriticScoring.analyze_paper paper_content focus_areas);
     cite_analyze := @cite_analyze sv;
     meta_generate := @meta_generate sv |}.

Definition reader `{Python} `{PyMore.Summation} `{Re} (sv : Services) (self : agent_self) : Agent :=
  as_agent (@adapter _ _ (services sv) Extraction) self.

Definition critic `{Python} `{PyMore.Summation} `{Re} (sv : Services) (self : agent_self) : Agent :=
  as_agent (@adapter _ _ (services sv) Critique) self.

End Deployed.

(** ** The recommendation of the meta reviewer
    ([MetaReviewerAgent._make_recommendation]) *)
Module MetaRules.

(** [v >= x] for a float [x]: numbers compare by value, anything else
    raises. *)
Definition ge_float (v : value) (x : Q) : outcome bool :=
  match v with
  | VBool b => Ret (Qle_bool x (if b then 1 # 1 else 0 # 1))
  | VInt z => Ret (Qle_bool x (z # 1))
  | VFloat q => Ret (Qle_bool x q)
  | _ => Raise (TypeError ("'>=' not supported between instances of '"
                           +:+ type_name v +:+ "' and 'float'"))
  end.

Definition accept : string := "Accept - Strong contribution with minor revisions".
Definition weak_accept : string := "Weak Accept - Good work but needs improvements".
Definition major_revisions : string :=
  "Major Revisions - Significant improvements needed".
Definition reject : string := "Reject - Does not meet publication standards".

Definition _make_recommendation (critic_analysis : value) : outcome string :=
  let? overall_score := dict_get critic_analysis "overall_score" (VInt 0) in
  let? high := ge_float overall_score (15 # 2) in
  if high then Ret accept
  else
    let? good := ge_float overall_score (6 # 1) in
    if good then Ret weak_accept
    else
      let? fair := ge_float overall_score (9 # 2) in
      if fair then Ret major_revisions
      else Ret reject.

End MetaRules.

(** ** Sample papers for the critic *)
Module Reviewed.

(** The paper the critic's module analyses when it is run as a script. *)
Definition test_paper : value :=
  VDict
    [("title", VStr "A Novel Approach to Deep Learning");
     ("abstract",
      VStr "This paper presents a novel approach to deep learning that improves performance...");
     ("sections",
      VList [VDict [("heading", VStr "Introduction");
                    ("content", VStr "Deep learning has...")];
             VDict [("heading", VStr "Methodology");
                    ("content", VStr "Our approach uses...")];
             VDict [("heading", VStr "Results");
                    ("content", VStr "We achieved...")];
             VDict [("heading", VStr "Conclusion");
                    ("content", VStr "In conclusion...")]]);
     ("references", VList (map (fun i => VStr ("Ref " +:+ pretty i)) (seq 0 25)))].

(** An interpreter whose [sum] adds from the left. *)
Definition plain : PyMore.Summation := {| PyMore.compensated := false |}.

(** Its analysis. *)
Definition analysis : value :=
  match @CriticScoring.analyze_paper Sample.python plain test_paper VNone with
  | Ret r => r
  | Raise _ => VNone
  end.

End Reviewed.

(** ** The evaluation harness: constraints on a result
    ([EvaluationHarness._check_constraints]) and the category the metrics
    give to a violation ([MetricsCalculator._analyze_failures]) *)
Module Harness.
Import PyMore.

(** [constraints.get(k)] as a condition. *)
Definition asked (constraints : value) (k : string) : outcome bool :=
  let? v := dict_get constraints k VNone in
  Ret (truthy v).

(** [violations.append(message)] when the condition holds. *)
Definition noting (condition : bool) (message : string) (violations : list string)
  : list string :=
  if condition then (violations ++ [message])%list else violations.

Definition messages : list string :=
  ["Failed to extract paper title";
   "Failed to extract meaningful abstract";
   "Missing critical analysis";
   "Missing ELI5 summary";
   "Reader agent failed";
   "Critic agent failed";
   "MetaReviewer agent failed";
   "CiteAgent failed to find related papers"].

Section WithPython.
Context `{Python}.

Definition _check_constraints (result constraints : value) : outcome (list string) :=
  let violations := [] in
  let? paper_content := dict_get result "paper_content" (VDict []) in
  let? critique := dict_get result "critic_analysis" (VDict []) in
  let? review := dict_get result "final_review" (VDict []) in
  let? must_extract_title := asked constraints "must_extract_title" in
  let? no_title :=
    if must_extract_title then
      let? title := dict_get paper_content "title" VNone in
      if negb (truthy title) then Ret true
      else let? title := subscript paper_content "title" in
           Ret (eq_str title "Unknown Title")
    else Ret false in
  let violations := noting no_title "Failed to extract paper title" violations in
  let? must_extract_abstract := asked constraints "must_extract_abstract" in
  let? no_abstract :=
    if must_extract_abstract then
      let? abstract := dict_get paper_content "abstract" VNone in
      if negb (truthy abstract) then Ret true
      else let? abstract := subscript paper_content "abstract" in
           let? n := py_len abstract in
           Ret (Nat.ltb n 50)
    else Ret false in
  let violations :=
    noting no_abstract "Failed to extract meaningful abstract" violations in
  let? must_have_critique := asked constraints "must_have_critique" in
  let? no_critique :=
    if must_have_critique then
      if negb (truthy critique) then Ret true
      else let? score := dict_get critique "overall_score" VNone in
           Ret (negb (truthy score))
    else Ret false in
  let violations := noting no_critique "Missing critical analysis" violations in
  let? must_have_eli5 := asked constraints "must_have_eli5" in
  let? no_eli5 :=
    if must_have_eli5 then
      let? summary := dict_get review "eli5_summary" VNone in
      Ret (negb (truthy summary))
    else Ret false in
  let violations := noting no_eli5 "Missing ELI5 summary" violations in
  let? metadata := dict_get result "metadata" (VDict []) in
  let? reader_agent_success := asked constraints "reader_agent_success" in
  let? reader_failed :=
    if reader_agent_success then
      let? errors := dict_get metadata "errors" (VList []) in
      Ret (contains "reader" (PyStr.lower (py_str errors)))
    else Ret false in
  let violations := noting reader_failed "Reader agent failed" violations in
  let? critic_agent_success := asked constraints "critic_agent_success" in
  let violations :=
    noting (critic_agent_success && negb (truthy critique))
           "Critic agent failed" violations in
  let? meta_reviewer_success := asked constraints "meta_reviewer_success" in
  let violations :=
    noting (meta_reviewer_success && negb (truthy review))
           "MetaReviewer agent failed" violations in
  let? cite_agent_success := asked constraints "cite_agent_success" in
  let? cite_failed :=
    if cite_agent_success then
      let? citations := dict_get result "citation_data" (VDict []) in
      if negb (truthy citations) then Ret true
      else let? related := dict_get citations "related_papers" (VList []) in
           let? n := py_len related in
           Ret (Nat.eqb n 0)
    else Ret false in
  let violations :=
    noting cite_failed "CiteAgent failed to find related papers" violations in
  Ret violations.

End WithPython.

(** The category of a violation, from the loop of [_analyze_failures]. *)
Definition category (violation : string) : string :=
  if contains "extract" (PyStr.lower violation) then "extraction_failure"
  else if contains "agent" (PyStr.lower violation) then "agent_failure"
  else if contains "timeout" (PyStr.lower violation)
          || contains "time" (PyStr.lower violation) then "timeout"
  else "other".

End Harness.

(** A result to check, and constraints that ask for everything. *)
Module Checked.

Definition result : value :=
  VDict [("paper_content", Reviewed.test_paper);
         ("critic_analysis", Reviewed.analysis);
         ("citation_data", VDict []);
         ("final_review", VDict []);
         ("metadata", VDict [("tool_calls", VInt 4); ("errors", VList [])])].

Definition constraints : value :=
  VDict (map (fun k => (k, VBool true))
             ["must_extract_title"; "must_extract_abstract"; "must_have_critique";
              "must_have_eli5"; "reader_agent_success"; "critic_agent_success";
              "meta_reviewer_success"; "cite_agent_success"]).

Definition violations : list string :=
  ["Missing ELI5 summary"; "MetaReviewer agent failed";
   "CiteAgent failed to find related papers"].

End Checked.

(** * Properties *)

Lemma eq_str_true v s : eq_str v s = true <-> v = VStr s.
Proof.
  destruct v; simpl; try (split; [discriminate | congruence]).
  rewrite String.eqb_eq. split; congruence.
Qed.

Lemma eq_str_false v s : eq_str v s = false <-> v <> VStr s.
Proof.
  rewrite <- eq_str_true. destruct (eq_str v s); split; congruence.
Qed.

(** ** Computations that return *)

Lemma returns_ret {S A} (a : A) (s : S) (Q : A -> S -> Prop) :
  Q a s -> returns (ret a) s Q.
Proof. intros HQ. exists a, s. split; [reflexivity | exact HQ]. Qed.

Lemma returns_bind {S A B} (m : ST S A) (k : A -> ST S B) (s : S)
    (Q : B -> S -> Prop) :
  returns m s (fun a s' => returns (k a) s' Q) -> returns (bind m k) s Q.
Proof.
  intros (a & s' & Hm & b & s'' & Hk & HQ).
  exists b, s''. unfold bind. rewrite Hm. split; assumption.
Qed.

Lemma returns_mono {S A} (m : ST S A) (s : S) (P Q : A -> S -> Prop) :
  returns m s P -> (forall a s', P a s' -> Q a s') -> returns m s Q.
Proof.
  intros (a & s' & Hm & HP) HPQ. exists a, s'. split; [exact Hm | auto].
Qed.

Lemma returns_modify {S} (f : S -> S) (s : S) (Q : unit -> S -> Prop) :
  Q tt (f s) -> returns (modify f) s Q.
Proof. intros HQ. exists tt, (f s). split; [reflexivity | exact HQ]. Qed.

Lemma returns_try {S A} (body : ST S A) (h : exn -> ST S A) (s : S)
    (Q : A -> S -> Prop) :
  returns body s Q -> returns (try_except body h) s Q.
Proof.
  intros (a & s' & Hm & HQ). exists a, s'. unfold try_except.
  rewrite Hm. split; [reflexivity | exact HQ].
Qed.

(** ** Reading envelopes *)

Lemma subscript_field v k x : subscript v k = Ret x <-> field k v = Some x.
Proof.
  destruct v; simpl; try (split; discriminate).
  destruct (find_key k d); split; congruence.
Qed.

Lemma response_with_reads env data :
  response_with env data ->
  subscript env "message_type" = Ret (VStr "response") /\
  exists p, subscript env "payload" = Ret p /\ subscript p "data" = Ret data.
Proof.
  intros [Hk Hd]. split; [by apply subscript_field |].
  unfold env_payload in Hd.
  destruct (field "payload" env) as [p|] eqn:Hp; [| done].
  exists p. split; by apply subscript_field.
Qed.

Lemma error_with_reads env err :
  error_with env err ->
  subscript env "message_type" = Ret (VStr "error") /\
  exists p, subscript env "payload" = Ret p /\ dict_get p "error" VNone = Ret err.
Proof.
  intros [Hk He]. split; [by apply subscript_field |].
  unfold env_error in He.
  destruct (field "payload" env) as [p|] eqn:Hp; [| done].
  exists p. split; [by apply subscript_field |].
  destruct p; try done. simpl. congruence.
Qed.

Lemma prefix_append (p x : string) : String.prefix p (p +:+ x) = true.
Proof.
  apply String.prefix_correct.
  induction p as [| c p IH]; simpl.
  - destruct x; reflexivity.
  - by rewrite IH.
Qed.

(** ** The nodes *)

Section Nodes.
Context `{Python}.

Ltac node_cases :=
  repeat match goal with
  | |- context [subscript ?v ?k] => destruct (subscript v k) eqn:?; simpl
  | |- context [dict_get ?v ?k ?d] => destruct (dict_get v k d) eqn:?; simpl
  | |- context [py_len ?v] => destruct (py_len v) eqn:?; simpl
  | |- context [format_fixed ?v] => destruct (format_fixed v) eqn:?; simpl
  | |- context [if eq_str ?a ?s then _ else _] => destruct (eq_str a s) eqn:?; simpl
  end.

Ltac reads_clash :=
  repeat match goal with
  | H : response_with _ _ |- _ =>
      apply response_with_reads in H; destruct H as (? & ? & ? & ?)
  | H : error_with _ _ |- _ =>
      apply error_with_reads in H; destruct H as (? & ? & ? & ?)
  end;
  repeat match goal with
  | H1 : ?t = Ret _, H2 : ?t = _ |- _ =>
      rewrite H1 in H2; first [discriminate H2 | injection H2 as ?; subst]
  end;
  simpl in *; try discriminate; try congruence.

Ltac node_run :=
  unfold returns, node_post, returning_state, try_except, bind, on_world, now,
    uuid4, read, assign, append_error, gets, modify, pure_op, ret;
  simpl.

Ltac node_done :=
  (do 2 eexists; split; [reflexivity |]); unfold entered; simpl;
  (split;
   [ repeat split; eauto using app_nil_r;
     try (by exists []; rewrite app_nil_r);
     try (by intros []) |]).

Lemma node_spec (s : stage_id) (a : Agent) (st : ReviewState) (w : World) :
  returns (node s a st) w (fun st' _ => node_post s a st w st').
Proof.
  destruct s; unfold node;
    [unfold extract_paper | unfold analyze_paper
     | unfold find_citations | unfold generate_review];
    node_run; unfold request_of, call_world; simpl;
    match goal with
    | |- context [process_message a ?m ?w1] =>
        destruct (process_message a m w1) as [[env|e] w'] eqn:Hcall
    end; simpl.
  all: try (node_cases; node_done).
  all: try (split; [intros d Hd | intros e' He']); reads_clash.
  all: try (left; reflexivity); try (right; split; reflexivity);
    try (split; reflexivity).
Qed.

(** What [entered] says, one equation per field. *)
Lemma entered_fields s st st' :
  entered s st st' ->
  paper_source st' = paper_source st /\ source_type st' = source_type st /\
  session_id st' = session_id st /\ start_time st' = start_time st /\
  tool_calls st' = (tool_calls st + 1)%Z /\
  (s <> Extraction -> paper_content st' = paper_content st) /\
  (s <> Critique -> critic_analysis st' = critic_analysis st) /\
  (s <> Citation -> citation_data st' = citation_data st) /\
  (s <> Synthesis -> final_review st' = final_review st).
Proof.
  intros (? & ? & ? & ? & ? & _ & Hout).
  repeat split; try assumption.
  - intros Hs. apply (Hout Extraction). congruence.
  - intros Hs. apply (Hout Critique). congruence.
  - intros Hs. apply (Hout Citation). congruence.
  - intros Hs. apply (Hout Synthesis). congruence.
Qed.



End Nodes.

(** ** The workflow *)

Section Workflow.
Context `{Python}.

Lemma run_step g tid fuel name ch :
  String.eqb name END = false ->
  run g tid (S fuel) name ch
  = bind (step g tid name ch) (fun next => run g tid fuel (fst next) (snd next)).
Proof. intros Hn. simpl. by rewrite Hn. Qed.

Lemma returns_step g tid name fn next ch w
    (Q : string * ReviewState -> World -> Prop) :
  find_key name (nodes g) = Some fn ->
  find_key name (edges g) = Some next ->
  returns (fn ch) w
          (fun u w' =>
             forall w'',
               memory w'' = MemorySaver.save tid (apply_writes ch u) (memory w') ->
               Q (next, apply_writes ch u) w'') ->
  returns (step g tid name ch) w Q.
Proof.
  intros Hfn Hedge Hrun. unfold step. rewrite Hfn, Hedge.
  apply returns_bind. eapply returns_mono; [exact Hrun |].
  intros u w' HQ. apply returns_bind. unfold checkpoint.
  apply returns_modify. apply returns_ret. simpl. apply HQ. reflexivity.
Qed.

Lemma invoke_pipeline reader critic meta cite input tid w :
  returns (invoke (app (assemble reader critic meta cite)) input tid) w
          (fun final w' =>
             pipeline reader critic meta cite input final /\
             MemorySaver.load tid (memory w') = Some final).
Proof.
  unfold invoke. cbn -[run apply_writes].
  apply returns_bind. unfold checkpoint. apply returns_modify.
  match goal with |- context [run ?g0 _ _ _ _] => set (g := g0) end.
  rewrite run_step by reflexivity. apply returns_bind.
  eapply (returns_step g tid "extract" _ "analyze"); [reflexivity | reflexivity |].
  eapply returns_mono; [apply (node_spec Extraction) |].
  intros u1 w1 H1 w1' Hm1. simpl fst. simpl snd.
  rewrite run_step by reflexivity. apply returns_bind.
  eapply (returns_step g tid "analyze" _ "find_citations"); [reflexivity | reflexivity |].
  eapply returns_mono; [apply (node_spec Critique) |].
  intros u2 w2 H2 w2' Hm2. simpl fst. simpl snd.
  rewrite run_step by reflexivity. apply returns_bind.
  eapply (returns_step g tid "find_citations" _ "generate_review");
    [reflexivity | reflexivity |].
  eapply returns_mono; [apply (node_spec Citation) |].
  intros u3 w3 H3 w3' Hm3. simpl fst. simpl snd.
  rewrite run_step by reflexivity. apply returns_bind.
  eapply (returns_step g tid "generate_review" _ END); [reflexivity | reflexivity |].
  eapply returns_mono; [apply (node_spec Synthesis) |].
  intros u4 w4 H4 w4' Hm4. simpl fst. simpl snd.
  apply returns_ret. split.
  - unfold pipeline. do 4 eexists. exists u1, u2, u3, u4. cbv zeta.
    split; [exact H1 |]. split; [exact H2 |]. split; [exact H3 |].
    split; [exact H4 | reflexivity].
  - rewrite Hm4. apply lookup_insert_eq.
Qed.

Ltac entered_facts H :=
  let E := fresh "E" in
  pose proof (entered_fields _ _ _ (proj1 H)) as E;
  destruct E as (? & ? & ? & ? & ? & ? & ? & ? & ?).

Lemma pipeline_inputs reader critic meta cite input final :
  pipeline reader critic meta cite input final ->
  paper_source final = paper_source input /\
  source_type final = source_type input /\
  session_id final = session_id input /\
  tool_calls final = (tool_calls input + 4)%Z.
Proof.
  intros (w1 & w2 & w3 & w4 & u1 & u2 & u3 & u4 & H1 & H2 & H3 & H4 & ->).
  entered_facts H1. entered_facts H2. entered_facts H3. entered_facts H4.
  simpl in *. repeat split; try congruence. lia.
Qed.


Lemma review_paper_returns reader critic meta cite src ty w :
  returns (review_paper (assemble reader critic meta cite) src ty) w
    (fun result w' =>
       exists final,
         pipeline reader critic meta cite
                  (initial_state src ty (entropy w (drawn w))
                                 (wall_clock w (readings w))) final /\
         reports result final /\
         MemorySaver.load (session_id final) (memory w') = Some final).
Proof.
  unfold review_paper.
  apply returns_bind. eexists _, _. split; [reflexivity |].
  apply returns_bind. eexists _, _. split; [reflexivity |].
  apply returns_try. apply returns_bind.
  eapply returns_mono; [apply invoke_pipeline |].
  intros final w' [Hrun Hsaved]. simpl in Hrun.
  apply returns_bind. eexists _, _. split; [reflexivity |].
  eexists _, _. split; [reflexivity |].
  exists final.
  destruct (pipeline_inputs _ _ _ _ _ _ Hrun) as (_ & _ & Hsid & _).
  simpl in Hsid. split; [exact Hrun |]. split.
  - unfold reports. simpl. rewrite Hsid. repeat split; reflexivity.
  - simpl. rewrite Hsid. exact Hsaved.
Qed.

End Workflow.

(** ** The adapters *)

Section Adapters.
Context `{Python} `{Re} `{Services}.

#[local] Arguments ReaderAgent.extract_paper : simpl never.
#[local] Arguments CriticAgent.analyze_paper : simpl never.
#[local] Arguments CiteAgent.analyze_citations : simpl never.
#[local] Arguments MetaReviewerAgent.generate_review : simpl never.

Ltac adapter_run :=
  unfold adapter, ReaderAgent.process_message, CriticAgent.process_message,
    CiteAgent.process_message, MetaReviewerAgent.process_message,
    bind, pure_op, try_except, ret, uuid4, now; simpl.

Lemma message_action_inv msg action :
  message_action msg = Ret action ->
  exists d p, msg = VDict d /\
              default (VDict []) (find_key "payload" d) = VDict p /\
              action = default VNone (find_key "action" p).
Proof.
  unfold message_action. destruct msg; simpl; try discriminate.
  destruct (default (VDict []) (find_key "payload" d)) eqn:Hp; simpl;
    try discriminate.
  intros [= <-]. eauto.
Qed.

(** C1, at the input where the code departs from it: a request with a
    context and an action that the adapter does not declare gets an error
    envelope that holds neither the context nor the action of the request. *)
Theorem unknown_action_reply_drops_context (s : stage_id) (self : agent_self)
    (w : World) :
  exists env,
    adapter s self Sample.stray_request w = (Ret env, w) /\
    env_kind env = Some (VStr "error") /\
    field "context" Sample.stray_request = Some (VDict [("session_id", VStr "run-1")]) /\
    field "context" env = None /\
    env_payload "action" Sample.stray_request = Some (VStr "summarize") /\
    env_payload "action" env = None.
Proof.
  eexists. split; [destruct s; reflexivity |].
  repeat split; reflexivity.
Qed.


(** What an adapter returns on a message that is a mapping, with a mapping
    for payload and for data where they are given. *)
Lemma adapter_envelope (s : stage_id) (self : agent_self) (msg : value)
    (w : World) :
  well_formed msg = true ->
  returns (adapter s self msg) w
    (fun env _ =>
       exists action,
         message_action msg = Ret action /\
         if eq_str action (declared_action s)
         then match stage_logic s (message_data msg) w with
              | (Ret r, _) => response_with env r
              | (Raise e, _) => error_with env (VStr (str_exn e))
              end /\
              field "context" env = Some (default (VDict []) (field "context" msg)) /\
              env_payload "action" env = Some action
         else env = unknown_action action).
Proof.
  intros Hwf. unfold well_formed in Hwf.
  destruct msg as [| | | | | | d]; try discriminate.
  unfold message_data, env_payload, message_action, returns in *. simpl in *.
  destruct (find_key "payload" d) as [pl |] eqn:Hp; simpl in *.
  - destruct pl as [| | | | | | p]; try discriminate. simpl in *.
    destruct (default (VDict []) (find_key "data" p)) as [| | | | | | dat] eqn:Hd;
      try discriminate.
    destruct s; adapter_run; rewrite Hp; simpl; rewrite Hd; simpl;
      match goal with
      | |- context [eq_str ?a ?n] => destruct (eq_str a n) eqn:Hact
      end;
      try (eexists _, _; split; [reflexivity |]; eexists; split; [reflexivity |];
           simpl; rewrite Hact; reflexivity).
    all: match goal with
         | |- context [match ?c with _ => _ end] =>
             lazymatch c with
             | context [match _ with _ => _ end] => fail
             | _ => destruct c as [[r | e] w1] eqn:Hrun
             end
         end; simpl.
    all: eexists _, _; (split; [reflexivity |]); eexists; (split; [reflexivity |]);
         simpl; rewrite Hact; simpl; apply eq_str_true in Hact;
         repeat split; try reflexivity; simpl; congruence.
  - destruct s; adapter_run; rewrite Hp; simpl;
      eexists _, _; (split; [reflexivity |]); eexists; (split; [reflexivity |]);
      reflexivity.
Qed.

(** C6 (as amended): on a message that is a mapping, with a mapping for
    payload and for data where they are given, an adapter returns an
    envelope: the response that wraps the result of its stage, the error
    envelope that carries the description of the exception its stage raised,
    or the unknown-action error. *)
Theorem stage_exceptions_become_envelopes (s : stage_id) (self : agent_self)
    (msg : value) (w : World) :
  well_formed msg = true ->
  returns (adapter s self msg) w
    (fun env _ =>
       exists action,
         message_action msg = Ret action /\
         if eq_str action (declared_action s)
         then match stage_logic s (message_data msg) w with
              | (Ret r, _) => response_with env r
              | (Raise e, _) => error_with env (VStr (str_exn e))
              end
         else env = unknown_action action).
Proof.
  intros Hwf. eapply returns_mono; [apply adapter_envelope; exact Hwf |].
  intros env _ (action & Ha & Henv). exists action. split; [exact Ha |].
  destruct (eq_str action (declared_action s)); [apply Henv | exact Henv].
Qed.

(** On the paths that build a full envelope the context and the action of
    the request are passed on: the factories, and an adapter serving the
    action it declares. *)
Lemma factory_pass_through (original sender data action : value) (w : World) :
  message_action original = Ret action ->
  returns (MCPMessage.create_response original sender data) w
    (fun env _ =>
       env_kind env = Some (VStr "response") /\
       field "context" env = Some (default (VDict []) (field "context" original)) /\
       env_payload "action" env = Some action) /\
  returns (MCPMessage.create_error original sender data) w
    (fun env _ =>
       env_kind env = Some (VStr "error") /\
       field "context" env = Some (default (VDict []) (field "context" original)) /\
       env_payload "action" env = Some action).
Proof.
  intros Ha. destruct (message_action_inv _ _ Ha) as (d & p & -> & Hp & ->).
  unfold returns, MCPMessage.create_response, MCPMessage.create_error.
  adapter_run. rewrite Hp. simpl.
  split; eexists _, _; (split; [reflexivity |]); repeat split; reflexivity.
Qed.

Lemma request_carries_context (sender receiver action data context : value)
    (w : World) :
  returns (MCPMessage.create_request sender receiver action data context) w
    (fun env _ =>
       env_kind env = Some (VStr "request") /\
       env_payload "action" env = Some action /\
       env_payload "data" env = Some data /\
       field "context" env = Some (if truthy context then context else VDict [])).
Proof.
  unfold returns, MCPMessage.create_request. adapter_run.
  eexists _, _. split; [reflexivity |]. repeat split; reflexivity.
Qed.

Lemma adapter_pass_through (s : stage_id) (self : agent_self) (msg : value)
    (w : World) :
  well_formed msg = true ->
  message_action msg = Ret (VStr (declared_action s)) ->
  returns (adapter s self msg) w
    (fun env _ =>
       field "context" env = Some (default (VDict []) (field "context" msg)) /\
       env_payload "action" env = Some (VStr (declared_action s))).
Proof.
  intros Hwf Ha.
  eapply returns_mono; [apply adapter_envelope; exact Hwf |].
  intros env _ (action & Ha' & Henv). simpl in Henv.
  rewrite Ha in Ha'. injection Ha' as <-.
  assert (Hs : eq_str (VStr (declared_action s)) (declared_action s) = true)
    by (apply eq_str_true; reflexivity).
  rewrite Hs in Henv. tauto.
Qed.

End Adapters.



Lemma stage_exceptions_become_envelopes_witness :
  well_formed (Sample.envelope "request" "analyze_citations") = true /\
  returns (@adapter Sample.python Sample.regex Sample.services Citation Sample.self
                    (Sample.envelope "request" "analyze_citations"))
          Sample.world
          (fun env _ =>
             exists action,
               message_action (Sample.envelope "request" "analyze_citations")
               = Ret action /\
               if eq_str action (declared_action Citation)
               then match @stage_logic Sample.python Sample.regex Sample.services
                            Citation
                            (message_data (Sample.envelope "request" "analyze_citations"))
                            Sample.world with
                    | (Ret r, _) => response_with env r
                    | (Raise e, _) => error_with env (VStr (str_exn e))
                    end
               else env = @unknown_action Sample.python action).
Proof.
  split; [reflexivity |].
  apply (@stage_exceptions_become_envelopes Sample.python Sample.regex Sample.services).
  reflexivity.
Defined.

(** C6 fails as worded: a request whose payload is a string makes the
    reader's adapter raise. *)
Lemma malformed_payload_raises :
  ~ @never_raises Sample.python Sample.regex Sample.services.
Proof.
  intros Hc.
  destruct (Hc Extraction Sample.self Sample.malformed_request Sample.world)
    as (env & w' & Hrun).
  vm_compute in Hrun. discriminate Hrun.
Qed.

(** ** The coordinator *)

Section Coordinator.
Context `{Python}.

#[local] Arguments invoke : simpl never.

Lemma review_paper_counts reader critic meta cite src ty w :
  returns (review_paper (assemble reader critic meta cite) src ty) w
          (fun result _ => metadata "tool_calls" result = Some (VInt 4)).
Proof.
  eapply returns_mono; [apply review_paper_returns |].
  intros result _ (final & Hrun & Hrep & _).
  destruct (pipeline_inputs _ _ _ _ _ _ Hrun) as (_ & _ & _ & Hcalls).
  destruct Hrep as (_ & _ & _ & _ & _ & Htc & _).
  rewrite Htc, Hcalls. reflexivity.
Qed.

(** C2: every stage that is entered adds one to [tool_calls], whatever its
    agent does, and the result of a run of the four-stage workflow reports
    exactly 4, for any four agents and for the orchestrator that [__init__]
    builds. *)
Theorem tool_calls_is_four `{Re} `{Services} :
  (forall s a st w,
     returns (node s a st) w
             (fun st' _ => tool_calls st' = (tool_calls st + 1)%Z)) /\
  (forall reader critic meta cite src ty w,
     returns (review_paper (assemble reader critic meta cite) src ty) w
             (fun result _ => metadata "tool_calls" result = Some (VInt 4))) /\
  (forall src ty w,
     returns (let! self := __init__ in review_paper self src ty) w
             (fun result _ => metadata "tool_calls" result = Some (VInt 4))).
Proof.
  split; [| split].
  - intros s a st w. eapply returns_mono; [apply node_spec |].
    intros st' _ [Hent _]. apply Hent.
  - intros. apply review_paper_counts.
  - intros src ty w. apply returns_bind. unfold __init__.
    repeat (apply returns_bind; eexists _, _; split; [reflexivity |]).
    apply returns_ret, review_paper_counts.
Qed.

(** C7: the error list only grows at its end.  A node returns the list it
    was given followed by what it recorded; a step of the workflow leaves in
    the channel the list it held followed by what the node returned; and the
    list of the final state starts with the list of the input. *)
Theorem errors_append_only :
  (forall s a st w,
     returns (node s a st) w
             (fun st' _ => exists extra, errors st' = (errors st ++ extra)%list)) /\
  (forall reader critic meta cite tid s ch w,
     returns (step (_build_workflow reader critic meta cite) tid (node_name s) ch) w
             (fun next _ =>
                (exists extra, errors (snd next) = (errors ch ++ extra)%list) /\
                length (errors ch) <= length (errors (snd next)))) /\
  (forall reader critic meta cite input tid w,
     returns (invoke (app (assemble reader critic meta cite)) input tid) w
             (fun final _ =>
                exists extra, errors final = (errors input ++ extra)%list)).
Proof.
  split; [| split].
  - intros s a st w. eapply returns_mono; [apply node_spec |].
    intros st' _ [Hent _]. apply Hent.
  - intros reader critic meta cite tid s ch w.
    eapply (returns_step _ tid (node_name s)
                         (node s (agent_of reader critic meta cite s))
                         (default END (find_key (node_name s)
                            (edges (_build_workflow reader critic meta cite)))));
      [destruct s; reflexivity | destruct s; reflexivity |].
    eapply returns_mono; [apply node_spec |].
    intros u _ [Hent _] _ _. simpl.
    split; [eexists; reflexivity |]. rewrite length_app. lia.
  - intros reader critic meta cite input tid w.
    eapply returns_mono; [apply invoke_pipeline |].
    intros final _
      [(w1 & w2 & w3 & w4 & u1 & u2 & u3 & u4 & _ & _ & _ & _ & ->) _].
    simpl. rewrite <- !app_assoc. eexists. reflexivity.
Qed.

(** C8 (as amended): [review_paper] always returns a result.  When the
    workflow returns a final state, the metadata of the result holds the
    error list of that state; when the workflow raises, the result holds the
    description of the exception at top level and its metadata is marked
    failed, with no error list. *)
Theorem result_follows_workflow_outcome (self : orchestrator) (src ty : string)
    (w : World) :
  returns (review_paper self src ty) w
    (fun result _ =>
       match invoke (app self)
                    (initial_state src ty (entropy w (drawn w))
                                   (wall_clock w (readings w)))
                    (uuid_str (entropy w (drawn w))) (started w) with
       | (Ret final, _) =>
           metadata "errors" result = Some (VList (map VStr (errors final)))
       | (Raise e, _) =>
           field "error" result = Some (VStr (str_exn e)) /\
           metadata "failed" result = Some (VBool true) /\
           metadata "errors" result = None
       end).
Proof.
  unfold returns, review_paper, try_except, bind, uuid4, now, pure_op, ret,
    initial_state, started.
  simpl.
  match goal with
  | |- context [invoke ?a ?i ?t ?w0] =>
      destruct (invoke a i t w0) as [[final | e] w'] eqn:Hrun
  end; simpl.
  - eexists _, _. split; [reflexivity |]. reflexivity.
  - eexists _, _. split; [reflexivity |]. repeat split; reflexivity.
Qed.

End Coordinator.

(** C8 fails as worded: when the workflow raises, the metadata of the
    result has no error list. *)
Lemma failed_run_has_no_error_list : ~ always_lists_errors.
Proof.
  intros Hc.
  destruct (Hc Sample.broken "paperA" "pdf" Sample.world)
    as (result & w' & Hrun & l & Herrs).
  vm_compute in Hrun. injection Hrun as <- _. discriminate Herrs.
Qed.

(** ** Failure policy *)

Section FailurePolicy.
Context `{Python}.




End FailurePolicy.





(** ** Checkpoints *)

(** C9: loading an identifier after a save gives back the state that was
    saved, whatever was stored for it before; the save replaces the prior
    snapshot and leaves the other identifiers alone.  This is the store the
    coordinator's checkpoint writes to: after a run, loading the session's
    identifier gives the final state that the result reports. *)
Theorem checkpoint_round_trip (run_id : string) (state prior : ReviewState)
    (m : MemorySaver.store) :
  MemorySaver.load run_id (MemorySaver.save run_id state m) = Some state /\
  MemorySaver.save run_id state (MemorySaver.save run_id prior m)
  = MemorySaver.save run_id state m /\
  (forall other, other <> run_id ->
     MemorySaver.load other (MemorySaver.save run_id state m)
     = MemorySaver.load other m) /\
  (forall w, returns (checkpoint run_id state) w
               (fun _ w' => MemorySaver.load run_id (memory w') = Some state)) /\
  (forall `{Python} reader critic meta cite src ty w,
     returns (review_paper (assemble reader critic meta cite) src ty) w
             (fun result w' =>
                exists final,
                  reports result final /\
                  MemorySaver.load (session_id final) (memory w') = Some final)).
Proof.
  unfold MemorySaver.load, MemorySaver.save, MemorySaver.store.
  split; [apply lookup_insert_eq |].
  split; [apply insert_insert_eq |].
  split; [| split].
  - intros other Hne. apply lookup_insert_ne. congruence.
  - intros w. unfold checkpoint. apply returns_modify. simpl.
    unfold MemorySaver.save. apply lookup_insert_eq.
  - intros py reader critic meta cite src ty w.
    eapply returns_mono; [apply review_paper_returns |].
    intros result w' (final & _ & Hrep & Hsaved). exists final. split; assumption.
Qed.

(** ** Bounds of the extraction stage *)

Lemma length_prefix_slice (n : nat) (s : string) :
  String.length (PyStr.prefix_slice n s) <= n.
Proof.
  unfold PyStr.prefix_slice. revert s.
  induction n as [| n IH]; intros [| c s]; simpl; try lia.
  specialize (IH s). lia.
Qed.

(** C10: for every text and every regular-expression engine, the extraction
    stage returns at most 10 authors, at most 15 sections, each with a
    content of at most 1000 characters, and at most 50 references. *)
Theorem extraction_outputs_are_bounded `{Re} (text : string) :
  length (ReaderAgent._extract_authors text) <= 10 /\
  length (ReaderAgent._extract_sections text) <= 15 /\
  Forall (fun section =>
            exists content,
              field "content" section = Some (VStr content) /\
              String.length content <= 1000)
         (ReaderAgent._extract_sections text) /\
  length (ReaderAgent._extract_references text) <= 50.
Proof.
  unfold ReaderAgent._extract_authors, ReaderAgent._extract_sections,
    ReaderAgent._extract_references.
  rewrite !length_take. repeat split; try lia.
  apply Forall_take, Forall_concat, Forall_map, Forall_forall.
  intros pattern _. apply Forall_map, Forall_forall. intros m _.
  eexists. split; [reflexivity |]. apply length_prefix_slice.
Qed.

(** ** Two runs *)

(** All four stages succeed: no error, four invocations. *)
Example run_all_succeed :
  exists result,
    Sample.run_with (Sample.scripted (fun d => Response (Sample.citations d)))
    = Ret result /\
    metadata "errors" result = Some (VList []) /\
    metadata "tool_calls" result = Some (VInt 4) /\
    field "citation_data" result = Some (Sample.citations VNone).
Proof. eexists. split; [vm_compute; reflexivity |]. repeat split; reflexivity. Qed.

(** The citation agent raises: the citation output is empty, the synthesis
    is there, and the error is in the list; the write of the last node adds
    the list it returns to the list the channel holds, so the entry is there
    twice. *)
Example run_citation_down :
  exists result,
    Sample.run_with Sample.crashing = Ret result /\
    field "citation_data" result = Some (VDict []) /\
    metadata "tool_calls" result = Some (VInt 4) /\
    metadata "errors" result
    = Some (VList [VStr "Citation analysis failed: agent down";
                   VStr "Citation analysis failed: agent down"]) /\
    exists review, field "final_review" result = Some (VDict review)
                   /\ review <> [].
Proof.
  eexists. split; [vm_compute; reflexivity |].
  repeat split; try reflexivity. eexists. split; [reflexivity | discriminate].
Qed.

(** * Further properties *)

(** ** The HTTP endpoint *)

Section Endpoint.
Context `{Python} `{Re} `{Services}.

#[local] Arguments ReaderAgent.extract_paper : simpl never.
#[local] Arguments CriticAgent.analyze_paper : simpl never.
#[local] Arguments CiteAgent.analyze_citations : simpl never.
#[local] Arguments MetaReviewerAgent.generate_review : simpl never.

Ltac split_cases H :=
  repeat (simpl in H;
          match type of H with
          | context [match ?x with _ => _ end] =>
              lazymatch x with
              | context [match _ with _ => _ end] => fail
              | _ => destruct x eqn:?
              end
          end).

(** Whatever the message, an adapter that returns gives a response or an
    error. *)
Lemma adapter_kinds (s : stage_id) (self : agent_self) (msg : value)
    (w w' : World) (env : value) :
  adapter s self msg w = (Ret env, w') ->
  env_kind env = Some (VStr "response") \/ env_kind env = Some (VStr "error").
Proof.
  intros Hrun.
  destruct s;
    unfold adapter, ReaderAgent.process_message, CriticAgent.process_message,
      CiteAgent.process_message, MetaReviewerAgent.process_message,
      bind, pure_op, try_except, ret, uuid4, now in Hrun;
    split_cases Hrun; try discriminate;
    injection Hrun as <- _; auto.
Qed.

(** X1: the HTTP endpoint of a server that wraps any of the four agents
    answers every message, well formed or not, with an envelope of kind
    response or error: what the agent returns is passed on, and an exception
    of the agent becomes an error message with its description. *)
Theorem endpoint_always_answers (s : stage_id) (self : agent_self) (msg : value)
    (w : World) :
  returns (BaseMCPServer.process (BaseMCPServer.serving s self) msg) w
    (fun env _ =>
       (env_kind env = Some (VStr "response") \/
        env_kind env = Some (VStr "error")) /\
       match adapter s self msg w with
       | (Ret r, _) => env = r
       | (Raise e, _) => error_with env (VStr (str_exn e))
       end).
Proof.
  unfold returns, BaseMCPServer.process, BaseMCPServer.serving, try_except.
  simpl.
  destruct (adapter s self msg w) as [[r | e] w1] eqn:Hrun.
  - eexists _, _. split; [reflexivity |]. split; [| reflexivity].
    eapply adapter_kinds, Hrun.
  - eexists _, _. split; [reflexivity |]. split; [right; reflexivity |].
    split; reflexivity.
Qed.

End Endpoint.

(** ** Envelopes *)

Section Envelopes.
Context `{Python} `{Re} `{Services}.

#[local] Arguments ReaderAgent.extract_paper : simpl never.
#[local] Arguments ReaderAgent._extract_from_pdf : simpl never.
#[local] Arguments ReaderAgent._download_arxiv_paper : simpl never.
#[local] Arguments CriticAgent.analyze_paper : simpl never.
#[local] Arguments CiteAgent.analyze_citations : simpl never.
#[local] Arguments MetaReviewerAgent.generate_review : simpl never.

Ltac envelope_run :=
  unfold returns, adapter, ReaderAgent.process_message, CriticAgent.process_message,
    CiteAgent.process_message, MetaReviewerAgent.process_message,
    MCPMessage.create_request, MCPMessage.create_response, MCPMessage.create_error,
    bind, pure_op, try_except, ret, uuid4, now; simpl.

(** X2: a response or an error built for a request that [create_request]
    built is addressed to the sender of the request, carries its action and
    its context (the empty one when the request was given none), and is
    stamped with the identifier drawn after the request's. *)
Theorem reply_answers_request (sender receiver action data context : value)
    (replier body : value) (w : World) :
  let context' := if truthy context then context else VDict [] in
  let answers (k : string) (payload_key : string) (reply : value) :=
    env_kind reply = Some (VStr k) /\
    field "sender" reply = Some replier /\
    field "receiver" reply = Some sender /\
    env_payload "action" reply = Some action /\
    env_payload payload_key reply = Some body /\
    field "context" reply = Some context' /\
    field "message_id" reply = Some (VStr (uuid_str (entropy w (S (drawn w))))) in
  returns (let! req := MCPMessage.create_request sender receiver action data context in
           MCPMessage.create_response req replier body) w
          (fun reply _ => answers "response" "data" reply) /\
  returns (let! req := MCPMessage.create_request sender receiver action data context in
           MCPMessage.create_error req replier body) w
          (fun reply _ => answers "error" "error" reply).
Proof.
  cbv zeta. envelope_run.
  split; eexists _, _; (split; [reflexivity |]); repeat split; reflexivity.
Qed.

(** X3: the response and error factories raise exactly when the action of
    the original message cannot be read, that is when the original or its
    payload is not a mapping, and then with that [AttributeError];
    otherwise they return. *)
Theorem factories_need_a_mapping (original sender body : value) (w : World) :
  match message_action original with
  | Raise e =>
      fst (MCPMessage.create_response original sender body w) = Raise e /\
      fst (MCPMessage.create_error original sender body w) = Raise e /\
      exists v, e = no_attribute v "get" /\ is_dict v = false
  | Ret _ =>
      (exists reply w', MCPMessage.create_response original sender body w
                        = (Ret reply, w')) /\
      (exists reply w', MCPMessage.create_error original sender body w
                        = (Ret reply, w'))
  end.
Proof.
  unfold message_action. envelope_run.
  destruct original; simpl; try (repeat split; try reflexivity; eexists;
                                 split; reflexivity).
  destruct (default (VDict []) (find_key "payload" d)) eqn:Hp; simpl;
    try (repeat split; try reflexivity; eexists; split; reflexivity).
  split; eexists _, _; reflexivity.
Qed.

Lemma adapter_factory_form (s : stage_id) (self : agent_self)
    (msg : value) (w : World) :
  well_formed msg = true ->
  message_action msg = Ret (VStr (declared_action s)) ->
  adapter s self msg w
  = match stage_logic s (message_data msg) w with
    | (Ret r, w1) => MCPMessage.create_response msg (VStr (name self)) r w1
    | (Raise e, w1) =>
        MCPMessage.create_error msg (VStr (name self)) (VStr (str_exn e)) w1
    end.
Proof.
  intros Hwf Ha. unfold well_formed in Hwf.
  destruct msg as [| | | | | | d]; try discriminate.
  unfold message_data, env_payload, message_action in *. simpl in *.
  destruct (find_key "payload" d) as [pl |] eqn:Hp; simpl in *;
    [| destruct s; discriminate].
  destruct pl as [| | | | | | p]; try discriminate. simpl in *.
  destruct (default (VDict []) (find_key "data" p)) as [| | | | | | dat] eqn:Hd;
    try discriminate.
  injection Ha as Ha.
  destruct s; envelope_run; rewrite Hp; simpl; rewrite Hd, Ha; simpl;
    match goal with
    | |- context [match ?c with _ => _ end] =>
        lazymatch c with
        | context [match _ with _ => _ end] => fail
        | _ => destruct c as [[r | e] w1]
        end
    end; reflexivity.
Qed.

(** X4: on a well-formed message for the action it declares, an adapter
    returns exactly the envelope the factories build for that message under
    the adapter's name: [create_response] with the result of its stage, or
    [create_error] with the description of the exception its stage raised. *)
Theorem adapter_replies_as_factories (s : stage_id) (self : agent_self)
    (msg : value) (w : World) :
  well_formed msg = true ->
  message_action msg = Ret (VStr (declared_action s)) ->
  adapter s self msg w
  = match stage_logic s (message_data msg) w with
    | (Ret r, w1) => MCPMessage.create_response msg (VStr (name self)) r w1
    | (Raise e, w1) =>
        MCPMessage.create_error msg (VStr (name self)) (VStr (str_exn e)) w1
    end.
Proof. exact (adapter_factory_form s self msg w). Qed.

(** X5: asked to extract from a source type other than ["pdf"] and
    ["arxiv_id"], the reader's adapter answers with an error envelope that
    says [Unsupported source type] and names the type; no document is
    opened and nothing is fetched: the world changes by the one identifier
    and the one clock reading of the envelope. *)
Theorem unsupported_source_type_is_reported (self : agent_self) (msg kind : value)
    (w : World) :
  well_formed msg = true ->
  message_action msg = Ret (VStr "extract_paper") ->
  field "source_type" (message_data msg) = Some kind ->
  kind <> VStr "pdf" -> kind <> VStr "arxiv_id" ->
  returns (ReaderAgent.process_message self msg) w
    (fun env w' =>
       error_with env (VStr ("Unsupported source type: " +:+ py_str kind)) /\
       env_payload "action" env = Some (VStr "extract_paper") /\
       w' = {| entropy := entropy w; drawn := S (drawn w);
               wall_clock := wall_clock w; readings := S (readings w);
               memory := memory w |}).
Proof.
  intros Hwf Ha Hk Hpdf Harxiv.
  pose proof (adapter_factory_form Extraction self msg w Hwf Ha) as Hrun.
  simpl in Hrun. unfold returns. rewrite Hrun. clear Hrun.
  unfold ReaderAgent.extract_paper. rewrite Hk. simpl.
  apply eq_str_false in Hpdf, Harxiv. rewrite Hpdf, Harxiv.
  unfold raise.
  destruct msg as [| | | | | | d]; try discriminate.
  unfold message_action in Ha. simpl in Ha.
  destruct (default (VDict []) (find_key "payload" d)) eqn:Hp; try discriminate.
  envelope_run. rewrite Hp. simpl in *. injection Ha as Ha. rewrite Ha.
  eexists _, _. split; [reflexivity |]. repeat split; reflexivity.
Qed.

End Envelopes.

Lemma adapter_replies_as_factories_witness :
  @adapter Sample.python Sample.regex Sample.services Citation Sample.self
           (Sample.envelope "request" "analyze_citations") Sample.world
  = match @stage_logic Sample.python Sample.regex Sample.services Citation
            (message_data (Sample.envelope "request" "analyze_citations"))
            Sample.world with
    | (Ret r, w1) =>
        MCPMessage.create_response (Sample.envelope "request" "analyze_citations")
                                   (VStr (name Sample.self)) r w1
    | (Raise e, w1) =>
        MCPMessage.create_error (Sample.envelope "request" "analyze_citations")
                                (VStr (name Sample.self)) (VStr (str_exn e)) w1
    end.
Proof.
  apply (@adapter_replies_as_factories Sample.python Sample.regex Sample.services);
    reflexivity.
Defined.

Lemma unsupported_source_type_is_reported_witness :
  returns (@ReaderAgent.process_message Sample.python Sample.regex Sample.services
             Sample.self Cases.web_request)
          Sample.world
    (fun env w' =>
       error_with env (VStr ("Unsupported source type: "
                             +:+ @py_str Sample.python (VStr "url"))) /\
       env_payload "action" env = Some (VStr "extract_paper") /\
       w' = {| entropy := entropy Sample.world; drawn := S (drawn Sample.world);
               wall_clock := wall_clock Sample.world;
               readings := S (readings Sample.world);
               memory := memory Sample.world |}).
Proof.
  apply (@unsupported_source_type_is_reported Sample.python Sample.regex
           Sample.services Sample.self Cases.web_request (VStr "url"));
    try reflexivity; discriminate.
Defined.

(** ** The extraction stage *)

Section Extraction.
Context `{Python} `{Re} `{Services}.

Lemma extract_from_pdf_shape (path : value) (w w' : World) (d : value) :
  ReaderAgent._extract_from_pdf path w = (Ret d, w') -> paper_shape d.
Proof.
  unfold ReaderAgent._extract_from_pdf, ReaderAgent._generate_paper_id,
    bind, ret, uuid4, now.
  destruct (fitz_open path w) as [[doc | e] w1]; [| discriminate].
  simpl. intros [= <- _]. unfold paper_shape, list_field. simpl.
  split; [eexists; split; [reflexivity | apply prefix_append] |].
  split; [eexists; reflexivity |]. split; [eexists; reflexivity |].
  unfold ReaderAgent._extract_authors, ReaderAgent._extract_sections,
    ReaderAgent._extract_references.
  repeat split; eexists; (split; [reflexivity |]);
    rewrite ?length_map, length_take; lia.
Qed.

Lemma extract_paper_shape (source kind : value) (w w' : World) (d : value) :
  ReaderAgent.extract_paper source kind w = (Ret d, w') -> paper_shape d.
Proof.
  unfold ReaderAgent.extract_paper.
  destruct (eq_str kind "pdf"); [apply extract_from_pdf_shape |].
  destruct (eq_str kind "arxiv_id"); [| discriminate].
  unfold bind.
  destruct (ReaderAgent._download_arxiv_paper source w) as [[p | e] w1];
    [apply extract_from_pdf_shape | discriminate].
Qed.

(** X6: whatever the documents and the regular expressions give, the data
    of a response of the reader's adapter is a paper of bounded shape: an
    identifier that starts with [paper-], a title, an abstract, at most 10
    authors, 15 sections and 50 references. *)
Theorem reader_responses_are_bounded (self : agent_self) (msg : value) (w : World) :
  well_formed msg = true ->
  returns (ReaderAgent.process_message self msg) w
          (fun env _ => forall d, response_with env d -> paper_shape d).
Proof.
  intros Hwf.
  eapply returns_mono; [apply (adapter_envelope Extraction self msg w Hwf) |].
  intros env _ (action & _ & Henv) d [Hkind Hdata].
  destruct (eq_str action (declared_action Extraction)).
  - destruct Henv as (Hlogic & _ & _).
    destruct (stage_logic Extraction (message_data msg) w) as [[r | e] w1] eqn:Hrun.
    + destruct Hlogic as [_ Hr]. rewrite Hdata in Hr. injection Hr as ->.
      eapply extract_paper_shape, Hrun.
    + destruct Hlogic as [Hk _]. rewrite Hkind in Hk. discriminate.
  - subst env. discriminate.
Qed.

End Extraction.

Lemma reader_responses_are_bounded_witness :
  returns (@ReaderAgent.process_message Sample.python Sample.regex Sample.services
             Sample.self Cases.file_request)
          Sample.world
          (fun env _ => forall d, response_with env d -> paper_shape d).
Proof.
  apply (@reader_responses_are_bounded Sample.python Sample.regex Sample.services).
  reflexivity.
Defined.

Section ExtractionText.
Context `{Re}.

Lemma split_go_nonempty (sep s : string) (skip : nat) (cur : string) :
  PyStr.split_go sep s skip cur <> [].
Proof.
  revert skip cur. induction s as [| c s IH]; intros skip cur; simpl.
  - intros Heq. discriminate Heq.
  - destruct skip; [| apply IH].
    match goal with
    | |- (if ?b then _ else _) <> _ => destruct b
    end; [intros Heq; discriminate Heq | apply IH].
Qed.

Lemma title_scan_found (lines : list string) (i : nat) (front : list string)
    (t : string) :
  ReaderAgent.title_scan lines i front = Some t ->
  exists j line,
    front !! j = Some line /\ t = PyStr.strip line /\
    20 < String.length t < 200.
Proof.
  revert i. induction front as [| line rest IH]; intros i; simpl; [discriminate |].
  match goal with
  | |- (if ?c then _ else _) = _ -> _ => destruct c eqn:Hc
  end.
  - intros [= <-]. exists 0, line.
    apply andb_true_iff in Hc. destruct Hc as [Hc _].
    apply andb_true_iff in Hc. destruct Hc as [Hlo Hhi].
    apply Nat.ltb_lt in Hlo, Hhi. repeat split; auto.
  - intros Hrest. destruct (IH _ Hrest) as (j & l & Hj & Ht & Hlen).
    exists (S j), l. auto.
Qed.

(** X7: the title is always one of the first ten lines of the text,
    stripped: a line of 21 to 199 characters that the scan accepted, or else
    the first line.  The ["Unknown Title"] default is never taken, since
    splitting a text gives at least one line. *)
Theorem title_is_a_leading_line (text : string) :
  exists i line,
    i < 10 /\
    PyStr.split PyStr.nl text !! i = Some line /\
    ReaderAgent._extract_title text = PyStr.strip line /\
    (i = 0 \/ 20 < String.length (ReaderAgent._extract_title text) < 200).
Proof.
  unfold ReaderAgent._extract_title.
  destruct (ReaderAgent.title_scan (PyStr.split PyStr.nl text) 0
              (take 10 (PyStr.split PyStr.nl text))) as [t |] eqn:Hscan.
  - destruct (title_scan_found _ _ _ _ Hscan) as (j & line & Hj & Ht & Hlen).
    apply lookup_take_Some in Hj. destruct Hj as [Hj Hlt].
    exists j, line. auto.
  - destruct (PyStr.split PyStr.nl text) as [| l0 rest] eqn:Hlines.
    + exfalso. eapply split_go_nonempty. exact Hlines.
    + exists 0, l0. repeat split; auto. lia.
Qed.

(** X8: no empty author and no short reference comes out of the extraction:
    every author returned is a non-empty string and every reference returned
    has more than 20 characters. *)
Theorem extracted_entries_are_substantial (text : string) :
  Forall (fun author => author <> "") (ReaderAgent._extract_authors text) /\
  Forall (fun ref => 20 < String.length ref) (ReaderAgent._extract_references text).
Proof.
  unfold ReaderAgent._extract_authors, ReaderAgent._extract_references. split.
  - apply Forall_take, Forall_concat, Forall_map, Forall_forall. intros line _.
    destruct (re_match _ _); [| constructor].
    apply Forall_map, Forall_forall. intros a Ha.
    apply list_elem_of_In, filter_In in Ha. destruct Ha as [_ Ha].
    unfold ReaderAgent.nonempty in Ha. intros Heq. rewrite Heq in Ha. discriminate.
  - apply Forall_take. destruct (re_search _ _ _); [| constructor].
    apply Forall_map, Forall_forall. intros r Hr.
    apply list_elem_of_In, filter_In in Hr. destruct Hr as [_ Hr].
    apply Nat.ltb_lt in Hr. exact Hr.
Qed.

Lemma length_append (a b : string) :
  String.length (a +:+ b) = String.length a + String.length b.
Proof. induction a as [| c a IH]; simpl; [reflexivity | by rewrite IH]. Qed.

(** X9: a paper identifier is [paper-], at most 20 characters of the cleaned
    title, a dash and at most 8 digits of a fresh identifier: it starts with
    [paper-], is at most 35 characters long, and making it draws exactly one
    identifier. *)
Theorem paper_id_is_short (title : string) (w : World) :
  returns (ReaderAgent._generate_paper_id title) w
    (fun id w' =>
       String.prefix "paper-" id = true /\
       String.length id <= 35 /\
       drawn w' = S (drawn w) /\ readings w' = readings w).
Proof.
  unfold returns, ReaderAgent._generate_paper_id, bind, ret, uuid4. simpl.
  eexists _, _. split; [reflexivity |].
  split; [apply prefix_append |]. split; [| split; reflexivity].
  rewrite !length_append. simpl.
  pose proof (length_prefix_slice 20
                (re_sub "[^a-zA-Z0-9]" "" (PyStr.lower title))).
  pose proof (length_prefix_slice 8 (entropy w (drawn w))). lia.
Qed.

End ExtractionText.

(** ** Runs of the workflow *)

Section Runs.
Context `{Python}.

Lemma returns_both {S A} (m : ST S A) (s : S) (P Q : A -> S -> Prop) :
  returns m s P -> returns m s Q -> returns m s (fun a s' => P a s' /\ Q a s').
Proof.
  intros (a & s' & Hm & HP) (a' & s'' & Hm' & HQ).
  rewrite Hm in Hm'. injection Hm' as <- <-. exists a, s'. auto.
Qed.


Ltac record_cases :=
  repeat match goal with
  | |- context [subscript ?v ?k] => destruct (subscript v k) eqn:?; simpl
  | |- context [dict_get ?v ?k ?d] => destruct (dict_get v k d) eqn:?; simpl
  | |- context [py_len ?v] => destruct (py_len v) eqn:?; simpl
  | |- context [format_fixed ?v] => destruct (format_fixed v) eqn:?; simpl
  | |- context [if eq_str ?a ?s then _ else _] => destruct (eq_str a s) eqn:?; simpl
  end.

Ltac record_clash :=
  repeat match goal with
  | H : response_with _ _ |- _ =>
      apply response_with_reads in H; destruct H as (? & ? & ? & ?)
  end;
  repeat match goal with
  | H1 : ?t = Ret _, H2 : ?t = _ |- _ =>
      rewrite H1 in H2; first [discriminate H2 | injection H2 as ?; subst]
  end;
  simpl in *; try discriminate; try congruence.

Lemma node_records (s : stage_id) (a : Agent) (st : ReviewState) (w : World) :
  returns (node s a st) w (fun st' _ => Run.node_record s a st w st').
Proof.
  destruct s; unfold node;
    [unfold extract_paper | unfold analyze_paper
     | unfold find_citations | unfold generate_review];
    unfold returns, Run.node_record, returning_state, try_except, bind, on_world,
      now, uuid4, read, assign, append_error, gets, modify, pure_op, ret;
    simpl; unfold request_of, call_world; simpl;
    match goal with
    | |- context [process_message a ?m ?w1] =>
        destruct (process_message a m w1) as [[env | e] w'] eqn:Hcall
    end; simpl.
  all: record_cases; (do 2 eexists; split; [reflexivity |]); simpl.
  all: split;
    [ first [ exists []; rewrite app_nil_r; split; [reflexivity | simpl; lia]
            | eexists [_]; split; [reflexivity | simpl; lia] ]
    | try exact I ].
  all: intros d Hd Hp; record_clash.
  all: try (split; reflexivity).
  all: exfalso; destruct d; simpl in *; try discriminate.
  all: repeat match goal with
              | Heq : Ret _ = Ret _ |- _ => injection Heq as ?; subst
              end.
  all: try discriminate.
  all: match goal with
       | Hp : _ (default ?x ?o) = true |- _ =>
           destruct (default x o); simpl in *; discriminate
       end.
Qed.

Section Chains.
Variable P : stage_id -> Agent -> ReviewState -> World -> ReviewState -> Prop.
Hypothesis node_P :
  forall s a st w, returns (node s a st) w (fun st' _ => P s a st w st').

Lemma invoke_chain reader critic meta cite input tid w :
  returns (invoke (app (assemble reader critic meta cite)) input tid) w
          (fun final _ => Run.chain P reader critic meta cite input final).
Proof.
  unfold invoke. cbn -[run apply_writes].
  apply returns_bind. unfold checkpoint. apply returns_modify.
  match goal with |- context [run ?g0 _ _ _ _] => set (g := g0) end.
  rewrite run_step by reflexivity. apply returns_bind.
  eapply (returns_step g tid "extract" _ "analyze"); [reflexivity | reflexivity |].
  eapply returns_mono; [apply (node_P Extraction) |].
  intros u1 w1 H1 w1' _. simpl fst. simpl snd.
  rewrite run_step by reflexivity. apply returns_bind.
  eapply (returns_step g tid "analyze" _ "find_citations");
    [reflexivity | reflexivity |].
  eapply returns_mono; [apply (node_P Critique) |].
  intros u2 w2 H2 w2' _. simpl fst. simpl snd.
  rewrite run_step by reflexivity. apply returns_bind.
  eapply (returns_step g tid "find_citations" _ "generate_review");
    [reflexivity | reflexivity |].
  eapply returns_mono; [apply (node_P Citation) |].
  intros u3 w3 H3 w3' _. simpl fst. simpl snd.
  rewrite run_step by reflexivity. apply returns_bind.
  eapply (returns_step g tid "generate_review" _ END); [reflexivity | reflexivity |].
  eapply returns_mono; [apply (node_P Synthesis) |].
  intros u4 w4 H4 w4' _. simpl fst. simpl snd.
  apply returns_ret.
  unfold Run.chain. do 4 eexists. exists u1, u2, u3, u4. cbv zeta.
  split; [exact H1 |]. split; [exact H2 |]. split; [exact H3 |].
  split; [exact H4 | reflexivity].
Qed.

Lemma review_paper_chain reader critic meta cite src ty w :
  returns (review_paper (assemble reader critic meta cite) src ty) w
    (fun result _ =>
       exists final,
         Run.chain P reader critic meta cite
                   (initial_state src ty (entropy w (drawn w))
                                  (wall_clock w (readings w))) final /\
         field "paper_content" result = Some (paper_content final) /\
         field "critic_analysis" result = Some (critic_analysis final) /\
         field "citation_data" result = Some (citation_data final) /\
         field "final_review" result = Some (final_review final) /\
         metadata "tool_calls" result = Some (VInt (tool_calls final)) /\
         metadata "errors" result = Some (VList (map VStr (errors final)))).
Proof.
  unfold review_paper.
  apply returns_bind. eexists _, _. split; [reflexivity |].
  apply returns_bind. eexists _, _. split; [reflexivity |].
  apply returns_try. apply returns_bind.
  eapply returns_mono; [apply invoke_chain |].
  intros final w' Hrun. simpl in Hrun.
  apply returns_bind. eexists _, _. split; [reflexivity |].
  eexists _, _. split; [reflexivity |].
  exists final. split; [exact Hrun |]. repeat split; reflexivity.
Qed.

End Chains.

Lemma node_spec_and_record (s : stage_id) (a : Agent) (st : ReviewState)
    (w : World) :
  returns (node s a st) w
          (fun st' _ => node_post s a st w st' /\ Run.node_record s a st w st').
Proof. apply returns_both; [apply node_spec | apply node_records]. Qed.

(** X10: the error list of every result is the accumulation of what the
    four stages recorded, each at most one message: the write of a node adds
    the whole list the node returns to the list the channel holds, so a
    message recorded by the first, second, third or fourth stage is counted
    8, 4, 2 or 1 times in the length of the list. *)
Theorem errors_accumulate_by_doubling (reader critic meta cite : Agent)
    (src ty : string) (w : World) :
  returns (review_paper (assemble reader critic meta cite) src ty) w
    (fun result _ =>
       exists e1 e2 e3 e4,
         length e1 <= 1 /\ length e2 <= 1 /\ length e3 <= 1 /\ length e4 <= 1 /\
         metadata "errors" result
         = Some (VList (map VStr (Run.accumulated e1 e2 e3 e4))) /\
         length (Run.accumulated e1 e2 e3 e4)
         = 8 * length e1 + 4 * length e2 + 2 * length e3 + length e4).
Proof.
  eapply returns_mono; [apply (review_paper_chain _ node_records) |].
  intros result _ (final & Hrun & _ & _ & _ & _ & _ & Herrs).
  destruct Hrun as (w1 & w2 & w3 & w4 & u1 & u2 & u3 & u4
                    & [(e1 & E1 & L1) _] & [(e2 & E2 & L2) _]
                    & [(e3 & E3 & L3) _] & [(e4 & E4 & L4) _] & ->).
  exists e1, e2, e3, e4. repeat (split; [assumption |]).
  simpl in *. split.
  - rewrite Herrs. do 2 f_equal. unfold Run.accumulated.
    rewrite E4, E3, E2, E1. simpl. rewrite <- !app_assoc. reflexivity.
  - unfold Run.accumulated. rewrite !length_app. lia.
Qed.



(** The adapter of a stage always accepts the request of the stage's node,
    and replies with what the stage returned or raised. *)
Lemma own_adapter_reply `{Re} `{Services} (s : stage_id) (self : agent_self)
    (st : ReviewState) (w : World) :
  exists env w1,
    process_message (as_agent (adapter s) self) (request_of s st w) (call_world w)
    = (Ret env, w1) /\
    match stage_logic s (VDict (request_data s st)) (call_world w) with
    | (Ret r, _) => response_with env r
    | (Raise e, _) => error_with env (VStr (str_exn e))
    end.
Proof.
  assert (Hwf : well_formed (request_of s st w) = true) by (destruct s; reflexivity).
  destruct (adapter_envelope s self _ (call_world w) Hwf)
    as (env & w1 & Hcall & action & Ha & Henv).
  assert (Hact : action = VStr (declared_action s)).
  { unfold message_action, request_of, request in Ha.
    destruct s; simpl in Ha; injection Ha as <-; reflexivity. }
  subst action.
  assert (Hs : eq_str (VStr (declared_action s)) (declared_action s) = true)
    by (apply eq_str_true; reflexivity).
  rewrite Hs in Henv. destruct Henv as (Hlogic & _ & _).
  replace (message_data (request_of s st w)) with (VDict (request_data s st))
    in Hlogic by (destruct s; reflexivity).
  exists env, w1. split; [exact Hcall | exact Hlogic].
Qed.

(** X12: a node that calls the adapter of its own stage always gets its
    request accepted: the stage runs on the data the node built, its result
    becomes the stage's output, and an exception it raises is recorded as
    one message made of the stage's agent label and the description of the
    exception, the output being left as it was (emptied for citations). *)
Theorem stage_failures_are_labelled `{Re} `{Services} (s : stage_id)
    (self : agent_self) (st : ReviewState) (w : World) :
  returns (node s (as_agent (adapter s) self) st) w
    (fun st' _ =>
       match stage_logic s (VDict (request_data s st)) (call_world w) with
       | (Ret r, _) =>
           output_of s st' = r \/ (s = Citation /\ output_of s st' = VDict [])
       | (Raise e, _) =>
           output_of s st' = failed_output s st /\
           errors st' = (errors st ++ [error_label s +:+ str_exn e])%list
       end).
Proof.
  eapply returns_mono; [apply node_spec |].
  intros st' _ [_ Hpost].
  destruct (own_adapter_reply s self st w) as (env & w1 & Hcall & Hlogic).
  rewrite Hcall in Hpost. destruct Hpost as [Hresp Herr].
  destruct (stage_logic s (VDict (request_data s st)) (call_world w))
    as [[r | e] w2].
  - apply Hresp, Hlogic.
  - apply (Herr _ Hlogic).
Qed.

End Runs.


(** ** The critic's scoring *)

Lemma obind_ret {A B} (m : outcome A) (k : A -> outcome B) (b : B) :
  obind m k = Ret b -> exists a, m = Ret a /\ k a = Ret b.
Proof. destruct m as [a | e]; simpl; [eauto | discriminate]. Qed.

Tactic Notation "returned_as" ident(x) :=
  let K := fresh "K" in
  intros K; apply obind_ret in K as (x & ? & K); revert K; cbn beta.

Section Critic.
Context `{Python} `{interpreter : PyMore.Summation}.
Import PyMore CriticScoring.

Lemma count_in_le (keywords : list string) (text : string) :
  count_in keywords text <= length keywords.
Proof. unfold count_in. apply filter_length_le. Qed.

Lemma novelty_table (paper : value) (s : float) :
  _assess_novelty paper = Ret s -> exists n, n <= 8 /\ s = Scores.novelty n.
Proof.
  unfold _assess_novelty.
  returned_as abstract. returned_as title. intros [= <-].
  eexists. split; [apply (count_in_le novelty_keywords) | reflexivity].
Qed.

Lemma methodology_table (paper : value) (s : float) :
  _assess_methodology paper = Ret s ->
  exists b n, n <= 7 /\ s = Scores.methodology b n.
Proof.
  unfold _assess_methodology.
  returned_as sections. returned_as items. returned_as has. returned_as text.
  intros [= <-]. exists has, (count_in methodology_indicators text).
  split; [apply count_in_le | reflexivity].
Qed.

Lemma clarity_table (paper : value) (s : float) :
  _assess_clarity paper = Ret s ->
  exists b1 b2 n, n <= 5 /\ s = Scores.clarity b1 b2 n.
Proof.
  unfold _assess_clarity.
  returned_as abstract. returned_as sections. returned_as words.
  returned_as n. returned_as headings. intros [= <-].
  exists (Nat.leb 100 words && Nat.leb words 300), (Nat.leb 4 n),
    (length (List.filter (fun std => existsb (contains std) headings)
                         standard_sections)).
  split; [apply (filter_length_le _ standard_sections) | reflexivity].
Qed.

Lemma reproducibility_table (paper : value) (s : float) :
  _assess_reproducibility paper = Ret s ->
  exists n m, n <= 8 /\ m <= 4 /\ s = Scores.reproducibility n m.
Proof.
  unfold _assess_reproducibility.
  returned_as sections. returned_as text. intros [= <-].
  exists (count_in reproducibility_keywords text), (count_in detail_keywords text).
  split; [apply count_in_le |]. split; [apply count_in_le | reflexivity].
Qed.

Lemma forallb_upto (P : nat -> bool) (k n : nat) :
  forallb P (seq 0 (S k)) = true -> n <= k -> P n = true.
Proof.
  intros Hall Hn. rewrite forallb_forall in Hall. apply Hall, in_seq. lia.
Qed.

Lemma forallb_both (P : bool -> bool) (b : bool) :
  forallb P [false; true] = true -> P b = true.
Proof.
  simpl. rewrite andb_true_r. intros [Hf Ht]%andb_true_iff. destruct b; assumption.
Qed.

Lemma every_combination (P : float -> float -> float -> float -> bool)
    (n1 n2 n3 n4 n5 : nat) (b b1 b2 : bool) :
  Scores.every P = true ->
  n1 <= 8 -> n2 <= 7 -> n3 <= 5 -> n4 <= 8 -> n5 <= 4 ->
  P (Scores.novelty n1) (Scores.methodology b n2) (Scores.clarity b1 b2 n3)
    (Scores.reproducibility n4 n5) = true.
Proof.
  unfold Scores.every. intros Hall H1 H2 H3 H4 H5.
  apply (forallb_upto _ 8 n1) in Hall; [| exact H1].
  apply (forallb_both _ b) in Hall.
  apply (forallb_upto _ 7 n2) in Hall; [| exact H2].
  apply (forallb_both _ b1) in Hall.
  apply (forallb_both _ b2) in Hall.
  apply (forallb_upto _ 5 n3) in Hall; [| exact H3].
  apply (forallb_upto _ 8 n4) in Hall; [| exact H4].
  apply (forallb_upto _ 4 n5) in Hall; [| exact H5].
  exact Hall.
Qed.

Lemma each_novelty_at (P : float -> bool) (n : nat) :
  Scores.each_novelty P = true -> n <= 8 -> P (Scores.novelty n) = true.
Proof.
  unfold Scores.each_novelty. intros Hall Hn.
  apply (forallb_upto _ 8 n) in Hall; assumption.
Qed.

Lemma each_methodology_at (P : float -> bool) (b : bool) (n : nat) :
  Scores.each_methodology P = true -> n <= 7 -> P (Scores.methodology b n) = true.
Proof.
  unfold Scores.each_methodology. intros Hall Hn.
  apply (forallb_both _ b) in Hall.
  apply (forallb_upto _ 7 n) in Hall; assumption.
Qed.

Lemma each_clarity_at (P : float -> bool) (b1 b2 : bool) (n : nat) :
  Scores.each_clarity P = true -> n <= 5 -> P (Scores.clarity b1 b2 n) = true.
Proof.
  unfold Scores.each_clarity. intros Hall Hn.
  apply (forallb_both _ b1) in Hall.
  apply (forallb_both _ b2) in Hall.
  apply (forallb_upto _ 5 n) in Hall; assumption.
Qed.

Lemma each_reproducibility_at (P : float -> bool) (n m : nat) :
  Scores.each_reproducibility P = true -> n <= 8 -> m <= 4 ->
  P (Scores.reproducibility n m) = true.
Proof.
  unfold Scores.each_reproducibility. intros Hall Hn Hm.
  apply (forallb_upto _ 8 n) in Hall; [| assumption].
  apply (forallb_upto _ 4 m) in Hall; assumption.
Qed.

(** What an analysis that returns is made of. *)
Lemma analysis_form (paper focus_areas r : value) :
  analyze_paper paper focus_areas = Ret r ->
  exists n1 b n2 b1 b2 n3 n4 n5 strengths weaknesses details metrics,
    (n1 <= 8 /\ n2 <= 7 /\ n3 <= 5 /\ n4 <= 8 /\ n5 <= 4) /\
    let novelty := Scores.novelty n1 in
    let methodology := Scores.methodology b n2 in
    let clarity := Scores.clarity b1 b2 n3 in
    let reproducibility := Scores.reproducibility n4 n5 in
    let scores :=
      [("novelty", novelty); ("methodology", methodology);
       ("clarity", clarity); ("reproducibility", reproducibility)] in
    _identify_strengths paper scores = Ret strengths /\
    _identify_weaknesses paper scores = Ret weaknesses /\
    r = VDict
          [("overall_score",
            VFloat_of (mean [novelty; methodology; clarity; reproducibility]));
           ("strengths", VList (map VStr strengths));
           ("weaknesses", VList (map VStr weaknesses));
           ("detailed_scores",
            VDict [("novelty", VFloat_of novelty);
                   ("methodology", VFloat_of methodology);
                   ("clarity", VFloat_of clarity);
                   ("reproducibility", VFloat_of reproducibility)]);
           ("recommendations",
            VList (map VStr (_generate_recommendations paper weaknesses)));
           ("methodology_analysis", details);
           ("clarity_metrics", metrics)].
Proof.
  unfold analyze_paper.
  intros (s1 & (n1 & L1 & ->)%novelty_table & K)%obind_ret.
  apply obind_ret in K as (s2 & (b & n2 & L2 & ->)%methodology_table & K).
  apply obind_ret in K as (s3 & (b1 & b2 & n3 & L3 & ->)%clarity_table & K).
  apply obind_ret in K
    as (s4 & (n4 & n5 & L4 & L5 & ->)%reproducibility_table & K).
  apply obind_ret in K as (strengths & Hs & K).
  apply obind_ret in K as (weaknesses & Hw & K).
  apply obind_ret in K as (details & _ & K).
  apply obind_ret in K as (metrics & _ & K).
  injection K as <-.
  exists n1, b, n2, b1, b2, n3, n4, n5, strengths, weaknesses, details, metrics.
  split; [auto |]. cbv zeta. split; [exact Hs |]. split; [exact Hw | reflexivity].
Qed.

Lemma above_the_floor (q : Q) :
  Qle_bool (19 # 4) q = true ->
  Qle_bool (9 # 2) q = true /\ truthy (VFloat q) = true.
Proof.
  unfold Qle_bool. simpl. rewrite !Z.leb_le. intros Hq.
  pose proof (Pos2Z.is_pos (Qden q)) as Hden. split; [lia |].
  destruct (Z.eqb_spec (Qnum q) 0) as [Hz | Hz]; [lia | reflexivity].
Qed.

Lemma analysis_presentable (paper focus_areas r : value) :
  analyze_paper paper focus_areas = Ret r -> Run.presentable Critique r = true.
Proof.
  intros (n1 & b & n2 & b1 & b2 & n3 & n4 & n5 & st & wk & de & me
          & _ & _ & _ & ->)%analysis_form.
  reflexivity.
Qed.

Lemma novelty_checked :
  Scores.each_novelty (fun a => Paper.in_range (5 # 1) (8 # 1) (VFloat_of a)) = true.
Proof. vm_compute. reflexivity. Qed.

Lemma methodology_checked :
  Scores.each_methodology (fun a => Paper.in_range (5 # 1) (9 # 1) (VFloat_of a))
  = true.
Proof. vm_compute. reflexivity. Qed.

Lemma clarity_checked :
  Scores.each_clarity (fun a => Paper.in_range (5 # 1) (10 # 1) (VFloat_of a))
  = true.
Proof. vm_compute. reflexivity. Qed.

Lemma reproducibility_checked :
  Scores.each_reproducibility
    (fun a => Paper.in_range (4 # 1) (46 # 5) (VFloat_of a)) = true.
Proof. vm_compute. reflexivity. Qed.

(** The mean of every combination, with either summation. *)
Lemma overall_checked :
  Scores.every
    (fun a b c d =>
       Paper.in_range (19 # 4) (91 # 10) (VFloat_of (mean [a; b; c; d])))
  = true.
Proof. destruct interpreter as [[|]]; vm_compute; reflexivity. Qed.

Lemma overall_in_range (n1 n2 n3 n4 n5 : nat) (b b1 b2 : bool) :
  n1 <= 8 -> n2 <= 7 -> n3 <= 5 -> n4 <= 8 -> n5 <= 4 ->
  Paper.in_range (19 # 4) (91 # 10)
    (VFloat_of (mean [Scores.novelty n1; Scores.methodology b n2;
                      Scores.clarity b1 b2 n3; Scores.reproducibility n4 n5]))
  = true.
Proof.
  intros L1 L2 L3 L4 L5.
  apply (every_combination _ n1 n2 n3 n4 n5 b b1 b2 overall_checked L1 L2 L3 L4 L5).
Qed.

(** X13: the scores of every analysis are within fixed bounds, whatever the
    paper says and whichever summation the interpreter has: novelty between
    5 and 8, methodology between 5 and 9, clarity between 5 and 10,
    reproducibility between 4 and 9.2, and their mean, the overall score,
    between 4.75 and 9.1. *)
Theorem scores_stay_in_range (paper focus_areas r : value) :
  analyze_paper paper focus_areas = Ret r ->
  exists novelty methodology clarity reproducibility overall,
    field "detailed_scores" r
    = Some (VDict [("novelty", novelty); ("methodology", methodology);
                   ("clarity", clarity); ("reproducibility", reproducibility)]) /\
    field "overall_score" r = Some overall /\
    Paper.in_range (5 # 1) (8 # 1) novelty = true /\
    Paper.in_range (5 # 1) (9 # 1) methodology = true /\
    Paper.in_range (5 # 1) (10 # 1) clarity = true /\
    Paper.in_range (4 # 1) (46 # 5) reproducibility = true /\
    Paper.in_range (19 # 4) (91 # 10) overall = true.
Proof.
  intros (n1 & b & n2 & b1 & b2 & n3 & n4 & n5 & st & wk & de & me
          & (L1 & L2 & L3 & L4 & L5) & _ & _ & ->)%analysis_form.
  eexists _, _, _, _, _. split; [reflexivity |]. split; [reflexivity |].
  split; [apply (each_novelty_at _ n1 novelty_checked L1) |].
  split; [apply (each_methodology_at _ b n2 methodology_checked L2) |].
  split; [apply (each_clarity_at _ b1 b2 n3 clarity_checked L3) |].
  split; [apply (each_reproducibility_at _ n4 n5 reproducibility_checked L4 L5) |].
  apply overall_in_range; assumption.
Qed.

(** *** Which papers the critic reads *)

Lemma map_m_total {A B} (f : A -> outcome B) (l : list A) :
  Forall (fun x => exists y, f x = Ret y) l -> exists ys, map_m f l = Ret ys.
Proof.
  induction 1 as [| x l [y Hy] _ [ys Hys]]; simpl; [eauto |].
  rewrite Hy. simpl. rewrite Hys. simpl. eauto.
Qed.

Lemma map_m_each {A B} (f : A -> outcome B) (l : list A) (ys : list B) :
  map_m f l = Ret ys -> Forall2 (fun x y => f x = Ret y) l ys.
Proof.
  revert ys. induction l as [| x l IH]; simpl; intros ys.
  - intros [= <-]. constructor.
  - intros (y & Hy & (ys' & Hys & [= <-])%obind_ret)%obind_ret.
    constructor; auto.
Qed.

Lemma any_m_total {A} (f : A -> outcome bool) (l : list A) :
  Forall (fun x => exists y, f x = Ret y) l -> exists b, any_m f l = Ret b.
Proof.
  induction 1 as [| x l [y Hy] _ [b Hb]]; simpl; [eauto |].
  rewrite Hy. simpl. destruct y; eauto.
Qed.

Lemma filter_m_total {A} (f : A -> outcome bool) (P : A -> Prop) (l : list A) :
  Forall (fun x => exists y, f x = Ret y) l -> Forall P l ->
  exists xs, filter_m f l = Ret xs /\ Forall P xs.
Proof.
  induction 1 as [| x l [y Hy] _ IH]; simpl; intros HP.
  - exists []. auto.
  - apply Forall_cons in HP as [Hx Hl]. destruct (IH Hl) as (xs & Hxs & Pxs).
    rewrite Hy. simpl. rewrite Hxs. simpl.
    destruct y; eexists; (split; [reflexivity |]); auto.
Qed.

Lemma join_from_total (sep : string) (items : list value) (i : nat) :
  forallb Paper.is_text items = true -> exists t, join_from sep i items = Ret t.
Proof.
  revert i. induction items as [| v items IH]; intros i; simpl; [eauto |].
  intros [Hv Hrest]%andb_true_iff. destruct v; try discriminate.
  destruct items as [| v' items']; [eauto |].
  destruct (IH (S i) Hrest) as [t Ht]. rewrite Ht. simpl. eauto.
Qed.

Lemma join_from_texts (sep : string) (items : list value) (i : nat) (t : string) :
  join_from sep i items = Ret t -> forallb Paper.is_text items = true.
Proof.
  revert i t. induction items as [| v items IH]; intros i t; [reflexivity |].
  simpl. destruct v; try discriminate.
  destruct items as [| v' items']; [reflexivity |].
  intros (tail & Htail & _)%obind_ret. simpl. apply (IH _ _ Htail).
Qed.

(** A section is readable exactly when its heading can be lowered and its
    content is a string. *)
Lemma section_ok_reads (s : value) :
  Paper.section_ok s = true <->
  (exists h, heading_lower s = Ret h) /\
  (exists c, dict_get s "content" (VStr "") = Ret c /\ Paper.is_text c = true).
Proof.
  unfold heading_lower. destruct s as [| | | | | | d]; simpl;
    try (split; [discriminate | intros [[h Hh] _]; discriminate]).
  rewrite andb_true_iff. split.
  - intros [Hh Hc]. split.
    + destruct (default (VStr "") (find_key "heading" d)); try discriminate.
      simpl. eauto.
    + eauto.
  - intros [[h Hh] (c & [= <-] & Hc)]. split; [| exact Hc].
    destruct (default (VStr "") (find_key "heading" d)); try discriminate.
    reflexivity.
Qed.

Lemma sized_len (v : value) :
  Run.sized v = true <-> exists n, py_len v = Ret n.
Proof.
  destruct v; simpl; split; try discriminate; eauto;
    intros [n Hn]; discriminate.
Qed.

Lemma sections_ok_items (sections : value) :
  Paper.sections_ok sections = true ->
  exists items, py_iter sections = Ret items /\
                Forall (fun s => Paper.section_ok s = true) items.
Proof.
  destruct sections as [| | | | s | l | d]; simpl; try discriminate.
  - destruct s; [| discriminate]. exists []. auto.
  - intros Hl. exists l. split; [reflexivity |]. apply Forall_forall.
    rewrite forallb_forall in Hl. intros x Hx. apply Hl, list_elem_of_In, Hx.
  - destruct d; [| discriminate]. exists []. auto.
Qed.

Lemma sections_ok_sized (sections : value) :
  Paper.sections_ok sections = true -> Run.sized sections = true.
Proof. destruct sections; simpl; auto. Qed.

Lemma items_headings (items : list value) :
  Forall (fun s => Paper.section_ok s = true) items ->
  Forall (fun s => exists h, heading_lower s = Ret h) items.
Proof.
  intros Hall. eapply Forall_impl; [exact Hall |].
  intros s Hs. apply section_ok_reads, Hs.
Qed.

Lemma items_contents (items : list value) :
  Forall (fun s => Paper.section_ok s = true) items ->
  exists cs, map_m (fun s => dict_get s "content" (VStr "")) items = Ret cs /\
             forallb Paper.is_text cs = true.
Proof.
  induction 1 as [| s items Hs _ (cs & Hcs & Htext)]; simpl; [eauto |].
  apply section_ok_reads in Hs as [_ (c & Hc & Hct)].
  rewrite Hc. simpl. rewrite Hcs. simpl. eexists. split; [reflexivity |].
  simpl. rewrite Hct. exact Htext.
Qed.

Lemma sections_ok_headings (sections : value) :
  Paper.sections_ok sections = true -> exists hs, section_headings sections = Ret hs.
Proof.
  intros (items & Hit & Hall)%sections_ok_items. unfold section_headings.
  rewrite Hit. simpl. apply map_m_total, items_headings, Hall.
Qed.

Lemma sections_ok_text (sections : value) :
  Paper.sections_ok sections = true -> exists t, all_text sections = Ret t.
Proof.
  intros (items & Hit & Hall)%sections_ok_items. unfold all_text.
  rewrite Hit. simpl. destruct (items_contents _ Hall) as (cs & Hcs & Htext).
  rewrite Hcs. simpl. destruct (join_from_total " " cs 0 Htext) as [t Ht].
  unfold join. rewrite Ht. simpl. eauto.
Qed.

Lemma items_read (items : list value) (hs : list string) (cs : list value) :
  map_m heading_lower items = Ret hs ->
  map_m (fun s => dict_get s "content" (VStr "")) items = Ret cs ->
  forallb Paper.is_text cs = true ->
  forallb Paper.section_ok items = true.
Proof.
  revert hs cs. induction items as [| s items IH]; intros hs cs; [reflexivity |].
  simpl.
  intros (h & Hh & (hs' & Hhs & _)%obind_ret)%obind_ret.
  intros (c & Hc & (cs' & Hcs & [= <-])%obind_ret)%obind_ret.
  simpl. intros [Hct Hrest]%andb_true_iff.
  rewrite (IH _ _ Hhs Hcs Hrest), andb_true_r.
  apply section_ok_reads. eauto.
Qed.

Lemma sections_read (sections : value) (hs : list string) (t : string) :
  section_headings sections = Ret hs -> all_text sections = Ret t ->
  Paper.sections_ok sections = true.
Proof.
  unfold section_headings, all_text.
  intros (items & Hit & Hhs)%obind_ret.
  rewrite Hit. simpl.
  intros (cs & Hcs & (joined & Hj & _)%obind_ret)%obind_ret.
  apply join_from_texts in Hj.
  pose proof (items_read _ _ _ Hhs Hcs Hj) as Hok.
  destruct sections as [| | | | s | l | d]; simpl in Hit; try discriminate;
    injection Hit as <-.
  - destruct s; [reflexivity | discriminate].
  - exact Hok.
  - destruct d; [reflexivity | discriminate].
Qed.

Lemma text_words (v : value) :
  Paper.is_text v = true <-> exists n, word_count v = Ret n.
Proof.
  destruct v; simpl; split; try discriminate; eauto; intros [n Hn]; discriminate.
Qed.

Section Accepted.
Variable d : list (string * value).
Let paper := VDict d.
Let abstract := default (VStr "") (find_key "abstract" d).
Let sections := default (VList []) (find_key "sections" d).
Let references := default (VList []) (find_key "references" d).
Hypothesis abstract_text : Paper.is_text abstract = true.
Hypothesis sections_ok : Paper.sections_ok sections = true.
Hypothesis references_sized : Run.sized references = true.

Lemma accepted_methodology : exists s, _assess_methodology paper = Ret s.
Proof.
  unfold _assess_methodology, paper. cbn [dict_get obind]. fold sections.
  destruct (sections_ok_items _ sections_ok) as (items & Hit & Hall).
  rewrite Hit. cbn [obind].
  destruct (any_m_total
              (fun s => let? h := heading_lower s in
                        Ret (contains "method" h || contains "approach" h
                             || contains "experiment" h)) items) as [b Hb].
  { eapply Forall_impl; [exact Hall |]. intros s [[h Hh] _]%section_ok_reads.
    rewrite Hh. simpl. eauto. }
  rewrite Hb. cbn [obind].
  destruct (sections_ok_text _ sections_ok) as [t Ht]. rewrite Ht. cbn [obind].
  eauto.
Qed.

Lemma accepted_clarity : exists s, _assess_clarity paper = Ret s.
Proof.
  unfold _assess_clarity, paper. cbn [dict_get obind]. fold abstract sections.
  destruct (proj1 (text_words _) abstract_text) as [n Hn]. rewrite Hn. cbn [obind].
  destruct (proj1 (sized_len _) (sections_ok_sized _ sections_ok)) as [k Hk].
  rewrite Hk. cbn [obind].
  destruct (sections_ok_headings _ sections_ok) as [hs Hhs]. rewrite Hhs.
  cbn [obind]. eauto.
Qed.

Lemma accepted_reproducibility : exists s, _assess_reproducibility paper = Ret s.
Proof.
  unfold _assess_reproducibility, paper. cbn [dict_get obind]. fold sections.
  destruct (sections_ok_text _ sections_ok) as [t Ht]. rewrite Ht. cbn [obind].
  eauto.
Qed.

Lemma accepted_strengths (scores : list (string * float)) :
  exists l, _identify_strengths paper scores = Ret l.
Proof.
  unfold _identify_strengths, count_of, paper. cbn [dict_get obind].
  fold abstract sections references.
  destruct (proj1 (sized_len _) references_sized) as [r Hr]. rewrite Hr. cbn [obind].
  destruct (proj1 (sized_len _) (sections_ok_sized _ sections_ok)) as [k Hk].
  rewrite Hk. cbn [obind].
  destruct (proj1 (text_words _) abstract_text) as [n Hn]. rewrite Hn. cbn [obind].
  eauto.
Qed.

Lemma accepted_weaknesses (scores : list (string * float)) :
  exists l, _identify_weaknesses paper scores = Ret l.
Proof.
  unfold _identify_weaknesses, count_of, paper. cbn [dict_get obind].
  fold sections references.
  destruct (proj1 (sized_len _) references_sized) as [r Hr]. rewrite Hr. cbn [obind].
  destruct (proj1 (sized_len _) (sections_ok_sized _ sections_ok)) as [k Hk].
  rewrite Hk. cbn [obind].
  destruct (sections_ok_headings _ sections_ok) as [hs Hhs]. rewrite Hhs.
  cbn [obind]. eauto.
Qed.

Lemma accepted_details : exists v, _analyze_methodology_details paper = Ret v.
Proof.
  unfold _analyze_methodology_details, paper. cbn [dict_get obind]. fold sections.
  destruct (sections_ok_items _ sections_ok) as (items & Hit & Hall).
  rewrite Hit. cbn [obind].
  destruct (filter_m_total
              (fun s => let? h := heading_lower s in Ret (contains "method" h))
              (fun s => Paper.section_ok s = true) items) as (ms & Hms & Hok).
  { eapply Forall_impl; [exact Hall |]. intros s [[h Hh] _]%section_ok_reads.
    rewrite Hh. simpl. eauto. }
  { exact Hall. }
  rewrite Hms. cbn [obind].
  destruct (map_m_total
              (fun s => let? c := dict_get s "content" (VStr "") in py_len c) ms)
    as [lens Hlens].
  { eapply Forall_impl; [exact Hok |].
    intros s [_ (c & Hc & Hct)]%section_ok_reads. rewrite Hc. simpl.
    destruct c; try discriminate. simpl. eauto. }
  rewrite Hlens. cbn [obind]. eauto.
Qed.

Lemma accepted_metrics : exists v, _compute_clarity_metrics paper = Ret v.
Proof.
  unfold _compute_clarity_metrics, count_of, paper. cbn [dict_get obind].
  fold abstract sections references.
  destruct (proj1 (text_words _) abstract_text) as [n Hn]. rewrite Hn. cbn [obind].
  destruct (proj1 (sized_len _) (sections_ok_sized _ sections_ok)) as [k Hk].
  rewrite Hk. cbn [obind].
  destruct (proj1 (sized_len _) references_sized) as [r Hr]. rewrite Hr. cbn [obind].
  eauto.
Qed.

Lemma accepted_analysis (focus_areas : value) :
  exists r, analyze_paper paper focus_areas = Ret r.
Proof.
  unfold analyze_paper.
  assert (exists s, _assess_novelty paper = Ret s) as [s1 ->]
    by (unfold _assess_novelty, paper; cbn [dict_get obind]; eauto).
  cbn [obind].
  destruct accepted_methodology as [s2 ->]. cbn [obind].
  destruct accepted_clarity as [s3 ->]. cbn [obind].
  destruct accepted_reproducibility as [s4 ->]. cbn [obind].
  match goal with
  | |- context [_identify_strengths paper ?sc] =>
      destruct (accepted_strengths sc) as [st ->]; cbn [obind];
      destruct (accepted_weaknesses sc) as [wk ->]; cbn [obind]
  end.
  destruct accepted_details as [de ->]. cbn [obind].
  destruct accepted_metrics as [me ->]. cbn [obind].
  eauto.
Qed.

End Accepted.

Lemma analysis_reads (paper focus_areas r : value) :
  analyze_paper paper focus_areas = Ret r -> Paper.accepted paper = true.
Proof.
  unfold analyze_paper.
  intros (s1 & _ & K)%obind_ret.
  apply obind_ret in K as (s2 & _ & K).
  apply obind_ret in K as (s3 & Hc & K).
  apply obind_ret in K as (s4 & Hr & K).
  apply obind_ret in K as (st & Hs & _).
  destruct paper as [| | | | | | d]; try discriminate Hc.
  unfold _assess_clarity in Hc. cbn [dict_get obind] in Hc.
  apply obind_ret in Hc as (n & Hn & Hc).
  apply obind_ret in Hc as (k & _ & Hc).
  apply obind_ret in Hc as (hs & Hhs & _).
  unfold _assess_reproducibility in Hr. cbn [dict_get obind] in Hr.
  apply obind_ret in Hr as (t & Ht & _).
  unfold _identify_strengths, count_of in Hs. cbn [dict_get obind] in Hs.
  apply obind_ret in Hs as (refs & Hrefs & _).
  simpl.
  rewrite (proj2 (text_words _) (ex_intro _ n Hn)).
  rewrite (sections_read _ _ _ Hhs Ht).
  rewrite (proj2 (sized_len _) (ex_intro _ refs Hrefs)).
  reflexivity.
Qed.

Lemma analysis_accepts (paper focus_areas : value) :
  Paper.accepted paper = true -> exists r, analyze_paper paper focus_areas = Ret r.
Proof.
  destruct paper as [| | | | | | d]; try discriminate. simpl.
  intros [[Ha Hs]%andb_true_iff Hr]%andb_true_iff.
  apply accepted_analysis; assumption.
Qed.

(** X14: the analysis returns exactly on the papers that are a dict whose
    abstract (where given) is a string, whose sections are a list of dicts
    with string headings and contents, and whose references have a length;
    on any other paper it raises. *)
Theorem analysis_returns_on_readable_papers (paper focus_areas : value) :
  (exists r, analyze_paper paper focus_areas = Ret r)
  <-> Paper.accepted paper = true.
Proof.
  split.
  - intros [r Hr]. eapply analysis_reads, Hr.
  - apply analysis_accepts.
Qed.

(** *** The lists of an analysis *)

Lemma texts_listed (l : list string) :
  l <> [] -> Paper.some_texts (VList (map VStr l)) = true.
Proof.
  destruct l as [| x l]; [congruence |]. intros _. simpl.
  induction l as [| y l IH]; [reflexivity | exact IH].
Qed.

Lemma or_default_nonempty {A} (l : list A) (x : A) (rest : list A) :
  match l with [] => x :: rest | _ => l end <> [].
Proof. destruct l; discriminate. Qed.

Lemma strengths_nonempty (paper : value) (scores : list (string * float))
    (l : list string) :
  _identify_strengths paper scores = Ret l -> l <> [].
Proof.
  unfold _identify_strengths.
  returned_as refs. returned_as secs. returned_as abstract. returned_as words.
  intros [= <-]. apply or_default_nonempty.
Qed.

Lemma weaknesses_nonempty (paper : value) (scores : list (string * float))
    (l : list string) :
  _identify_weaknesses paper scores = Ret l -> l <> [].
Proof.
  unfold _identify_weaknesses.
  returned_as refs. returned_as sections. returned_as secs. returned_as headings.
  intros [= <-]. apply or_default_nonempty.
Qed.

Lemma recommendations_nonempty (paper : value) (weaknesses : list string) :
  _generate_recommendations paper weaknesses <> [].
Proof. unfold _generate_recommendations. apply or_default_nonempty. Qed.

(** X15: every analysis names at least one strength, one weakness and one
    recommendation: each of the three lists is a non-empty list of
    strings. *)
Theorem analysis_lists_are_never_empty (paper focus_areas r : value) :
  analyze_paper paper focus_areas = Ret r ->
  Paper.some_texts (default VNone (field "strengths" r)) = true /\
  Paper.some_texts (default VNone (field "weaknesses" r)) = true /\
  Paper.some_texts (default VNone (field "recommendations" r)) = true.
Proof.
  intros (n1 & b & n2 & b1 & b2 & n3 & n4 & n5 & st & wk & de & me
          & _ & Hs & Hw & ->)%analysis_form.
  simpl. split; [eapply texts_listed, strengths_nonempty, Hs |].
  split; [eapply texts_listed, weaknesses_nonempty, Hw |].
  apply texts_listed, recommendations_nonempty.
Qed.

Lemma novelty_not_weak :
  Scores.each_novelty (fun a => negb (PrimFloat.ltb a 5)) = true.
Proof. vm_compute. reflexivity. Qed.

Lemma methodology_not_weak :
  Scores.each_methodology (fun a => negb (PrimFloat.ltb a 5)) = true.
Proof. vm_compute. reflexivity. Qed.

Lemma clarity_not_weak :
  Scores.each_clarity (fun a => negb (PrimFloat.ltb a 5)) = true.
Proof. vm_compute. reflexivity. Qed.

(** X16: the only category ever reported as weak is reproducibility: the
    three other scores start at 5 and only gain, so every reported weakness
    is one of five messages. *)
Theorem only_reproducibility_is_weak (paper focus_areas r : value) :
  analyze_paper paper focus_areas = Ret r ->
  exists l, field "weaknesses" r = Some (VList (map VStr l)) /\
            forall w, In w l -> In w Paper.weakness_messages.
Proof.
  intros (n1 & b & n2 & b1 & b2 & n3 & n4 & n5 & st & wk & de & me
          & (L1 & L2 & L3 & L4 & L5) & _ & Hw & ->)%analysis_form.
  exists wk. split; [reflexivity |].
  pose proof (each_novelty_at _ n1 novelty_not_weak L1) as H1.
  pose proof (each_methodology_at _ b n2 methodology_not_weak L2) as H2.
  pose proof (each_clarity_at _ b1 b2 n3 clarity_not_weak L3) as H3.
  cbv beta in H1, H2, H3. apply negb_true_iff in H1, H2, H3.
  revert Hw. unfold _identify_weaknesses.
  returned_as refs. returned_as sections. returned_as secs. returned_as headings.
  intros [= <-]. cbn [List.filter snd fst map]. rewrite H1, H2, H3.
  unfold Paper.weakness_messages.
  destruct (PrimFloat.ltb (Scores.reproducibility n4 n5) 5);
    destruct (Nat.ltb refs 10); destruct (Nat.ltb secs 4);
    destruct (negb (existsb (contains "result") headings));
    simpl; intros w Hin; intuition.
Qed.

End Critic.

Lemma scores_stay_in_range_witness :
  @CriticScoring.analyze_paper Sample.python Reviewed.plain Reviewed.test_paper VNone
  = Ret Reviewed.analysis /\
  exists novelty methodology clarity reproducibility overall,
    field "detailed_scores" Reviewed.analysis
    = Some (VDict [("novelty", novelty); ("methodology", methodology);
                   ("clarity", clarity); ("reproducibility", reproducibility)]) /\
    field "overall_score" Reviewed.analysis = Some overall /\
    Paper.in_range (5 # 1) (8 # 1) novelty = true /\
    Paper.in_range (5 # 1) (9 # 1) methodology = true /\
    Paper.in_range (5 # 1) (10 # 1) clarity = true /\
    Paper.in_range (4 # 1) (46 # 5) reproducibility = true /\
    Paper.in_range (19 # 4) (91 # 10) overall = true.
Proof.
  split; [vm_compute; reflexivity |].
  apply (@scores_stay_in_range Sample.python Reviewed.plain Reviewed.test_paper VNone).
  vm_compute. reflexivity.
Defined.

Lemma analysis_lists_are_never_empty_witness :
  @CriticScoring.analyze_paper Sample.python Reviewed.plain Reviewed.test_paper VNone
  = Ret Reviewed.analysis /\
  Paper.some_texts (default VNone (field "strengths" Reviewed.analysis)) = true /\
  Paper.some_texts (default VNone (field "weaknesses" Reviewed.analysis)) = true /\
  Paper.some_texts (default VNone (field "recommendations" Reviewed.analysis)) = true.
Proof.
  split; [vm_compute; reflexivity |].
  apply (@analysis_lists_are_never_empty Sample.python Reviewed.plain Reviewed.test_paper VNone).
  vm_compute. reflexivity.
Defined.

Lemma only_reproducibility_is_weak_witness :
  @CriticScoring.analyze_paper Sample.python Reviewed.plain Reviewed.test_paper VNone
  = Ret Reviewed.analysis /\
  exists l, field "weaknesses" Reviewed.analysis = Some (VList (map VStr l)) /\
            forall w, In w l -> In w Paper.weakness_messages.
Proof.
  split; [vm_compute; reflexivity |].
  apply (@only_reproducibility_is_weak Sample.python Reviewed.plain Reviewed.test_paper VNone).
  vm_compute. reflexivity.
Defined.
(** ** From the reader to the critic *)

Section ReaderToCritic.
Context `{Python} `{interpreter : PyMore.Summation} `{Re}.

Lemma extracted_sections_ok `{Services} (text : string) :
  forallb Paper.section_ok (ReaderAgent._extract_sections text) = true.
Proof.
  apply forallb_forall. intros x Hx. unfold ReaderAgent._extract_sections in Hx.
  apply list_elem_of_In, elem_of_take in Hx as (i & Hx & _).
  apply list_elem_of_lookup_2, list_elem_of_In, in_concat in Hx
    as (l & Hl & Hx).
  apply in_map_iff in Hl as (pattern & <- & _).
  apply in_map_iff in Hx as (m & <- & _).
  reflexivity.
Qed.

Lemma extract_from_pdf_accepted `{Services} (path : value) (w w' : World)
    (d : value) :
  ReaderAgent._extract_from_pdf path w = (Ret d, w') -> Paper.accepted d = true.
Proof.
  unfold ReaderAgent._extract_from_pdf, ReaderAgent._generate_paper_id,
    bind, ret, uuid4, now.
  destruct (fitz_open path w) as [[doc | e] w1]; [| discriminate].
  simpl. intros [= <- _]. simpl. rewrite extracted_sections_ok. reflexivity.
Qed.

Lemma extract_paper_accepted `{Services} (source kind : value) (w w' : World)
    (d : value) :
  ReaderAgent.extract_paper source kind w = (Ret d, w') -> Paper.accepted d = true.
Proof.
  unfold ReaderAgent.extract_paper.
  destruct (eq_str kind "pdf"); [apply extract_from_pdf_accepted |].
  destruct (eq_str kind "arxiv_id"); [| discriminate].
  unfold bind.
  destruct (ReaderAgent._download_arxiv_paper source w) as [[p | e] w1];
    [apply extract_from_pdf_accepted | discriminate].
Qed.

(** X17: whatever the documents and the regular expressions give, the
    critic's analysis returns on the data of every response of the reader's
    adapter. *)
Theorem critic_reads_every_extracted_paper `{Services} (self : agent_self)
    (msg focus_areas : value) (w : World) :
  well_formed msg = true ->
  returns (ReaderAgent.process_message self msg) w
          (fun env _ =>
             forall d, response_with env d ->
                       exists r, CriticScoring.analyze_paper d focus_areas = Ret r).
Proof.
  intros Hwf.
  eapply returns_mono; [apply (adapter_envelope Extraction self msg w Hwf) |].
  intros env _ (action & _ & Henv) d [Hkind Hdata].
  apply analysis_accepts.
  destruct (eq_str action (declared_action Extraction)).
  - destruct Henv as (Hlogic & _ & _).
    destruct (stage_logic Extraction (message_data msg) w) as [[r | e] w1] eqn:Hrun.
    + destruct Hlogic as [_ Hr]. rewrite Hdata in Hr. injection Hr as ->.
      eapply extract_paper_accepted, Hrun.
    + destruct Hlogic as [Hk _]. rewrite Hkind in Hk. discriminate.
  - subst env. discriminate.
Qed.

End ReaderToCritic.

(** ** The critique stage of the deployed workflow *)

Section CritiqueStage.
Context `{Python} `{interpreter : PyMore.Summation} `{Re}.
Variable sv : Services.

(** A run of the four nodes with the reader and the critic as deployed,
    from a state with no paper and no error: the analysis left is the
    critic's analysis of the paper left, and the critique node records
    nothing. *)
Lemma deployed_chain (self1 self2 : agent_self) (meta cite : Agent)
    (input final : ReviewState) :
  paper_content input = VDict [] -> errors input = [] ->
  Run.chain (fun s a st w st' => node_post s a st w st' /\ Run.node_record s a st w st')
            (Deployed.reader sv self1) (Deployed.critic sv self2) meta cite
            input final ->
  exists e1 e3 e4,
    CriticScoring.analyze_paper (paper_content final) VNone
    = Ret (critic_analysis final) /\
    errors final = Run.accumulated e1 [] e3 e4.
Proof.
  intros Hpaper Herrors
    (w1 & w2 & w3 & w4 & u1 & u2 & u3 & u4
     & [N1 R1] & [N2 R2] & [N3 R3] & [N4 R4] & ->).
  unfold Deployed.reader, Deployed.critic in *.
  (* the extraction leaves a paper the critic reads *)
  assert (A1 : Paper.accepted (paper_content u1) = true).
  { destruct N1 as [_ Post1].
    match type of Post1 with
    | context [request_of Extraction ?st ?w0] =>
        destruct (@own_adapter_reply _ _ (Deployed.services sv) Extraction
                    self1 st w0) as (env1 & w1' & Hcall1 & Hlogic1)
    end.
    rewrite Hcall1 in Post1. destruct Post1 as [Hresp Herr].
    match type of Hlogic1 with
    | context [stage_logic ?s ?dat ?w0] =>
        destruct (stage_logic s dat w0) as [[r | e] w0'] eqn:Hrun
    end.
    - destruct (Hresp _ Hlogic1) as [Ho | [Hc _]]; [| discriminate].
      simpl in Ho. rewrite Ho. eapply extract_paper_accepted, Hrun.
    - destruct (Herr _ Hlogic1) as [Ho _]. simpl in Ho. rewrite Ho, Hpaper.
      reflexivity. }
  destruct (analysis_accepts (paper_content u1) VNone A1) as [r Hr].
  (* so the critic answers, and the node records nothing *)
  destruct R2 as [_ Rec2].
  match type of Rec2 with
  | context [request_of Critique ?st ?w0] =>
      destruct (@own_adapter_reply _ _ (Deployed.services sv) Critique
                  self2 st w0) as (env2 & w2' & Hcall2 & Hlogic2)
  end.
  rewrite Hcall2 in Rec2.
  simpl in Hlogic2. unfold CriticAgent.analyze_paper, pure_op in Hlogic2.
  simpl in Hlogic2. rewrite Hr in Hlogic2.
  destruct (Rec2 r Hlogic2 (analysis_presentable _ _ _ Hr)) as [O2 E2].
  destruct R1 as [(e1 & E1 & _) _].
  destruct R3 as [(e3 & E3 & _) _].
  destruct R4 as [(e4 & E4 & _) _].
  apply proj1, entered_fields in N2, N3, N4.
  destruct N2 as (_ & _ & _ & _ & _ & P2 & _).
  destruct N3 as (_ & _ & _ & _ & _ & P3 & C3 & _).
  destruct N4 as (_ & _ & _ & _ & _ & P4 & C4 & _).
  specialize (P2 ltac:(discriminate)). specialize (P3 ltac:(discriminate)).
  specialize (P4 ltac:(discriminate)). specialize (C3 ltac:(discriminate)).
  specialize (C4 ltac:(discriminate)).
  simpl in *.
  exists e1, e3, e4. split; [congruence |].
  unfold Run.accumulated.
  rewrite E4, E3, E2, E1, Herrors. simpl. rewrite <- !app_assoc. reflexivity.
Qed.


End CritiqueStage.

Lemma critic_reads_every_extracted_paper_witness :
  returns (@ReaderAgent.process_message Sample.python Sample.regex Sample.services
             Sample.self Cases.file_request)
          Sample.world
          (fun env _ =>
             forall d, response_with env d ->
                       exists r, @CriticScoring.analyze_paper Sample.python Reviewed.plain d VNone
                                 = Ret r).
Proof.
  apply (@critic_reads_every_extracted_paper Sample.python Reviewed.plain
           Sample.regex Sample.services).
  reflexivity.
Defined.
(** ** Strengths against weaknesses *)

Section Consistency.
Context `{Python} `{interpreter : PyMore.Summation}.
Import PyMore CriticScoring.

Lemma in_or_default {A} (x : A) (l d : list A) :
  In x (match l with [] => d | _ => l end) -> In x l \/ (l = [] /\ In x d).
Proof. destruct l; auto. Qed.

Lemma in_strong (x : string) (scores : list (string * float)) :
  In x (map (fun cs => "Strong " +:+ fst cs
                       +:+ ": well-executed and clearly presented")
            (List.filter (fun cs => PrimFloat.leb 7.5 (snd cs)) scores)) ->
  exists c s, In (c, s) scores /\ PrimFloat.leb 7.5 s = true /\
              x = "Strong " +:+ c +:+ ": well-executed and clearly presented".
Proof.
  intros ([c s] & <- & [Hin Hs]%filter_In)%in_map_iff. exists c, s. auto.
Qed.

Lemma in_weak (x : string) (scores : list (string * float)) :
  In x (map (fun cs => "Weak " +:+ fst cs +:+ ": needs improvement")
            (List.filter (fun cs => PrimFloat.ltb (snd cs) 5) scores)) ->
  exists c s, In (c, s) scores /\ PrimFloat.ltb s 5 = true /\
              x = "Weak " +:+ c +:+ ": needs improvement".
Proof.
  intros ([c s] & <- & [Hin Hs]%filter_In)%in_map_iff. exists c, s. auto.
Qed.

Lemma in_added {A} (x y : A) (b : bool) (l : list A) :
  In x (if b then (l ++ [y])%list else l) -> In x l \/ (b = true /\ x = y).
Proof.
  destruct b; [| auto]. intros [Hl | [<- | []]]%in_app_or; auto.
Qed.

Ltac four_scores Hin :=
  simpl in Hin;
  destruct Hin as [Hin | [Hin | [Hin | [Hin | []]]]]; injection Hin as <- <-.

(** Where a strength comes from. *)
Lemma strength_origin (paper : value) (a b c d : float) (l : list string)
    (x : string) :
  _identify_strengths paper
    [("novelty", a); ("methodology", b); ("clarity", c); ("reproducibility", d)]
  = Ret l ->
  In x l ->
  (x = "Comprehensive literature review with extensive citations" ->
   exists n, count_of paper "references" = Ret n /\ 30 < n) /\
  (x = "Well-structured paper with detailed sections" ->
   exists n, count_of paper "sections" = Ret n /\ 6 < n) /\
  (x = "Strong reproducibility: well-executed and clearly presented" ->
   PrimFloat.leb 7.5 d = true).
Proof.
  unfold _identify_strengths.
  intros (refs & Hrefs & K)%obind_ret.
  apply obind_ret in K as (secs & Hsecs & K).
  apply obind_ret in K as (abstract & _ & K).
  apply obind_ret in K as (words & _ & K).
  injection K as <-.
  intros [Hin | [_ [<- | []]]]%in_or_default;
    [| repeat split; discriminate].
  apply in_added in Hin as [Hin | [_ ->]]; [| repeat split; discriminate].
  apply in_added in Hin as [Hin | [Hlt ->]].
  apply in_added in Hin as [Hin | [Hlt ->]].
  - apply (in_strong x [("novelty", a); ("methodology", b); ("clarity", c);
                        ("reproducibility", d)])
      in Hin as (cat & s & Hin & Hs & ->).
    four_scores Hin; repeat split; try discriminate. intros _. exact Hs.
  - repeat split; try discriminate.
    intros _. exists refs. split; [assumption |]. apply Nat.ltb_lt, Hlt.
  - repeat split; try discriminate.
    intros _. exists secs. split; [assumption |]. apply Nat.ltb_lt, Hlt.
Qed.

(** Where a weakness comes from. *)
Lemma weakness_origin (paper : value) (a b c d : float) (l : list string)
    (x : string) :
  _identify_weaknesses paper
    [("novelty", a); ("methodology", b); ("clarity", c); ("reproducibility", d)]
  = Ret l ->
  In x l ->
  (x = "Limited references - needs more literature review" ->
   exists n, count_of paper "references" = Ret n /\ n < 10) /\
  (x = "Limited section structure - could be more detailed" ->
   exists n, count_of paper "sections" = Ret n /\ n < 4) /\
  (x = "Weak reproducibility: needs improvement" ->
   PrimFloat.ltb d 5 = true).
Proof.
  unfold _identify_weaknesses.
  intros (refs & Hrefs & K)%obind_ret.
  apply obind_ret in K as (sections & Hsections & K).
  apply obind_ret in K as (secs & Hsecs & K).
  apply obind_ret in K as (headings & _ & K).
  injection K as <-.
  assert (Hcount : count_of paper "sections" = Ret secs)
    by (unfold count_of; rewrite Hsections; exact Hsecs).
  intros [Hin | [_ [<- | []]]]%in_or_default;
    [| repeat split; discriminate].
  apply in_added in Hin as [Hin | [_ ->]]; [| repeat split; discriminate].
  apply in_added in Hin as [Hin | [Hlt ->]].
  apply in_added in Hin as [Hin | [Hlt ->]].
  - apply (in_weak x [("novelty", a); ("methodology", b); ("clarity", c);
                      ("reproducibility", d)])
      in Hin as (cat & s & Hin & Hs & ->).
    four_scores Hin; repeat split; try discriminate. intros _. exact Hs.
  - repeat split; try discriminate.
    intros _. exists refs. split; [assumption |]. apply Nat.ltb_lt, Hlt.
  - repeat split; try discriminate.
    intros _. exists secs. split; [exact Hcount |]. apply Nat.ltb_lt, Hlt.
Qed.

Lemma strong_or_weak :
  Scores.each_reproducibility
    (fun d => negb (PrimFloat.leb 7.5 d && PrimFloat.ltb d 5)) = true.
Proof. vm_compute. reflexivity. Qed.

(** X19: an analysis never contradicts itself: it does not praise the
    citations and call the references limited, praise the structure and call
    it limited, or call reproducibility both strong and weak. *)
Theorem analysis_is_consistent (paper focus_areas r : value) :
  analyze_paper paper focus_areas = Ret r ->
  exists strengths weaknesses,
    field "strengths" r = Some (VList (map VStr strengths)) /\
    field "weaknesses" r = Some (VList (map VStr weaknesses)) /\
    forall s w, In (s, w) Paper.opposites ->
                ~ (In s strengths /\ In w weaknesses).
Proof.
  intros (n1 & b & n2 & b1 & b2 & n3 & n4 & n5 & st & wk & de & me
          & (L1 & L2 & L3 & L4 & L5) & Hs & Hw & ->)%analysis_form.
  cbv zeta in Hs, Hw.
  exists st, wk. split; [reflexivity |]. split; [reflexivity |].
  intros s w Hsw [Hst Hwk].
  destruct (strength_origin _ _ _ _ _ _ _ Hs Hst) as (S1 & S2 & S3).
  destruct (weakness_origin _ _ _ _ _ _ _ Hw Hwk) as (W1 & W2 & W3).
  simpl in Hsw. destruct Hsw as [Hsw | [Hsw | [Hsw | []]]]; injection Hsw as <- <-.
  - destruct (S1 eq_refl) as (n & Hn & Hlt). destruct (W1 eq_refl) as (m & Hm & Hlt').
    rewrite Hn in Hm. injection Hm as <-. lia.
  - destruct (S2 eq_refl) as (n & Hn & Hlt). destruct (W2 eq_refl) as (m & Hm & Hlt').
    rewrite Hn in Hm. injection Hm as <-. lia.
  - pose proof (each_reproducibility_at _ n4 n5 strong_or_weak L4 L5) as Hd.
    cbv beta in Hd. rewrite (S3 eq_refl), (W3 eq_refl) in Hd. discriminate.
Qed.

End Consistency.

(** ** From the critic to the meta reviewer *)

Section Recommendation.
Context `{Python} `{interpreter : PyMore.Summation}.
Import PyMore CriticScoring.

(** X20: the recommendation made from an analysis of the critic is never a
    rejection: the overall score is at least 4.75, above the 4.5 that a
    rejection needs, so the recommendation is one of the three others. *)
Theorem critic_scores_are_never_rejected (paper focus_areas r : value) :
  analyze_paper paper focus_areas = Ret r ->
  exists verdict,
    MetaRules._make_recommendation r = Ret verdict /\
    In verdict [MetaRules.accept; MetaRules.weak_accept; MetaRules.major_revisions].
Proof.
  intros (n1 & b & n2 & b1 & b2 & n3 & n4 & n5 & st & wk & de & me
          & (L1 & L2 & L3 & L4 & L5) & _ & _ & ->)%analysis_form.
  pose proof (overall_in_range n1 n2 n3 n4 n5 b b1 b2 L1 L2 L3 L4 L5) as Hq.
  apply andb_true_iff, proj1, above_the_floor, proj1 in Hq.
  unfold MetaRules._make_recommendation. cbn [dict_get obind find_key].
  simpl String.eqb. cbn [default from_option id]. unfold VFloat_of.
  cbn [MetaRules.ge_float obind].
  destruct (Qle_bool (15 # 2) _); [eexists; split; [reflexivity |]; simpl; auto |].
  destruct (Qle_bool (6 # 1) _); [eexists; split; [reflexivity |]; simpl; auto |].
  rewrite Hq. eexists; split; [reflexivity |]; simpl; auto.
Qed.

End Recommendation.

Lemma analysis_is_consistent_witness :
  @CriticScoring.analyze_paper Sample.python Reviewed.plain Reviewed.test_paper VNone
  = Ret Reviewed.analysis /\
  exists strengths weaknesses,
    field "strengths" Reviewed.analysis = Some (VList (map VStr strengths)) /\
    field "weaknesses" Reviewed.analysis = Some (VList (map VStr weaknesses)) /\
    forall s w, In (s, w) Paper.opposites ->
                ~ (In s strengths /\ In w weaknesses).
Proof.
  split; [vm_compute; reflexivity |].
  apply (@analysis_is_consistent Sample.python Reviewed.plain Reviewed.test_paper VNone).
  vm_compute. reflexivity.
Defined.

Lemma critic_scores_are_never_rejected_witness :
  @CriticScoring.analyze_paper Sample.python Reviewed.plain Reviewed.test_paper VNone
  = Ret Reviewed.analysis /\
  exists verdict,
    MetaRules._make_recommendation Reviewed.analysis = Ret verdict /\
    In verdict [MetaRules.accept; MetaRules.weak_accept; MetaRules.major_revisions].
Proof.
  split; [vm_compute; reflexivity |].
  apply (@critic_scores_are_never_rejected Sample.python Reviewed.plain Reviewed.test_paper VNone).
  vm_compute. reflexivity.
Defined.
(** ** The evaluation harness *)

Section Constraints.
Context `{Python}.
Import PyMore.

(** What a check that returns is made of: the eight conditions in order,
    the two on the critic reading the analysis of the result. *)
Lemma check_form (result constraints : value) (l : list string) :
  Harness._check_constraints result constraints = Ret l ->
  exists critique b1 b2 b3 b4 b5 b6 b7 b8,
    dict_get result "critic_analysis" (VDict []) = Ret critique /\
    l = Harness.noting b8 "CiteAgent failed to find related papers"
          (Harness.noting b7 "MetaReviewer agent failed"
             (Harness.noting b6 "Critic agent failed"
                (Harness.noting b5 "Reader agent failed"
                   (Harness.noting b4 "Missing ELI5 summary"
                      (Harness.noting b3 "Missing critical analysis"
                         (Harness.noting b2 "Failed to extract meaningful abstract"
                            (Harness.noting b1 "Failed to extract paper title"
                               []))))))) /\
    (b3 = true ->
     truthy critique = false \/
     exists score, dict_get critique "overall_score" VNone = Ret score /\
                   truthy score = false) /\
    (b6 = true -> truthy critique = false).
Proof.
  unfold Harness._check_constraints.
  returned_as paper_content. returned_as critique. returned_as review.
  returned_as c1. returned_as b1. returned_as c2. returned_as b2.
  returned_as c3. returned_as b3. returned_as c4. returned_as b4.
  returned_as metadata. returned_as c5. returned_as b5.
  returned_as c6. returned_as c7. returned_as c8. returned_as b8.
  intros [= <-].
  exists critique, b1, b2, b3, b4, b5, (c6 && negb (truthy critique)),
    (c7 && negb (truthy review)), b8.
  split; [assumption |]. split; [reflexivity |]. split.
  - intros ->.
    match goal with
    | Hb : _ = Ret true |- _ => rename Hb into Hb3
    end.
    destruct c3; [| discriminate].
    destruct (truthy critique); [right | left; reflexivity].
    simpl in Hb3. apply obind_ret in Hb3 as (score & Hscore & [= Ht]).
    exists score. split; [exact Hscore |]. apply negb_true_iff, Ht.
  - intros [_ Ht]%andb_true_iff. apply negb_true_iff, Ht.
Qed.

Ltac pick_sublist :=
  repeat first [ apply sublist_nil | apply sublist_skip | apply sublist_cons ].

(** X21: whatever the result and the constraints, the violations a check
    returns are some of eight fixed messages, each at most once and in the
    order of the checks. *)
Theorem violations_are_known_messages (result constraints : value)
    (l : list string) :
  Harness._check_constraints result constraints = Ret l ->
  sublist l Harness.messages.
Proof.
  intros (critique & b1 & b2 & b3 & b4 & b5 & b6 & b7 & b8 & _ & -> & _)%check_form.
  unfold Harness.messages.
  destruct b1, b2, b3, b4, b5, b6, b7, b8; simpl; pick_sublist.
Qed.

Lemma noting_in (x m : string) (b : bool) (l : list string) :
  In x (Harness.noting b m l) -> In x l \/ (b = true /\ x = m).
Proof.
  unfold Harness.noting. destruct b; [| auto].
  intros [Hl | [<- | []]]%in_app_or; auto.
Qed.

(** X22: the metrics never file a violation that a check returned under
    [timeout]: its category is [extraction_failure], [agent_failure] or
    [other]. *)
Theorem violations_are_never_timeouts (result constraints : value)
    (l : list string) (v : string) :
  Harness._check_constraints result constraints = Ret l ->
  In v l ->
  In (Harness.category v) ["extraction_failure"; "agent_failure"; "other"].
Proof.
  intros (critique & b1 & b2 & b3 & b4 & b5 & b6 & b7 & b8 & _ & -> & _)%check_form
    Hin.
  repeat match type of Hin with
         | In _ (Harness.noting _ _ _) =>
             apply noting_in in Hin as [Hin | [_ ->]];
             [| vm_compute; tauto]
         end.
  destruct Hin.
Qed.

End Constraints.

(** ** Deployed runs under the harness *)

Section DeployedChecks.
Context `{Python} `{interpreter : PyMore.Summation} `{Re}.
Variable sv : Services.
Import PyMore CriticScoring.

(** X23: a result of the workflow with the reader and the critic as
    deployed never fails the two checks on the critic: whatever the
    constraints, a check that returns reports neither a missing critical
    analysis nor a failed critic agent. *)
Theorem deployed_runs_pass_the_critic_checks (self1 self2 : agent_self)
    (meta cite : Agent) (src ty : string) (w : World) :
  returns (review_paper
             (assemble (Deployed.reader sv self1) (Deployed.critic sv self2)
                       meta cite) src ty) w
    (fun result _ =>
       forall constraints l,
         Harness._check_constraints result constraints = Ret l ->
         ~ In "Missing critical analysis" l /\ ~ In "Critic agent failed" l).
Proof.
  eapply returns_mono; [apply (review_paper_chain _ node_spec_and_record) |].
  intros result _ (final & Hrun & _ & Hca & _).
  apply (deployed_chain sv) in Hrun as (e1 & e3 & e4 & Han & _);
    [| reflexivity | reflexivity].
  set (analysis := critic_analysis final) in *. clearbody analysis.
  intros constraints l
    (critique & b1 & b2 & b3 & b4 & b5 & b6 & b7 & b8 & Hcr & -> & H3 & H6)%check_form.
  assert (critique = analysis) as ->.
  { destruct result as [| | | | | | d]; try discriminate Hca. simpl in Hca, Hcr.
    rewrite Hca in Hcr. simpl in Hcr. congruence. }
  apply analysis_form in Han
    as (n1 & b & n2 & c1 & c2 & n3 & n4 & n5 & st & wk & de & me
        & (L1 & L2 & L3 & L4 & L5) & _ & _ & ->).
  pose proof (overall_in_range n1 n2 n3 n4 n5 b c1 c2 L1 L2 L3 L4 L5) as Hset.
  apply andb_true_iff, proj1, above_the_floor, proj2 in Hset.
  assert (b3 = false) as ->.
  { destruct b3; [| reflexivity]. destruct (H3 eq_refl) as [Ht | (score & Hs & Ht)].
    - discriminate Ht.
    - assert (Hs' : Ret (VFloat
                           (Q_of_float
                              (mean [Scores.novelty n1; Scores.methodology b n2;
                                     Scores.clarity c1 c2 n3;
                                     Scores.reproducibility n4 n5])))
                    = Ret score) by exact Hs.
      assert (Htrue : truthy score = true) by congruence.
      rewrite Htrue in Ht. discriminate Ht. }
  assert (b6 = false) as ->.
  { destruct b6; [| reflexivity]. discriminate (H6 eq_refl). }
  split; intros Hin;
    repeat match type of Hin with
           | In _ (Harness.noting _ _ _) =>
               apply noting_in in Hin as [Hin | [Hb Heq]];
               [| first [discriminate Hb | discriminate Heq]]
           end;
    destruct Hin.
Qed.

End DeployedChecks.

Lemma violations_are_known_messages_witness :
  @Harness._check_constraints Sample.python Checked.result Checked.constraints
  = Ret Checked.violations /\
  sublist Checked.violations Harness.messages.
Proof.
  split; [vm_compute; reflexivity |].
  apply (@violations_are_known_messages Sample.python Checked.result
           Checked.constraints).
  vm_compute. reflexivity.
Defined.

Lemma violations_are_never_timeouts_witness :
  In (Harness.category "Missing ELI5 summary")
     ["extraction_failure"; "agent_failure"; "other"].
Proof.
  apply (@violations_are_never_timeouts Sample.python Checked.result
           Checked.constraints Checked.violations).
  - vm_compute. reflexivity.
  - simpl. auto.
Defined.
